(** * neurons/miner.py: the training-and-publish lifecycle of the miner

    A shallow embedding of [load_starting_model] and [main] of
    [neurons/miner.py].

    - Python [float] is IEEE 754 binary64: modelled by [spec_float] of the
      standard library with precision 53 and maximal exponent 1024.
    - Python [int] is [Z]; [%] and [/] raise [ZeroDivisionError] on a zero
      divisor, written out in [py_mod] and [float_truediv_int].
    - [main] is effectful: a state-and-exception monad [M] threads the local
      variables of [main], the model's parameters and gradient buffer, and
      the checkpoint directory on disk, and records every call to a
      collaborator (bittensor, taoverse, wandb, torch, pretrain) as an
      [event].
    - Everything the collaborators decide is read from a [world]: the
      constraints table, the registration check, the environment variables,
      and the micro-batches each epoch's loader yields.  The operator's
      signal is part of it: a loader may end in [KeyboardInterrupt].
    - The loop may run for ever: it is unrolled along the epochs the world
      supplies and is [Pending] when they run out while its test holds.
    - Not recorded: the two [print] calls, the arguments of calls the
      control flow does not depend on, and the failures of collaborators
      other than the two start-up checks and a missing checkpoint. *)

From Stdlib Require Import ZArith List Bool Lia Sorted.
From Stdlib Require Import Floats.SpecFloat.
From stdpp Require Import gmap strings list fin_maps.

Local Open Scope Z_scope.

(** ** Python floats *)

Module PyFloat.

Definition float : Type := spec_float.

Definition prec : Z := 53.
Definition emax : Z := 1024.

(** [math.inf] *)
Definition inf : float := S754_infinity false.

(** [0.0] *)
Definition zero : float := S754_zero false.

Definition add (x y : float) : float := SFadd prec emax x y.
Definition div (x y : float) : float := SFdiv prec emax x y.

(** [x < y] and [x <= y] on floats: false as soon as one side is NaN. *)
Definition ltb (x y : float) : bool := SFltb x y.
Definition leb (x y : float) : bool := SFleb x y.

Definition is_nan (x : float) : bool :=
  match x with S754_nan => true | _ => false end.

(** The float nearest to [m * 2^e] (round to nearest, ties to even). *)
Definition of_scaled (m e : Z) : float := binary_normalize prec emax m e false.

(** The least magnitude that rounds beyond the largest finite double. *)
Definition overflow_bound : Z := 2 ^ 1024 - 2 ^ 970.

(** [float(n)] for an [int]: [None] stands for [OverflowError]. *)
Definition of_int (n : Z) : option float :=
  if overflow_bound <=? Z.abs n then None else Some (of_scaled n 0).

End PyFloat.

Abbreviation float := PyFloat.float.

(** ** Exceptions, outcomes *)

Inductive exn : Type :=
| ZeroDivisionError        (* int modulo by zero, float division by zero *)
| OverflowError            (* int too large to convert to float *)
| NoCompetitionFound       (* RuntimeError("No competition found for ...") *)
| MissingWandbKey          (* ValueError("To use Wandb, you must set ...") *)
| NotRegistered            (* metagraph_utils.assert_registered fails *)
| MissingAccessToken       (* HuggingFaceModelStore.assert_access_token_exists *)
| LoadError                (* pt.mining.load_local_model on a missing directory *)
| KeyboardInterrupt.       (* the operator's signal, delivered inside the loop *)

(** [Pending]: the world supplied no further epoch while the loop's condition
    still held; the process is still training when the observation stops. *)
Inductive outcome (A : Type) : Type :=
| Done (a : A)
| Raised (e : exn)
| Pending.

Arguments Done {A} a.
Arguments Raised {A} e.
Arguments Pending {A}.

(** ** Data *)

(** A micro-batch is identified by the epoch it belongs to ([epoch_step] when
    it was drawn) and its index [i] in [enumerate(loader)]. *)
Definition batch_id : Type := Z * Z.

(** An entry of [constants.MODEL_CONSTRAINTS_BY_COMPETITION_ID]; [main] reads
    its [kwargs] only. *)
Record ModelConstraints : Type := {
  kwargs : list (string * string)
}.

(** The five sources [load_starting_model] can resolve to. *)
Inductive model_source : Type :=
| BestOnNetwork (competition : Z)
| Participant (uid : Z)
| LocalDirectory (dir : string) (kwargs : list (string * string))
| LocalFile (file : string)
| FromScratch.

(** What [pt.mining.save] writes: where the model came from and the optimizer
    steps applied to it so far, each step recorded with the micro-batches
    whose gradients it consumed. *)
Record checkpoint : Type := {
  origin : model_source;
  steps : list (list batch_id)
}.

Inductive publish_outcome : Type :=
| PUBLISHED
| SKIPPED_THRESHOLD
| SKIPPED_OFFLINE.

Inductive log_msg : Type :=
| WandbNotSpecified
| SavingModel (path : string)
| NotPostingToWandb
| LoadingPages
| StepLoss (n_acc : Z) (loss : float)
| EpochAverage (epoch : Z) (avg : float)
| NewBest (best : float)
| FinishedTraining
| Uploading (best threshold : float)
| BelowThresholdNotUploading (best : float)
| OfflineNotUploading
| TrainingWith (src : model_source).

Inductive event : Type :=
| EvConfigureLogging                         (* the three logging set-up calls *)
| EvWallet                                   (* bt.wallet(config) *)
| EvSubtensor                                (* bt.subtensor(config) *)
| EvMetagraph                                (* subtensor.metagraph(netuid) *)
| EvChainStore                               (* ChainModelMetadataStore(...) *)
| EvAssertRegistered
| EvAssertAccessToken
| EvMakedirs (path : string)
| EvLookupConstraints (competition : Z)
| EvLoadTokenizer (c : ModelConstraints)
| EvLoadModel (src : model_source)
| EvTrainMode                                (* model.train() *)
| EvToDevice                                 (* model.to(config.device) *)
| EvSave (path : string) (c : checkpoint)
| EvOptimizerInit
| EvWandbLogin
| EvWandbInit
| EvWandbSave
| EvWandbLog (loss : float) (n_batches n_acc : Z)
| EvWandbFinish
| EvSamplePages
| EvMakeLoader
| EvZeroGrad
| EvForward (b : batch_id)
| EvBackward (b : batch_id)
| EvOptimizerStep (consumed : list batch_id)
| EvEmptyCache
| EvLoadLocalModel (path : string)
| EvPush (c : checkpoint)
| EvLog (m : log_msg).

(** The parsed command line, restricted to the options [main] branches on or
    hands to a collaborator that the model records. *)
Record config : Type := {
  offline : bool;
  wandb_project : option string;
  wandb_entity : option string;
  avg_loss_upload_threshold : float;
  model_dir : string;
  load_best : bool;
  load_uid : option Z;
  load_model_dir : option string;
  load_model : option string;
  num_epochs : Z;
  accumulation_steps : Z;
  competition_id : Z
}.

(** What one epoch's loader yields: the unscaled loss of each micro-batch in
    order, and whether the operator's signal arrives when the loader is asked
    for the batch after the last one listed. *)
Record epoch_feed : Type := {
  batches : list float;
  cancelled : bool
}.

(** Everything decided outside [miner.py]. *)
Record world : Type := {
  MODEL_CONSTRAINTS_BY_COMPETITION_ID : gmap Z ModelConstraints;
  registered : bool;
  access_token_exists : bool;
  model_path : string → string → string;   (* pt.mining.model_path *)
  run_id : string;                          (* the formatted start time *)
  WANDB_API_KEY : option string;
  disk0 : gmap string checkpoint;           (* the file system at start *)
  feeds : list epoch_feed
}.

(** ** State *)

Record state : Type := {
  (* locals of [main] *)
  epoch_step : Z;
  global_step : Z;
  n_acc_steps : Z;
  best_avg_loss : float;
  epoch_loss : float;
  n_batches : Z;
  (* the model and its optimizer *)
  grads : list batch_id;            (* micro-batches summed in the .grad buffers *)
  params : list (list batch_id);    (* optimizer steps applied to the weights *)
  (* the file system *)
  disk : gmap string checkpoint
}.

Definition set_epoch_step (v : Z) (s : state) : state :=
  {| epoch_step := v; global_step := global_step s; n_acc_steps := n_acc_steps s;
     best_avg_loss := best_avg_loss s; epoch_loss := epoch_loss s;
     n_batches := n_batches s; grads := grads s; params := params s;
     disk := disk s |}.

Definition set_global_step (v : Z) (s : state) : state :=
  {| epoch_step := epoch_step s; global_step := v; n_acc_steps := n_acc_steps s;
     best_avg_loss := best_avg_loss s; epoch_loss := epoch_loss s;
     n_batches := n_batches s; grads := grads s; params := params s;
     disk := disk s |}.

Definition set_n_acc_steps (v : Z) (s : state) : state :=
  {| epoch_step := epoch_step s; global_step := global_step s; n_acc_steps := v;
     best_avg_loss := best_avg_loss s; epoch_loss := epoch_loss s;
     n_batches := n_batches s; grads := grads s; params := params s;
     disk := disk s |}.

Definition set_best_avg_loss (v : float) (s : state) : state :=
  {| epoch_step := epoch_step s; global_step := global_step s;
     n_acc_steps := n_acc_steps s; best_avg_loss := v;
     epoch_loss := epoch_loss s; n_batches := n_batches s; grads := grads s;
     params := params s; disk := disk s |}.

Definition set_epoch_loss (v : float) (s : state) : state :=
  {| epoch_step := epoch_step s; global_step := global_step s;
     n_acc_steps := n_acc_steps s; best_avg_loss := best_avg_loss s;
     epoch_loss := v; n_batches := n_batches s; grads := grads s;
     params := params s; disk := disk s |}.

Definition set_n_batches (v : Z) (s : state) : state :=
  {| epoch_step := epoch_step s; global_step := global_step s;
     n_acc_steps := n_acc_steps s; best_avg_loss := best_avg_loss s;
     epoch_loss := epoch_loss s; n_batches := v; grads := grads s;
     params := params s; disk := disk s |}.

Definition set_grads (v : list batch_id) (s : state) : state :=
  {| epoch_step := epoch_step s; global_step := global_step s;
     n_acc_steps := n_acc_steps s; best_avg_loss := best_avg_loss s;
     epoch_loss := epoch_loss s; n_batches := n_batches s; grads := v;
     params := params s; disk := disk s |}.

Definition set_params (v : list (list batch_id)) (s : state) : state :=
  {| epoch_step := epoch_step s; global_step := global_step s;
     n_acc_steps := n_acc_steps s; best_avg_loss := best_avg_loss s;
     epoch_loss := epoch_loss s; n_batches := n_batches s; grads := grads s;
     params := v; disk := disk s |}.

Definition set_disk (v : gmap string checkpoint) (s : state) : state :=
  {| epoch_step := epoch_step s; global_step := global_step s;
     n_acc_steps := n_acc_steps s; best_avg_loss := best_avg_loss s;
     epoch_loss := epoch_loss s; n_batches := n_batches s; grads := grads s;
     params := params s; disk := v |}.

(** ** The monad *)

(** One run of a computation: how it ended, the state it left, the events it
    emitted, oldest first. *)
Record run (A : Type) : Type := {
  res : outcome A;
  st : state;
  tr : list event
}.

Arguments res {A} r.
Arguments st {A} r.
Arguments tr {A} r.

Definition M (A : Type) : Type := state → run A.

Definition ret {A} (a : A) : M A :=
  λ s, {| res := Done a; st := s; tr := [] |}.

Definition raise {A} (e : exn) : M A :=
  λ s, {| res := Raised e; st := s; tr := [] |}.

Definition pending {A} : M A :=
  λ s, {| res := Pending; st := s; tr := [] |}.

Definition bind {A B} (m : M A) (k : A → M B) : M B :=
  λ s,
    let r := m s in
    match res r with
    | Done a =>
        let r' := k a (st r) in
        {| res := res r'; st := st r'; tr := tr r ++ tr r' |}
    | Raised e => {| res := Raised e; st := st r; tr := tr r |}
    | Pending => {| res := Pending; st := st r; tr := tr r |}
    end.

Definition get : M state :=
  λ s, {| res := Done s; st := s; tr := [] |}.

Definition modify (f : state → state) : M unit :=
  λ s, {| res := Done tt; st := f s; tr := [] |}.

Definition emit (e : event) : M unit :=
  λ s, {| res := Done tt; st := s; tr := [e] |}.

(** [try: body finally: cleanup].  The cleanup runs when the body returns and
    when it raises; an exception of the body is re-raised after it. *)
Definition try_finally {A} (body : M A) (cleanup : M unit) : M A :=
  λ s,
    let r := body s in
    match res r with
    | Pending => r
    | _ =>
        let c := cleanup (st r) in
        {| res := match res c with
                  | Done _ => res r
                  | Raised e => Raised e
                  | Pending => Pending
                  end;
           st := st c;
           tr := tr r ++ tr c |}
    end.

Notation "x <~ m ; k" := (bind m (λ x, k))
  (at level 100, m at next level, right associativity, only parsing).
Notation "m ;;; k" := (bind m (λ _, k))
  (at level 100, right associativity, only parsing).

(** ** Primitive operations *)

(** [a % b] on Python ints: floored, and [ZeroDivisionError] when [b = 0]. *)
Definition py_mod (a b : Z) : M Z :=
  if b =? 0 then raise ZeroDivisionError else ret (a mod b).

(** [x / n] for a float [x] and an int [n]: [n] is converted first, then a
    zero divisor raises. *)
Definition float_truediv_int (x : float) (n : Z) : M float :=
  match PyFloat.of_int n with
  | None => raise OverflowError
  | Some d => if n =? 0 then raise ZeroDivisionError else ret (PyFloat.div x d)
  end.

(** Truthiness of an optional string: [None] and the empty string are
    falsy; a truthy option is returned as it is. *)
Definition truthy (o : option string) : option string :=
  match o with
  | Some EmptyString => None
  | _ => o
  end.

(** [loss.backward()]: the gradients of micro-batch [b] are added to the
    buffers.  The factor [1 / accumulation_steps] applied to the loss just
    before scales the contribution and is not recorded. *)
Definition backward (b : batch_id) : M unit :=
  modify (λ s, set_grads (grads s ++ [b]) s) ;;;
  emit (EvBackward b).

(** [optimizer.step()]: one update of the weights from the buffers' content;
    the buffers themselves are left as they are. *)
Definition optimizer_step : M unit :=
  s <~ get ;
  modify (set_params (params s ++ [grads s])) ;;;
  emit (EvOptimizerStep (grads s)).

(** [optimizer.zero_grad()] *)
Definition zero_grad : M unit :=
  modify (set_grads []) ;;;
  emit EvZeroGrad.

(** [pt.mining.save(model, model_dir)]: the checkpoint at [path] is replaced
    by the model's current weights. *)
Definition save (src : model_source) (path : string) : M unit :=
  s <~ get ;
  let c := {| origin := src; steps := params s |} in
  modify (set_disk (<[path := c]> (disk s))) ;;;
  emit (EvSave path c).

(** [pt.mining.load_local_model(model_dir, ...)] *)
Definition load_local_model (path : string) : M checkpoint :=
  s <~ get ;
  emit (EvLoadLocalModel path) ;;;
  match disk s !! path with
  | Some c => ret c
  | None => raise LoadError
  end.

(** ** [load_starting_model] *)

Definition load_starting_model (config : config)
  (kwargs : list (string * string)) : M model_source :=
  if load_best config then
    let model := BestOnNetwork (competition_id config) in
    emit (EvLoadModel model) ;;;
    emit (EvLog (TrainingWith model)) ;;;
    ret model
  else
  match load_uid config with
  | Some uid =>
    let model := Participant uid in
    emit (EvLoadModel model) ;;;
    emit (EvLog (TrainingWith model)) ;;;
    ret model
  | None =>
  match truthy (load_model_dir config) with
  | Some dir =>
    let model := LocalDirectory dir kwargs in
    emit (EvLoadModel model) ;;;
    emit (EvLog (TrainingWith model)) ;;;
    ret model
  | None =>
  match truthy (load_model config) with
  | Some file =>
    let model := LocalFile file in
    emit (EvLoadModel model) ;;;
    emit (EvLog (TrainingWith model)) ;;;
    ret model
  | None =>
    let model := FromScratch in
    emit (EvLoadModel model) ;;;
    emit (EvLog (TrainingWith model)) ;;;
    ret model
  end end end.

(** ** The training loop of [main] *)

Section Training.

Variable config : config.
Variable use_wandb : bool.
Variable run_dir : string.       (* the local [model_dir] of [main] *)
Variable model : model_source.

(** The body of [for i, batch in enumerate(loader)]. *)
Definition micro_batch (i : Z) (loss : float) : M unit :=
  s <~ get ;
  emit (EvForward (epoch_step s, i)) ;;;
  backward (epoch_step s, i) ;;;
  r <~ py_mod (i + 1) (accumulation_steps config) ;
  (if r =? 0 then
     modify (λ s, set_n_acc_steps (n_acc_steps s + 1) s) ;;;
     optimizer_step ;;;
     zero_grad ;;;
     s <~ get ;
     emit (EvLog (StepLoss (n_acc_steps s) loss)) ;;;
     (if use_wandb
      then emit (EvWandbLog loss (n_batches s) (n_acc_steps s))
      else ret tt)
   else ret tt) ;;;
  emit EvEmptyCache ;;;
  modify (λ s, set_n_batches (n_batches s + 1) s) ;;;
  modify (λ s, set_global_step (global_step s + 1) s) ;;;
  modify (λ s, set_epoch_loss (PyFloat.add (epoch_loss s) loss) s).

Fixpoint for_batches (i : Z) (losses : list float) : M unit :=
  match losses with
  | [] => ret tt
  | loss :: rest => micro_batch i loss ;;; for_batches (i + 1) rest
  end.

(** One iteration of the [while] loop. *)
Definition run_epoch (feed : epoch_feed) : M unit :=
  modify (set_epoch_loss PyFloat.zero) ;;;
  emit (EvLog LoadingPages) ;;;
  emit EvSamplePages ;;;
  emit EvMakeLoader ;;;
  modify (set_n_batches 0) ;;;
  zero_grad ;;;
  for_batches 0 (batches feed) ;;;
  (if cancelled feed then raise KeyboardInterrupt else ret tt) ;;;
  s <~ get ;
  avg_loss <~ float_truediv_int (epoch_loss s) (n_batches s) ;
  emit (EvLog (EpochAverage (epoch_step s) avg_loss)) ;;;
  modify (λ s, set_epoch_step (epoch_step s + 1) s) ;;;
  s <~ get ;
  if PyFloat.ltb avg_loss (best_avg_loss s) then
    modify (set_best_avg_loss avg_loss) ;;;
    emit (EvLog (NewBest avg_loss)) ;;;
    emit (EvLog (SavingModel run_dir)) ;;;
    save model run_dir
  else ret tt.

(** [while epoch_step < config.num_epochs or config.num_epochs == -1]. *)
Fixpoint train_loop (feeds : list epoch_feed) : M unit :=
  s <~ get ;
  if (epoch_step s <? num_epochs config) || (num_epochs config =? -1) then
    match feeds with
    | [] => pending
    | feed :: rest => run_epoch feed ;;; train_loop rest
    end
  else ret tt.

(** The statements after the loop, inside the [try]. *)
Definition publish_gate : M publish_outcome :=
  emit (EvLog FinishedTraining) ;;;
  if negb (offline config) then
    s <~ get ;
    if PyFloat.ltb (best_avg_loss s) (avg_loss_upload_threshold config) then
      emit (EvLog (Uploading (best_avg_loss s)
                     (avg_loss_upload_threshold config))) ;;;
      model_to_upload <~ load_local_model run_dir ;
      emit (EvPush model_to_upload) ;;;
      ret PUBLISHED
    else
      emit (EvLog (BelowThresholdNotUploading (best_avg_loss s))) ;;;
      ret SKIPPED_THRESHOLD
  else
    emit (EvLog OfflineNotUploading) ;;;
    ret SKIPPED_OFFLINE.

End Training.

(** ** [main] *)

(** What the statements before the loop leave in their local variables. *)
Record startup_vars : Type := {
  su_run_dir : string;
  su_use_wandb : bool;
  su_model : model_source;
  su_wandb_run : bool          (* [wandb_run] is not [None] *)
}.

(** The logging set-up, then [bt.wallet], [bt.subtensor],
    [subtensor.metagraph] and the chain metadata store. *)
Definition connect : M unit :=
  emit EvConfigureLogging ;;;
  emit EvWallet ;;;
  emit EvSubtensor ;;;
  emit EvMetagraph ;;;
  emit EvChainStore.

(** [if not config.offline]: the registration and access-token checks. *)
Definition check_online (config : config) (w : world) : M unit :=
  if negb (offline config) then
    emit EvAssertRegistered ;;;
    (if registered w then ret tt else raise NotRegistered) ;;;
    emit EvAssertAccessToken ;;;
    (if access_token_exists w then ret tt else raise MissingAccessToken)
  else ret tt.

(** The value of [use_wandb]. *)
Definition choose_wandb (config : config) : M bool :=
  if negb (offline config) then
    match wandb_project config, wandb_entity config with
    | Some _, Some _ => ret true
    | _, _ => emit (EvLog WandbNotSpecified) ;;; ret false
    end
  else ret false.

(** [constants.MODEL_CONSTRAINTS_BY_COMPETITION_ID.get(...)] and the
    [RuntimeError] when it finds nothing. *)
Definition lookup_constraints (config : config) (w : world)
  : M ModelConstraints :=
  emit (EvLookupConstraints (competition_id config)) ;;;
  match MODEL_CONSTRAINTS_BY_COMPETITION_ID w !! competition_id config with
  | None => raise NoCompetitionFound
  | Some c => ret c
  end.

(** The tokenizer, the starting model, the bootstrap save and the
    optimizer. *)
Definition init_model (config : config) (model_constraints : ModelConstraints)
  (model_dir : string) : M model_source :=
  let kwargs := kwargs model_constraints in
  emit (EvLoadTokenizer model_constraints) ;;;
  model <~ load_starting_model config kwargs ;
  emit EvTrainMode ;;;
  emit EvToDevice ;;;
  emit (EvLog (SavingModel model_dir)) ;;;
  save model model_dir ;;;
  emit EvOptimizerInit ;;;
  ret model.

(** [if use_wandb]: the start of the wandb run; returns whether [wandb_run]
    is set. *)
Definition start_wandb (w : world) (use_wandb : bool) : M bool :=
  if use_wandb then
    match truthy (WANDB_API_KEY w) with
    | None => raise MissingWandbKey
    | Some token =>
        emit EvWandbLogin ;;;
        emit EvWandbInit ;;;
        emit EvWandbSave ;;;
        ret true
    end
  else emit (EvLog NotPostingToWandb) ;;; ret false.

(** From the first statement of [main] to the start of the wandb run. *)
Definition startup (config : config) (w : world) : M startup_vars :=
  connect ;;;
  check_online config w ;;;
  let model_dir := model_path w (model_dir config) (run_id w) in
  emit (EvMakedirs model_dir) ;;;
  use_wandb <~ choose_wandb config ;
  model_constraints <~ lookup_constraints config w ;
  model <~ init_model config model_constraints model_dir ;
  wandb_run <~ start_wandb w use_wandb ;
  ret {| su_run_dir := model_dir; su_use_wandb := use_wandb;
         su_model := model; su_wandb_run := wandb_run |}.

(** [epoch_step = 0] ... [best_avg_loss = math.inf]. *)
Definition init_training_vars : M unit :=
  modify (set_epoch_step 0) ;;;
  modify (set_global_step 0) ;;;
  modify (set_n_acc_steps 0) ;;;
  modify (set_best_avg_loss PyFloat.inf).

(** The [try] block and its [finally]. *)
Definition train_and_publish (config : config) (w : world) (v : startup_vars)
  : M publish_outcome :=
  try_finally
    (train_loop config (su_use_wandb v) (su_run_dir v) (su_model v) (feeds w) ;;;
     publish_gate config (su_run_dir v))
    (if su_wandb_run v then emit EvWandbFinish else ret tt).

Definition main (config : config) (w : world) : M publish_outcome :=
  v <~ startup config w ;
  init_training_vars ;;;
  train_and_publish config w v.

(** The state [main] starts in: nothing trained, the disk as the world has
    it.  The locals get their values in [init_training_vars]. *)
Definition initial_state (w : world) : state :=
  {| epoch_step := 0; global_step := 0; n_acc_steps := 0;
     best_avg_loss := PyFloat.zero; epoch_loss := PyFloat.zero; n_batches := 0;
     grads := []; params := []; disk := disk0 w |}.

Definition run_main (config : config) (w : world) : run publish_outcome :=
  main config w (initial_state w).

(** ** Observations on traces and states *)

Fixpoint count_if (p : event → bool) (t : list event) : nat :=
  match t with
  | [] => 0%nat
  | e :: t' => if p e then S (count_if p t') else count_if p t'
  end.

Definition is_apply (e : event) : bool :=
  match e with EvOptimizerStep _ => true | _ => false end.

(** The checkpoint writes of a trace, oldest first. *)
Fixpoint saves (t : list event) : list (string * checkpoint) :=
  match t with
  | [] => []
  | EvSave path c :: t' => (path, c) :: saves t'
  | _ :: t' => saves t'
  end.

Definition is_epoch_start (e : event) : bool :=
  match e with EvLog LoadingPages => true | _ => false end.

Definition is_wandb_init (e : event) : bool :=
  match e with EvWandbInit => true | _ => false end.

Definition is_wandb_finish (e : event) : bool :=
  match e with EvWandbFinish => true | _ => false end.

(** The events of the statements between the loop and the [finally]. *)
Definition is_gate_event (e : event) : bool :=
  match e with
  | EvLog FinishedTraining | EvLog (Uploading _ _)
  | EvLog (BelowThresholdNotUploading _) | EvLog OfflineNotUploading
  | EvLoadLocalModel _ | EvPush _ => true
  | _ => false
  end.

(** The events of one micro-batch. *)
Definition is_batch_event (e : event) : bool :=
  match e with
  | EvForward _ | EvBackward _ | EvOptimizerStep _ | EvZeroGrad
  | EvLog (StepLoss _ _) | EvWandbLog _ _ _ | EvEmptyCache => true
  | _ => false
  end.

(** The events of one iteration of the [while] loop. *)
Definition is_epoch_event (e : event) : bool :=
  is_batch_event e ||
  match e with
  | EvLog LoadingPages | EvSamplePages | EvMakeLoader
  | EvLog (EpochAverage _ _) | EvLog (NewBest _) | EvLog (SavingModel _)
  | EvSave _ _ => true
  | _ => false
  end.

(** The events of the statements before the loop. *)
Definition is_startup_event (e : event) : bool :=
  match e with
  | EvConfigureLogging | EvWallet | EvSubtensor | EvMetagraph | EvChainStore
  | EvAssertRegistered | EvAssertAccessToken | EvMakedirs _
  | EvLookupConstraints _ | EvLoadTokenizer _ | EvLoadModel _
  | EvTrainMode | EvToDevice | EvSave _ _
  | EvOptimizerInit | EvWandbLogin | EvWandbInit | EvWandbSave
  | EvLog WandbNotSpecified | EvLog (SavingModel _) | EvLog NotPostingToWandb
  | EvLog (TrainingWith _) => true
  | _ => false
  end.

(** Calls that load a model or a tokenizer. *)
Definition is_model_loading (e : event) : bool :=
  match e with
  | EvLoadTokenizer _ | EvLoadModel _ | EvLoadLocalModel _ => true
  | _ => false
  end.

(** Calls that talk to the chain, the hub or the telemetry service:
    [bt.subtensor] connects to a chain endpoint, [subtensor.metagraph] syncs
    the membership view from it, the two remote sources download a model,
    [pt.mining.push] uploads one, and the wandb calls reach the service. *)
Definition is_network_io (e : event) : bool :=
  match e with
  | EvSubtensor | EvMetagraph
  | EvLoadModel (BestOnNetwork _) | EvLoadModel (Participant _)
  | EvPush _
  | EvWandbLogin | EvWandbInit | EvWandbLog _ _ _ | EvWandbFinish => true
  | _ => false
  end.

(** The micro-batches [(e, a)], ..., [(e, a + n - 1)]. *)
Definition range_ids (e a n : Z) : list batch_id :=
  (λ j, (e, j)) <$> seqZ a n.

(** The first [n] windows of [k] consecutive micro-batches of epoch [e]. *)
Definition windows (e k n : Z) : list (list batch_id) :=
  (λ q, range_ids e (k * q) k) <$> seqZ 0 n.

(** [epoch_loss] after the loader is exhausted. *)
Definition summed_loss (losses : list float) : float :=
  fold_left PyFloat.add losses PyFloat.zero.

(** How the source selectors read in priority order: each candidate with the
    test that selects it, first match wins, from scratch when none does. *)
Definition candidates (config : config) (kwargs : list (string * string))
  : list (option model_source) :=
  [ if load_best config then Some (BestOnNetwork (competition_id config)) else None;
    Participant <$> load_uid config;
    (λ d, LocalDirectory d kwargs) <$> truthy (load_model_dir config);
    LocalFile <$> truthy (load_model config) ].

Fixpoint first_match (l : list (option model_source)) : model_source :=
  match l with
  | [] => FromScratch
  | Some src :: _ => src
  | None :: rest => first_match rest
  end.

(** The decision of the publish gate as the three cases read. *)
Definition gate_decision (config : config) (best : float) : publish_outcome :=
  if offline config then SKIPPED_OFFLINE
  else if PyFloat.ltb best (avg_loss_upload_threshold config) then PUBLISHED
  else SKIPPED_THRESHOLD.

(** A feed whose epoch runs to its end: at least one micro-batch, fewer than
    a double can count, and no signal. *)
Definition completes (feed : epoch_feed) : Prop :=
  batches feed ≠ [] ∧
  Z.of_nat (length (batches feed)) < PyFloat.overflow_bound ∧
  cancelled feed = false.

(** ** Concrete runs *)

(** The losses 1.5, 2.0 and 2.5. *)
Definition loss_1_5 : float := PyFloat.of_scaled 3 (-1).
Definition loss_2_0 : float := PyFloat.of_scaled 2 0.
Definition loss_2_5 : float := PyFloat.of_scaled 5 (-1).

(** An online run with telemetry: two epochs, windows of two micro-batches,
    upload threshold 2.0, from scratch. *)
Definition online_config : config :=
  {| offline := false;
     wandb_project := Some "subnet"; wandb_entity := Some "miner";
     avg_loss_upload_threshold := loss_2_0;
     model_dir := "local-models";
     load_best := false; load_uid := None;
     load_model_dir := None; load_model := None;
     num_epochs := 2; accumulation_steps := 2; competition_id := 1 |}.

(** The same run with both the best-on-network and the local-file selectors
    set. *)
Definition both_selectors_config : config :=
  {| offline := false;
     wandb_project := Some "subnet"; wandb_entity := Some "miner";
     avg_loss_upload_threshold := loss_2_0;
     model_dir := "local-models";
     load_best := true; load_uid := None;
     load_model_dir := None; load_model := Some "model.safetensors";
     num_epochs := 2; accumulation_steps := 2; competition_id := 1 |}.

(** A world that knows competition 1, where the miner is registered and all
    keys are set, and whose loaders yield [fs]. *)
Definition friendly_world (fs : list epoch_feed) : world :=
  {| MODEL_CONSTRAINTS_BY_COMPETITION_ID := {[ 1 := {| kwargs := [] |} ]};
     registered := true;
     access_token_exists := true;
     model_path := λ base run, base +:+ "/" +:+ run;
     run_id := "2024-01-01_00-00-00";
     WANDB_API_KEY := Some "key";
     disk0 := ∅;
     feeds := fs |}.

(** A state in the middle of a run: best average loss 1.5 so far, one
    checkpoint in the run directory. *)
Definition trained_state : state :=
  {| epoch_step := 2; global_step := 6; n_acc_steps := 3;
     best_avg_loss := loss_1_5; epoch_loss := loss_1_5; n_batches := 3;
     grads := [(1, 2)]; params := [[(0, 0); (0, 1)]; [(1, 0); (1, 1)]];
     disk := {[ "run" := {| origin := FromScratch;
                            steps := [[(0, 0); (0, 1)]] |} ]} |}.

(** A loader that yields nothing, one that yields three micro-batches, one
    that yields five, and one interrupted after two. *)
Definition empty_feed : epoch_feed := {| batches := []; cancelled := false |}.

Definition three_batches : epoch_feed :=
  {| batches := [loss_1_5; loss_2_5; loss_1_5]; cancelled := false |}.

Definition five_batches : epoch_feed :=
  {| batches := [loss_1_5; loss_1_5; loss_1_5; loss_1_5; loss_1_5];
     cancelled := false |}.


(** The state right after the bootstrap save and [init_training_vars]. *)
Definition bootstrapped_state : state :=
  {| epoch_step := 0; global_step := 0; n_acc_steps := 0;
     best_avg_loss := PyFloat.inf; epoch_loss := PyFloat.zero; n_batches := 0;
     grads := []; params := [];
     disk := {[ "run" := {| origin := FromScratch; steps := [] |} ]} |}.

(** The values [best_avg_loss] takes at the end of each epoch the loop runs
    to its end, in order. *)
Fixpoint best_history (config : config) (use_wandb : bool) (run_dir : string)
  (model : model_source) (feeds : list epoch_feed) (s : state) : list float :=
  if (epoch_step s <? num_epochs config) || (num_epochs config =? -1) then
    match feeds with
    | [] => []
    | feed :: rest =>
        let r := run_epoch config use_wandb run_dir model feed s in
        match res r with
        | Done _ =>
            best_avg_loss (st r)
            :: best_history config use_wandb run_dir model rest (st r)
        | _ => []
        end
    end
  else [].

(** The events of the [finally] block. *)
Definition finally_events (v : startup_vars) : list event :=
  if su_wandb_run v then [EvWandbFinish] else [].


(** An offline run for a competition the constraints table does not know,
    and an online one by a miner that is not registered. *)
Definition unknown_competition_config : config :=
  {| offline := true;
     wandb_project := None; wandb_entity := None;
     avg_loss_upload_threshold := loss_2_0;
     model_dir := "local-models";
     load_best := false; load_uid := None;
     load_model_dir := None; load_model := None;
     num_epochs := 2; accumulation_steps := 2; competition_id := 7 |}.

Definition unknown_competition_online : config :=
  {| offline := false;
     wandb_project := None; wandb_entity := None;
     avg_loss_upload_threshold := loss_2_0;
     model_dir := "local-models";
     load_best := false; load_uid := None;
     load_model_dir := None; load_model := None;
     num_epochs := 2; accumulation_steps := 2; competition_id := 7 |}.

Definition unregistered_world : world :=
  {| MODEL_CONSTRAINTS_BY_COMPETITION_ID := {[ 1 := {| kwargs := [] |} ]};
     registered := false;
     access_token_exists := true;
     model_path := λ base run, base +:+ "/" +:+ run;
     run_id := "2024-01-01_00-00-00";
     WANDB_API_KEY := Some "key";
     disk0 := ∅;
     feeds := [] |}.

(** The test of the [while] of [train_loop]. *)
Definition continues (config : config) (s : state) : bool :=
  (epoch_step s <? num_epochs config) || (num_epochs config =? -1).

(** The state the loop over the loader starts from. *)
Definition epoch_entry (s : state) : state :=
  set_grads [] (set_n_batches 0 (set_epoch_loss PyFloat.zero s)).

(** The events before the first micro-batch. *)
Definition epoch_prologue : list event :=
  [EvLog LoadingPages; EvSamplePages; EvMakeLoader; EvZeroGrad].

(** Every event of [m] satisfies [p], whatever the state and the outcome. *)
Definition emits {A} (p : event → bool) (m : M A) : Prop :=
  ∀ s, forallb p (tr (m s)) = true.

(** [m] leaves the observation [f] of the state as it found it. *)
Definition keeps {A X} (f : state → X) (m : M A) : Prop :=
  ∀ s, f (st (m s)) = f s.

(** The run [r] with the events [t] emitted before it. *)
Definition after_events {A} (t : list event) (r : run A) : run A :=
  {| res := res r; st := st r; tr := t ++ tr r |}.

(** ** Further observations on traces *)

(** The numbers [n] of the "Step: n loss: ..." lines of a trace, in order. *)
Fixpoint step_numbers (t : list event) : list Z :=
  match t with
  | [] => []
  | EvLog (StepLoss n _) :: t' => n :: step_numbers t'
  | _ :: t' => step_numbers t'
  end.

(** The [step] arguments of the [wandb_run.log] calls of a trace, in order. *)
Fixpoint wandb_steps (t : list event) : list Z :=
  match t with
  | [] => []
  | EvWandbLog _ _ n :: t' => n :: wandb_steps t'
  | _ :: t' => wandb_steps t'
  end.

(** A micro-batch that ran to its last statement has cleared the cache. *)
Definition is_batch_done (e : event) : bool :=
  match e with EvEmptyCache => true | _ => false end.

Definition is_wandb_log (e : event) : bool :=
  match e with EvWandbLog _ _ _ => true | _ => false end.

(** The trace without its [wandb_run.log] calls. *)
Fixpoint strip_wandb_logs (t : list event) : list event :=
  match t with
  | [] => []
  | EvWandbLog _ _ _ :: t' => strip_wandb_logs t'
  | e :: t' => e :: strip_wandb_logs t'
  end.

(** The counters of [main] agree with what the run [r], started in [s], has
    done: [n_acc_steps] has grown by the number of optimizer steps, which
    are the steps applied to the weights and the "Step" lines, numbered
    consecutively; [global_step] has grown by the number of micro-batches
    that ran to their end; the wandb calls, when made, carry the same step
    numbers. *)
Definition counted {A} (use_wandb : bool) (s : state) (r : run A) : Prop :=
  let d := n_acc_steps (st r) - n_acc_steps s in
  0 ≤ d ∧
  step_numbers (tr r) = seqZ (n_acc_steps s + 1) d ∧
  Z.of_nat (count_if is_apply (tr r)) = d ∧
  Z.of_nat (length (params (st r))) = Z.of_nat (length (params s)) + d ∧
  global_step (st r)
  = global_step s + Z.of_nat (count_if is_batch_done (tr r)) ∧
  wandb_steps (tr r) = if use_wandb then step_numbers (tr r) else [].

(** The events the counters of [main] account for. *)
Definition is_counter_event (e : event) : bool :=
  match e with
  | EvOptimizerStep _ | EvLog (StepLoss _ _) | EvEmptyCache
  | EvWandbLog _ _ _ => true
  | _ => false
  end.

(** Every run of [m] is [counted]. *)
Definition counts {A} (use_wandb : bool) (m : M A) : Prop :=
  ∀ s, counted use_wandb s (m s).

(** Two computations that differ in telemetry only: same outcome, same
    state, same trace once the [wandb_run.log] calls are removed. *)
Definition same_but_wandb {A} (m1 m2 : M A) : Prop :=
  ∀ s, res (m1 s) = res (m2 s) ∧ st (m1 s) = st (m2 s) ∧
       strip_wandb_logs (tr (m1 s)) = tr (m2 s).

(** ** The disk and the checkpoints *)

(** The disk after the checkpoint writes [l], applied in order. *)
Definition write_all (l : list (string * checkpoint))
  (d : gmap string checkpoint) : gmap string checkpoint :=
  fold_left (λ d pc, <[pc.1 := pc.2]> d) l d.

(** The disk [m] leaves is the disk it found with the checkpoint writes of
    its trace applied in order. *)
Definition replays {A} (m : M A) : Prop :=
  ∀ s, disk (st (m s)) = write_all (saves (tr (m s))) (disk s).

(** Every checkpoint [m] writes is one of model [src], at [path]. *)
Definition saves_at {A} (path : string) (src : model_source) (m : M A)
  : Prop :=
  ∀ s, Forall (λ pc, pc.1 = path ∧ origin pc.2 = src) (saves (tr (m s))).

(** An event other than a checkpoint write. *)
Definition is_not_save (e : event) : bool :=
  match e with EvSave _ _ => false | _ => true end.

(** The checkpoints pushed to the hub by a trace, in order. *)
Fixpoint pushes (t : list event) : list checkpoint :=
  match t with
  | [] => []
  | EvPush c :: t' => c :: pushes t'
  | _ :: t' => pushes t'
  end.

(** The checkpoint at [path], if any, holds weights the model has been
    through: its steps are the first of the steps applied so far. *)
Definition checkpoint_behind (path : string) (s : state) : Prop :=
  ∀ c, disk s !! path = Some c → steps c `prefix_of` params s.

(** [m] keeps the checkpoint at [path] behind the weights, and only adds
    steps to the weights. *)
Definition trails {A} (path : string) (m : M A) : Prop :=
  ∀ s, params s `prefix_of` params (st (m s)) ∧
       (checkpoint_behind path s → checkpoint_behind path (st (m s))).

(** ** Further concrete runs *)

(** Two epochs of three micro-batches each, with average loss 5.5 / 3. *)
Definition publishing_world : world :=
  friendly_world [three_batches; three_batches].

(** ** Signs of floats *)

(** What [x < 0.0] tests: a negative number or minus infinity. *)
Definition is_negative (x : float) : bool :=
  match x with
  | S754_infinity true | S754_finite true _ _ => true
  | _ => false
  end.

(** The sign bit, with NaN counted as unsigned. *)
Definition sign_bit (x : float) : bool :=
  match x with
  | S754_zero s | S754_infinity s | S754_finite s _ _ => s
  | S754_nan => false
  end.

(** The state [init_training_vars] leaves. *)
Definition training_entry (s : state) : state :=
  set_best_avg_loss PyFloat.inf
    (set_n_acc_steps 0 (set_global_step 0 (set_epoch_step 0 s))).

(** The configuration [get_config] returns when the command line names the
    competition and nothing else: the defaults of the parser.  [dir] stands
    for [os.path.join(constants.ROOT_DIR, "local-models/")]. *)
Definition default_config (dir : string) (competition : Z) : config :=
  {| offline := false;
     wandb_project := None; wandb_entity := None;
     avg_loss_upload_threshold := PyFloat.zero;
     model_dir := dir;
     load_best := false; load_uid := None;
     load_model_dir := None; load_model := None;
     num_epochs := -1; accumulation_steps := 5;
     competition_id := competition |}.

(** [--num_epochs n] on top of [c]. *)
Definition with_num_epochs (n : Z) (c : config) : config :=
  {| offline := offline c;
     wandb_project := wandb_project c; wandb_entity := wandb_entity c;
     avg_loss_upload_threshold := avg_loss_upload_threshold c;
     model_dir := model_dir c;
     load_best := load_best c; load_uid := load_uid c;
     load_model_dir := load_model_dir c; load_model := load_model c;
     num_epochs := n; accumulation_steps := accumulation_steps c;
     competition_id := competition_id c |}.

(** A loader whose second micro-batch reports a NaN loss. *)
Definition poisoned_feed : epoch_feed :=
  {| batches := [loss_1_5; S754_nan; loss_1_5]; cancelled := false |}.

(** [--accumulation_steps 0] on top of the online run. *)
Definition zero_steps_config : config :=
  {| offline := false;
     wandb_project := Some "subnet"; wandb_entity := Some "miner";
     avg_loss_upload_threshold := loss_2_0;
     model_dir := "local-models";
     load_best := false; load_uid := None;
     load_model_dir := None; load_model := None;
     num_epochs := 2; accumulation_steps := 0; competition_id := 1 |}.

(** The world [w] with other credentials: the registration of the hotkey,
    the Hugging Face access token and the [WANDB_API_KEY] variable. *)
Definition with_credentials (reg tok : bool) (key : option string)
  (w : world) : world :=
  {| MODEL_CONSTRAINTS_BY_COMPETITION_ID :=
       MODEL_CONSTRAINTS_BY_COMPETITION_ID w;
     registered := reg;
     access_token_exists := tok;
     model_path := model_path w;
     run_id := run_id w;
     WANDB_API_KEY := key;
     disk0 := disk0 w;
     feeds := feeds w |}.

(** A world where [WANDB_API_KEY] is set to the empty string, and one where
    the access token is missing. *)
Definition keyless_world : world :=
  with_credentials true true (Some EmptyString) publishing_world.

Definition tokenless_world : world :=
  with_credentials true false (Some "key") publishing_world.

(** The run of [online_config] with [--offline]. *)
Definition offline_config : config :=
  {| offline := true;
     wandb_project := Some "subnet"; wandb_entity := Some "miner";
     avg_loss_upload_threshold := loss_2_0;
     model_dir := "local-models";
     load_best := false; load_uid := None;
     load_model_dir := None; load_model := None;
     num_epochs := 2; accumulation_steps := 2; competition_id := 1 |}.

(** Calls that [main] makes in an online run only: the two checks, the
    telemetry session, and the reload and the push of the gate. *)
Definition is_online_only (e : event) : bool :=
  match e with
  | EvAssertRegistered | EvAssertAccessToken
  | EvWandbLogin | EvWandbInit | EvWandbSave | EvWandbLog _ _ _
  | EvWandbFinish | EvLoadLocalModel _ | EvPush _ => true
  | _ => false
  end.

(** What the [wandb_run.log] calls of a trace report: the loss and the
    value of [n_batches]. *)
Fixpoint wandb_reports (t : list event) : list (float * Z) :=
  match t with
  | [] => []
  | EvWandbLog loss n _ :: t' => (loss, n) :: wandb_reports t'
  | _ :: t' => wandb_reports t'
  end.


(** The local variables of an online run with telemetry, after the
    start-up. *)
Definition online_vars : startup_vars :=
  {| su_run_dir := "run"; su_use_wandb := true;
     su_model := FromScratch; su_wandb_run := true |}.

(** Every loss the loaders of [w] yield is not below zero. *)
Definition losses_not_negative (w : world) : Prop :=
  Forall (λ feed, Forall (λ loss, is_negative loss = false) (batches feed))
    (feeds w).

(** * Properties *)

(** ** The order on floats *)

Section FloatOrder.

Lemma SFcompare_antisym (x y : float) :
  SFcompare y x = option_map CompOpp (SFcompare x y).
Proof.
  destruct x as [sx|sx| |sx mx ex], y as [sy|sy| |sy my ey]; simpl;
    try reflexivity;
    try (destruct sx; reflexivity); try (destruct sy; reflexivity);
    try (destruct sx, sy; reflexivity).
  destruct sx, sy; simpl; try reflexivity;
    rewrite (Z.compare_antisym ey ex); destruct (ey ?= ex); simpl;
    try reflexivity;
    fold (Pos.compare my mx); fold (Pos.compare mx my);
    rewrite (Pos.compare_antisym my mx);
    destruct (my ?= mx)%positive; reflexivity.
Qed.

Lemma ltb_trans (x y z : float) :
  PyFloat.ltb x y = true → PyFloat.ltb y z = true → PyFloat.ltb x z = true.
Proof.
  unfold PyFloat.ltb, SFltb.
  destruct x as [sx|sx| |sx mx ex], y as [sy|sy| |sy my ey],
           z as [sz|sz| |sz mz ez];
    simpl; try discriminate;
    try (destruct sx; try discriminate); try (destruct sy; try discriminate);
    try (destruct sz; try discriminate); try reflexivity; simpl.
  all: fold (Pos.compare mx my); fold (Pos.compare my mz);
    fold (Pos.compare mx mz).
  all: destruct (Z.compare_spec ex ey), (Z.compare_spec ey ez),
    (Z.compare_spec ex ez); try lia; try discriminate; try reflexivity.
  all: destruct (Pos.compare_spec mx my), (Pos.compare_spec my mz),
    (Pos.compare_spec mx mz); simpl; try lia; try discriminate;
    try reflexivity.
Qed.

Lemma ltb_leb (x y : float) :
  PyFloat.ltb x y = true → PyFloat.leb x y = true.
Proof.
  unfold PyFloat.ltb, PyFloat.leb, SFltb, SFleb.
  destruct (SFcompare x y) as [[]|]; congruence.
Qed.

(** [y >= x] excludes [x < y]. *)
Lemma leb_not_ltb (x y : float) :
  PyFloat.leb y x = true → PyFloat.ltb x y = false.
Proof.
  unfold PyFloat.ltb, PyFloat.leb, SFltb, SFleb.
  rewrite (SFcompare_antisym x y).
  destruct (SFcompare x y) as [[]|]; simpl; congruence.
Qed.

Lemma ltb_not_nan (x y : float) :
  PyFloat.ltb x y = true → PyFloat.is_nan x = false.
Proof. destruct x; simpl; [reflexivity..|discriminate|reflexivity]. Qed.

Lemma leb_refl (x : float) :
  PyFloat.is_nan x = false → PyFloat.leb x x = true.
Proof.
  unfold PyFloat.leb, SFleb.
  destruct x as [s|s| |s m e]; simpl; try discriminate; try reflexivity;
    destruct s; try reflexivity; rewrite Z.compare_refl;
    fold (Pos.compare m m); rewrite Pos.compare_refl; reflexivity.
Qed.

End FloatOrder.

(** ** Counting events *)

Lemma count_if_app (p : event → bool) (t u : list event) :
  count_if p (t ++ u) = (count_if p t + count_if p u)%nat.
Proof.
  induction t as [|e t IH]; simpl; [reflexivity|].
  destruct (p e); rewrite IH; reflexivity.
Qed.

Lemma saves_app (t u : list event) : saves (t ++ u) = saves t ++ saves u.
Proof.
  induction t as [|e t IH]; simpl; [reflexivity|].
  destruct e; simpl; rewrite IH; reflexivity.
Qed.

Lemma saves_batch_events (t : list event) :
  forallb is_batch_event t = true → saves t = [].
Proof.
  induction t as [|e t IH]; simpl; [reflexivity|].
  intros [He Ht]%andb_prop. destruct e; try discriminate; auto.
Qed.

Lemma count_if_none (p q : event → bool) (t : list event) :
  (∀ e, q e = true → p e = false) →
  forallb q t = true → count_if p t = 0%nat.
Proof.
  intros Hpq. induction t as [|e t IH]; simpl; [reflexivity|].
  intros [He Ht]%andb_prop. rewrite (Hpq e He). auto.
Qed.

(** ** The monad: what a composite emits, keeps and returns *)

Section Compositional.

Context {A B : Type}.

Lemma emits_bind p (m : M A) (k : A → M B) :
  emits p m → (∀ a, emits p (k a)) → emits p (bind m k).
Proof.
  intros Hm Hk s. unfold bind. specialize (Hm s).
  destruct (res (m s)); simpl; [|assumption..].
  rewrite forallb_app, Hm. apply Hk.
Qed.

Lemma emits_ret p (a : A) : emits p (ret a).
Proof. intros s. reflexivity. Qed.

Lemma emits_raise p e : emits p (raise (A := A) e).
Proof. intros s. reflexivity. Qed.

Lemma emits_pending p : emits p (pending (A := A)).
Proof. intros s. reflexivity. Qed.

Lemma keeps_bind {X} (f : state → X) (m : M A) (k : A → M B) :
  keeps f m → (∀ a, keeps f (k a)) → keeps f (bind m k).
Proof.
  intros Hm Hk s. unfold bind. specialize (Hm s).
  destruct (res (m s)); simpl; [|assumption..].
  rewrite Hk. assumption.
Qed.

Lemma keeps_ret {X} (f : state → X) (a : A) : keeps f (ret a).
Proof. intros s. reflexivity. Qed.

Lemma keeps_raise {X} (f : state → X) e : keeps f (raise (A := A) e).
Proof. intros s. reflexivity. Qed.

Lemma keeps_pending {X} (f : state → X) : keeps f (pending (A := A)).
Proof. intros s. reflexivity. Qed.

(** How a composite run splits when its first part returns. *)
Lemma bind_done (m : M A) (k : A → M B) s a :
  res (m s) = Done a →
  bind m k s = {| res := res (k a (st (m s)));
                  st := st (k a (st (m s)));
                  tr := tr (m s) ++ tr (k a (st (m s))) |}.
Proof. intros H. unfold bind. rewrite H. reflexivity. Qed.

Lemma bind_raised (m : M A) (k : A → M B) s e :
  res (m s) = Raised e →
  bind m k s = {| res := Raised e; st := st (m s); tr := tr (m s) |}.
Proof. intros H. unfold bind. rewrite H. reflexivity. Qed.

End Compositional.

Lemma emits_get p : emits p get.
Proof. intros s. reflexivity. Qed.

Lemma emits_modify p f : emits p (modify f).
Proof. intros s. reflexivity. Qed.

Lemma emits_emit (p : event → bool) e : p e = true → emits p (emit e).
Proof. intros H s. simpl. rewrite H. reflexivity. Qed.

Lemma keeps_get {X} (f : state → X) : keeps f get.
Proof. intros s. reflexivity. Qed.

Lemma keeps_emit {X} (f : state → X) e : keeps f (emit e).
Proof. intros s. reflexivity. Qed.

Lemma keeps_modify {X} (f : state → X) g :
  (∀ s, f (g s) = f s) → keeps f (modify g).
Proof. intros H s. apply H. Qed.

(** *** Running a composite step by step *)

Lemma after_events_app {A} (t u : list event) (r : run A) :
  after_events t (after_events u r) = after_events (t ++ u) r.
Proof. unfold after_events. simpl. rewrite app_assoc. reflexivity. Qed.

Lemma bind_after {A B} (m : M A) (k : A → M B) s :
  bind m k s =
    match res (m s) with
    | Done a => after_events (tr (m s)) (k a (st (m s)))
    | Raised e => {| res := Raised e; st := st (m s); tr := tr (m s) |}
    | Pending => {| res := Pending; st := st (m s); tr := tr (m s) |}
    end.
Proof. reflexivity. Qed.

Lemma bind_bind {A B C} (m : M A) (k1 : A → M B) (k2 : B → M C) s :
  bind (bind m k1) k2 s = bind m (λ a, bind (k1 a) k2) s.
Proof.
  unfold bind. destruct (res (m s)); simpl; try reflexivity.
  destruct (res (k1 a (st (m s)))); simpl; try reflexivity.
  rewrite app_assoc. reflexivity.
Qed.

Lemma bind_ret {A B} (a : A) (k : A → M B) s : bind (ret a) k s = k a s.
Proof. unfold bind. simpl. destruct (k a s). reflexivity. Qed.

Lemma bind_get {B} (k : state → M B) s : bind get k s = k s s.
Proof. unfold bind. simpl. destruct (k s s). reflexivity. Qed.

Lemma bind_modify {B} f (k : unit → M B) s : bind (modify f) k s = k tt (f s).
Proof. unfold bind. simpl. destruct (k tt (f s)). reflexivity. Qed.

Lemma bind_emit {B} e (k : unit → M B) s :
  bind (emit e) k s = after_events [e] (k tt s).
Proof. reflexivity. Qed.

Lemma bind_raise {A B} e (k : A → M B) s :
  bind (raise e) k s = {| res := Raised e; st := s; tr := [] |}.
Proof. reflexivity. Qed.

(** Runs the straight-line prefix of a composite applied to a state, and
    branches where the program tests a value. *)
Ltac run_monad :=
  repeat first
    [ rewrite bind_bind
    | rewrite bind_ret
    | rewrite bind_get
    | rewrite bind_modify
    | rewrite bind_emit
    | rewrite bind_raise
    | rewrite after_events_app
    | progress cbv beta ].

Create HintDb monad discriminated.

#[local] Hint Resolve emits_ret emits_raise emits_pending emits_get
  emits_modify keeps_ret keeps_raise keeps_pending keeps_get keeps_emit
  : monad.

(** Walks through a composite, splitting at every [bind] and branching on
    every test, and leaves the leaves to the hints. *)
Ltac step_monad :=
  repeat first
    [ apply emits_bind; [|intros ?]
    | apply keeps_bind; [|intros ?]
    | apply emits_emit; reflexivity
    | apply keeps_modify; intros ?; reflexivity
    | match goal with
      | |- context [if ?b then _ else _] => destruct b
      | |- context [match ?x with _ => _ end] => destruct x
      end
    | solve [auto with monad] ].

(** ** Micro-batches *)

Section Batches.

Variable config : config.
Variable use_wandb : bool.

Let k := accumulation_steps config.

Lemma micro_batch_emits i loss :
  emits is_batch_event (micro_batch config use_wandb i loss).
Proof.
  unfold micro_batch, backward, py_mod, optimizer_step, zero_grad.
  step_monad.
Qed.

Lemma micro_batch_keeps_epoch_step i loss :
  keeps epoch_step (micro_batch config use_wandb i loss).
Proof.
  unfold micro_batch, backward, py_mod, optimizer_step, zero_grad.
  step_monad.
Qed.

Lemma micro_batch_keeps_best i loss :
  keeps best_avg_loss (micro_batch config use_wandb i loss).
Proof.
  unfold micro_batch, backward, py_mod, optimizer_step, zero_grad.
  step_monad.
Qed.

Lemma micro_batch_keeps_disk i loss :
  keeps disk (micro_batch config use_wandb i loss).
Proof.
  unfold micro_batch, backward, py_mod, optimizer_step, zero_grad.
  step_monad.
Qed.

Lemma for_batches_emits losses : ∀ i,
  emits is_batch_event (for_batches config use_wandb i losses).
Proof.
  induction losses as [|loss rest IH]; intros i; simpl.
  - apply emits_ret.
  - apply emits_bind; [apply micro_batch_emits | intros _; apply IH].
Qed.

Lemma for_batches_keeps {X} (f : state → X) losses :
  (∀ i loss, keeps f (micro_batch config use_wandb i loss)) →
  ∀ i, keeps f (for_batches config use_wandb i losses).
Proof.
  intros Hf. induction losses as [|loss rest IH]; intros i; simpl.
  - apply keeps_ret.
  - apply keeps_bind; [apply Hf | intros _; apply IH].
Qed.

(** One micro-batch when [accumulation_steps] is not zero: it returns, and
    applies the optimizer exactly when [i + 1] is a multiple of [k]. *)
Lemma micro_batch_run i loss s :
  k ≠ 0 →
  let r := micro_batch config use_wandb i loss s in
  let b := (epoch_step s, i) in
  res r = Done tt ∧
  n_batches (st r) = n_batches s + 1 ∧
  global_step (st r) = global_step s + 1 ∧
  epoch_loss (st r) = PyFloat.add (epoch_loss s) loss ∧
  if (i + 1) mod k =? 0 then
    n_acc_steps (st r) = n_acc_steps s + 1 ∧
    params (st r) = params s ++ [grads s ++ [b]] ∧
    grads (st r) = [] ∧
    count_if is_apply (tr r) = 1%nat
  else
    n_acc_steps (st r) = n_acc_steps s ∧
    params (st r) = params s ∧
    grads (st r) = grads s ++ [b] ∧
    count_if is_apply (tr r) = 0%nat.
Proof.
  intros Hk. subst k.
unfold micro_batch, backward, py_mod, optimizer_step, zero_grad.
destruct (accumulation_steps config =? 0) eqn:E; [lia|].
run_monad.
destruct ((i + 1) mod accumulation_steps config =? 0); run_monad.
- destruct use_wandb; run_monad; unfold modify; simpl;
    repeat split; reflexivity.
- unfold modify; simpl; repeat split; reflexivity.
Qed.

End Batches.

(** ** Windows of micro-batches *)

Lemma div_mod_succ (k i : Z) :
  0 < k → 0 ≤ i →
  if (i + 1) mod k =? 0
  then (i + 1) / k = i / k + 1 ∧ i mod k = k - 1
  else (i + 1) / k = i / k ∧ (i + 1) mod k = i mod k + 1.
Proof.
  intros Hk Hi.
  pose proof (Z.div_mod i k ltac:(lia)) as Hd.
  pose proof (Z.mod_pos_bound i k Hk) as Hb.
  destruct (Z.eq_dec (i mod k) (k - 1)) as [E|E].
  - assert (Hq : (i + 1) = (i / k + 1) * k + 0) by lia.
    assert ((i + 1) mod k = 0) as ->.
    { symmetry. apply (Z.mod_unique_pos _ _ (i / k + 1)); lia. }
    simpl. split; [|exact E].
    symmetry. apply (Z.div_unique_pos _ _ _ 0); lia.
  - assert (Hq : (i + 1) = k * (i / k) + (i mod k + 1)) by lia.
    assert ((i + 1) mod k = i mod k + 1) as Hm.
    { symmetry. apply (Z.mod_unique_pos _ _ (i / k)); lia. }
    rewrite Hm. destruct (i mod k + 1 =? 0) eqn:E0; [lia|].
    split; [|reflexivity].
    symmetry. apply (Z.div_unique_pos _ _ _ (i mod k + 1)); lia.
Qed.

Lemma range_ids_snoc (e a n : Z) :
  0 ≤ n → range_ids e a (n + 1) = range_ids e a n ++ [(e, a + n)].
Proof.
  intros Hn. unfold range_ids.
  rewrite seqZ_app by lia. rewrite fmap_app.
  rewrite (seqZ_cons (a + n) 1) by lia.
  rewrite (seqZ_nil (Z.succ (a + n))) by lia. reflexivity.
Qed.

Lemma windows_shift (e k q n : Z) :
  0 < n →
  (λ j, range_ids e (k * j) k) <$> seqZ q n =
  range_ids e (k * q) k :: ((λ j, range_ids e (k * j) k) <$> seqZ (q + 1) (n - 1)).
Proof. intros Hn. rewrite seqZ_cons by lia. reflexivity. Qed.

Section Accumulation.

Variable config : config.
Variable use_wandb : bool.

Let k := accumulation_steps config.

(** The loop over the loader from index [i] on, when the buffers hold the
    micro-batches since the last multiple of [k]. *)
Lemma for_batches_run losses : ∀ i s,
0 < k → 0 ≤ i →
grads s = range_ids (epoch_step s) (k * (i / k)) (i mod k) →
let m := Z.of_nat (length losses) in
let r := for_batches config use_wandb i losses s in
res r = Done tt ∧
n_batches (st r) = n_batches s + m ∧
global_step (st r) = global_step s + m ∧
epoch_loss (st r) = fold_left PyFloat.add losses (epoch_loss s) ∧
n_acc_steps (st r) = n_acc_steps s + ((i + m) / k - i / k) ∧
params (st r) =
  params s ++ ((λ q, range_ids (epoch_step s) (k * q) k)
                 <$> seqZ (i / k) ((i + m) / k - i / k)) ∧
grads (st r) =
  range_ids (epoch_step s) (k * ((i + m) / k)) ((i + m) mod k) ∧
Z.of_nat (count_if is_apply (tr r)) = (i + m) / k - i / k.
Proof.
induction losses as [|loss rest IH]; intros i s Hk Hi Hg m r.
- subst m r. simpl. rewrite !Z.add_0_r, Z.sub_diag.
  rewrite app_nil_r. repeat split; try reflexivity; try lia; assumption.
- subst r. simpl for_batches.
  destruct (micro_batch_run config use_wandb i loss s ltac:(fold k; lia))
    as (Hres & Hnb & Hgs & Hel & Hstep).
  fold k in Hstep.
  pose proof (micro_batch_keeps_epoch_step config use_wandb i loss s) as He.
  rewrite (bind_done _ _ _ _ Hres). cbn [res st tr].
  set (s1 := st (micro_batch config use_wandb i loss s)) in *.
  pose proof (div_mod_succ k i Hk Hi) as Hdm.
  assert (Hm : i + m = (i + 1) + Z.of_nat (length rest)).
  { subst m. simpl length. lia. }
  pose proof (Z.mod_pos_bound i k Hk) as Hb.
  assert (Hmono : (i + 1) / k ≤ (i + 1 + Z.of_nat (length rest)) / k).
  { apply Z.div_le_mono; lia. }
  destruct ((i + 1) mod k =? 0) eqn:E.
  + destruct Hstep as (Hna & Hp & Hg1 & Hc), Hdm as (Hq & Hr).
    apply Z.eqb_eq in E.
    specialize (IH (i + 1) s1 Hk ltac:(lia)).
    destruct IH as (R1 & R2 & R3 & R4 & R5 & R6 & R7 & R8).
    { rewrite Hg1, E. reflexivity. }
    rewrite Hm. rewrite R1, R2, R3, R4, R5, R6, R7, He.
    rewrite Hnb, Hgs, Hel, Hna, Hp, Hg. rewrite count_if_app, Hc.
    rewrite Nat2Z.inj_add, R8.
    repeat split; try reflexivity; try lia.
    assert (Hw : range_ids (epoch_step s) (k * (i / k)) (i mod k)
                 ++ [(epoch_step s, i)]
                 = range_ids (epoch_step s) (k * (i / k)) k).
    { transitivity (range_ids (epoch_step s) (k * (i / k)) (i mod k + 1));
        [|f_equal; lia].
      rewrite range_ids_snoc by lia. do 3 f_equal.
      pose proof (Z.div_mod i k ltac:(lia)). lia. }
    rewrite Hw, <- app_assoc. f_equal.
    assert (Hpos : 0 < (i + 1 + Z.of_nat (length rest)) / k - i / k).
    { lia. }
    rewrite (windows_shift _ _ (i / k) _ Hpos).
    rewrite Hq. simpl. do 3 f_equal. lia.
  + destruct Hstep as (Hna & Hp & Hg1 & Hc), Hdm as (Hq & Hr).
    specialize (IH (i + 1) s1 Hk ltac:(lia)).
    destruct IH as (R1 & R2 & R3 & R4 & R5 & R6 & R7 & R8).
    { rewrite Hg1, Hg, He, Hq, Hr.
      rewrite range_ids_snoc by lia. do 3 f_equal.
      pose proof (Z.div_mod i k ltac:(lia)). lia. }
    rewrite Hm. rewrite R1, R2, R3, R4, R5, R6, R7, He.
    rewrite Hnb, Hgs, Hel, Hna, Hp. rewrite count_if_app, Hc.
    rewrite Nat2Z.inj_add, R8, Hq.
    repeat split; try reflexivity; lia.
Qed.
End Accumulation.

(** ** One epoch *)

Lemma emits_weaken {A} (p q : event → bool) (m : M A) :
  (∀ e, p e = true → q e = true) → emits p m → emits q m.
Proof.
  intros Hpq Hm s. specialize (Hm s).
  induction (tr (m s)) as [|e t IH]; simpl in *; [reflexivity|].
  apply andb_prop in Hm as [He Ht]. rewrite (Hpq e He). auto.
Qed.

Lemma of_int_small (n : Z) :
  Z.abs n < PyFloat.overflow_bound →
  PyFloat.of_int n = Some (PyFloat.of_scaled n 0).
Proof.
  intros H. unfold PyFloat.of_int.
  destruct (Z.leb_spec PyFloat.overflow_bound (Z.abs n)); [lia|reflexivity].
Qed.

Section Epoch.

Variable config : config.
Variable use_wandb : bool.
Variable run_dir : string.
Variable model : model_source.

Let k := accumulation_steps config.

(** [run_epoch] in terms of the run of its inner loop. *)
Lemma run_epoch_cases feed s :
  let rb := for_batches config use_wandb 0 (batches feed) (epoch_entry s) in
  let r := run_epoch config use_wandb run_dir model feed s in
  let sb := st rb in
  match res rb with
  | Done _ =>
      if cancelled feed then
        r = {| res := Raised KeyboardInterrupt; st := sb;
               tr := epoch_prologue ++ tr rb |}
      else
        match PyFloat.of_int (n_batches sb) with
        | None =>
            r = {| res := Raised OverflowError; st := sb;
                   tr := epoch_prologue ++ tr rb |}
        | Some d =>
            if n_batches sb =? 0 then
              r = {| res := Raised ZeroDivisionError; st := sb;
                     tr := epoch_prologue ++ tr rb |}
            else
              let avg := PyFloat.div (epoch_loss sb) d in
              let s1 := set_epoch_step (epoch_step sb + 1) sb in
              if PyFloat.ltb avg (best_avg_loss sb) then
                let c := {| origin := model; steps := params sb |} in
                r = {| res := Done tt;
                       st := set_disk (<[run_dir := c]> (disk sb))
                               (set_best_avg_loss avg s1);
                       tr := epoch_prologue ++ tr rb ++
                             [EvLog (EpochAverage (epoch_step sb) avg);
                              EvLog (NewBest avg);
                              EvLog (SavingModel run_dir);
                              EvSave run_dir c] |}
              else
                r = {| res := Done tt; st := s1;
                       tr := epoch_prologue ++ tr rb ++
                             [EvLog (EpochAverage (epoch_step sb) avg)] |}
        end
  | Raised e =>
      r = {| res := Raised e; st := sb; tr := epoch_prologue ++ tr rb |}
  | Pending =>
      r = {| res := Pending; st := sb; tr := epoch_prologue ++ tr rb |}
  end.
Proof.
  intros rb r sb. subst r.
  unfold run_epoch, zero_grad, float_truediv_int, save.
  run_monad. fold (epoch_entry s). rewrite bind_after. fold rb. fold sb.
  change [EvLog LoadingPages; EvSamplePages; EvMakeLoader; EvZeroGrad]
    with epoch_prologue.
  destruct (res rb) eqn:Hrb; unfold after_events; simpl; try reflexivity.
  destruct (cancelled feed); run_monad; simpl;
    [rewrite app_nil_r; reflexivity|].
  destruct (PyFloat.of_int (n_batches sb)) eqn:Hd; run_monad; simpl;
    [|rewrite app_nil_r; reflexivity].
  destruct (n_batches sb =? 0); run_monad; simpl;
    [rewrite app_nil_r; reflexivity|].
  destruct (PyFloat.ltb _ _); run_monad; simpl; reflexivity.
Qed.

End Epoch.

(** Splits a fact about [run_epoch] along [run_epoch_cases]. *)
Ltac epoch_cases H :=
  cbv zeta in H;
  repeat match type of H with
    | match ?x with _ => _ end => destruct x eqn:?
    end.

Section EpochFacts.

Variable config : config.
Variable use_wandb : bool.
Variable run_dir : string.
Variable model : model_source.

Let k := accumulation_steps config.

Lemma batch_event_epoch_event e :
  is_batch_event e = true → is_epoch_event e = true.
Proof. intros H. unfold is_epoch_event. rewrite H. reflexivity. Qed.

Lemma run_epoch_emits feed :
  emits is_epoch_event (run_epoch config use_wandb run_dir model feed).
Proof.
  unfold run_epoch, zero_grad, float_truediv_int, save.
  repeat first
    [ apply emits_bind; [|intros ?]
    | apply emits_emit; reflexivity
    | apply (emits_weaken _ _ _ batch_event_epoch_event), for_batches_emits
    | match goal with
      | |- context [if ?b then _ else _] => destruct b
      | |- context [match ?x with _ => _ end] => destruct x
      end
    | solve [auto with monad] ].
Qed.

Lemma for_batches_entry_best feed s :
  best_avg_loss
    (st (for_batches config use_wandb 0 (batches feed) (epoch_entry s)))
  = best_avg_loss s.
Proof.
  rewrite (for_batches_keeps config use_wandb best_avg_loss);
    [reflexivity | apply micro_batch_keeps_best].
Qed.

Lemma for_batches_entry_epoch_step feed s :
  epoch_step
    (st (for_batches config use_wandb 0 (batches feed) (epoch_entry s)))
  = epoch_step s.
Proof.
  rewrite (for_batches_keeps config use_wandb epoch_step);
    [reflexivity | apply micro_batch_keeps_epoch_step].
Qed.

Lemma for_batches_entry_disk feed s :
  disk (st (for_batches config use_wandb 0 (batches feed) (epoch_entry s)))
  = disk s.
Proof.
  rewrite (for_batches_keeps config use_wandb disk);
    [reflexivity | apply micro_batch_keeps_disk].
Qed.

(** An epoch leaves [best_avg_loss] alone or replaces it by a strictly
    smaller value. *)
Lemma run_epoch_best feed s :
  let r := run_epoch config use_wandb run_dir model feed s in
  best_avg_loss (st r) = best_avg_loss s ∨
  PyFloat.ltb (best_avg_loss (st r)) (best_avg_loss s) = true.
Proof.
  intros r. subst r.
  pose proof (run_epoch_cases config use_wandb run_dir model feed s) as H.
  pose proof (for_batches_entry_best feed s) as Hb.
  epoch_cases H; rewrite H; simpl; try (left; exact Hb).
  right. rewrite <- Hb. assumption.
Qed.

(** An epoch that returns has advanced [epoch_step] by one; one that does not
    has left it. *)
Lemma run_epoch_epoch_step feed s :
  let r := run_epoch config use_wandb run_dir model feed s in
  epoch_step (st r) =
    match res r with Done _ => epoch_step s + 1 | _ => epoch_step s end.
Proof.
  intros r. subst r.
  pose proof (run_epoch_cases config use_wandb run_dir model feed s) as H.
  pose proof (for_batches_entry_epoch_step feed s) as He.
  epoch_cases H; rewrite H; simpl; rewrite ?He; reflexivity.
Qed.

(** The counters of the inner loop when [accumulation_steps] is not zero. *)
Lemma for_batches_counts losses : ∀ i s,
  k ≠ 0 →
  let r := for_batches config use_wandb i losses s in
  res r = Done tt ∧
  n_batches (st r) = n_batches s + Z.of_nat (length losses) ∧
  global_step (st r) = global_step s + Z.of_nat (length losses) ∧
  epoch_loss (st r) = fold_left PyFloat.add losses (epoch_loss s).
Proof.
  induction losses as [|loss rest IH]; intros i s Hk r.
  - subst r. simpl. rewrite !Z.add_0_r. repeat split; reflexivity.
  - subst r. simpl for_batches.
    destruct (micro_batch_run config use_wandb i loss s Hk)
      as (Hres & Hnb & Hgs & Hel & _).
    rewrite (bind_done _ _ _ _ Hres). cbn [res st tr].
    destruct (IH (i + 1) (st (micro_batch config use_wandb i loss s)) Hk)
      as (R1 & R2 & R3 & R4).
    rewrite R1, R2, R3, R4, Hnb, Hgs, Hel. simpl length.
    repeat split; try reflexivity; lia.
Qed.

(** With a non-zero [accumulation_steps], an epoch that [completes] returns,
    having compared the mean of its losses with [best_avg_loss]. *)
Lemma run_epoch_completes feed s :
  k ≠ 0 → completes feed →
  let m := Z.of_nat (length (batches feed)) in
  let avg := PyFloat.div (summed_loss (batches feed)) (PyFloat.of_scaled m 0) in
  let r := run_epoch config use_wandb run_dir model feed s in
  let c := {| origin := model; steps := params (st r) |} in
  res r = Done tt ∧
  epoch_step (st r) = epoch_step s + 1 ∧
  if PyFloat.ltb avg (best_avg_loss s) then
    best_avg_loss (st r) = avg ∧
    disk (st r) = <[run_dir := c]> (disk s) ∧
    saves (tr r) = [(run_dir, c)]
  else
    best_avg_loss (st r) = best_avg_loss s ∧
    disk (st r) = disk s ∧
    saves (tr r) = [].
Proof.
  intros Hk (Hne & Hlen & Hc) m avg r c. subst r c.
  pose proof (run_epoch_cases config use_wandb run_dir model feed s) as H.
  pose proof (for_batches_entry_best feed s) as Hb.
  pose proof (for_batches_entry_epoch_step feed s) as He.
  pose proof (for_batches_entry_disk feed s) as Hd.
  destruct (for_batches_counts (batches feed) 0 (epoch_entry s) Hk)
    as (R1 & R2 & _ & R4).
  pose proof (saves_batch_events _
                (for_batches_emits config use_wandb (batches feed) 0
                   (epoch_entry s))) as Hns.
  cbv zeta in H. rewrite R1, Hc in H.
  change (n_batches (epoch_entry s)) with 0 in R2. rewrite Z.add_0_l in R2.
  change (epoch_loss (epoch_entry s)) with PyFloat.zero in R4.
  fold (summed_loss (batches feed)) in R4.
  rewrite R2, R4, Hb, He, Hd in H. fold m in H.
  rewrite of_int_small in H by (subst m; lia).
  assert (Hm0 : (m =? 0) = false).
  { apply Z.eqb_neq. subst m. destruct (batches feed); [congruence|].
    simpl length. lia. }
  rewrite Hm0 in H. fold avg in H.
  destruct (PyFloat.ltb avg (best_avg_loss s)); rewrite H;
    cbn [res st tr]; rewrite !saves_app, Hns; simpl;
    rewrite ?Hb, ?He, ?Hd; repeat split; reflexivity.
Qed.

End EpochFacts.

(** ** The starting model *)

(** C8. The model source is chosen in the fixed order best-on-network,
    specific participant, local directory, local file, from scratch: the
    first selector that is set wins, whatever the later ones hold.  A
    selector is set as the code tests it: the flag for best-on-network, a uid
    that is not [None] for a participant, a non-empty string for the two
    local sources.  In particular best-on-network wins when the local-file
    selector is set too. *)
Theorem load_starting_model_priority (config : config)
  (kwargs : list (string * string)) (s : state) :
  let r := load_starting_model config kwargs s in
  let src := first_match (candidates config kwargs) in
  res r = Done src ∧
  tr r = [EvLoadModel src; EvLog (TrainingWith src)] ∧
  st r = s ∧
  (load_best config = true → src = BestOnNetwork (competition_id config)) ∧
  (load_best config = false → ∀ uid, load_uid config = Some uid →
   src = Participant uid) ∧
  (load_best config = false → load_uid config = None →
   ∀ dir, truthy (load_model_dir config) = Some dir →
   src = LocalDirectory dir kwargs) ∧
  (load_best config = false → load_uid config = None →
   truthy (load_model_dir config) = None →
   ∀ file, truthy (load_model config) = Some file → src = LocalFile file) ∧
  (load_best config = false → load_uid config = None →
   truthy (load_model_dir config) = None →
   truthy (load_model config) = None → src = FromScratch).
Proof.
  intros r src. subst r src.
  unfold load_starting_model, candidates.
  destruct (load_best config); simpl.
  { repeat split; try reflexivity; intros; congruence. }
  destruct (load_uid config) as [uid|]; simpl.
  { repeat split; try reflexivity; intros; congruence. }
  destruct (truthy (load_model_dir config)) as [dir|]; simpl.
  { repeat split; try reflexivity; intros; congruence. }
  destruct (truthy (load_model config)) as [file|]; simpl.
  { repeat split; try reflexivity; intros; congruence. }
  repeat split; try reflexivity; intros; congruence.
Qed.

Lemma load_starting_model_priority_witness :
  load_best both_selectors_config = true ∧
  truthy (load_model both_selectors_config) = Some "model.safetensors" ∧
  res (load_starting_model both_selectors_config [] trained_state)
  = Done (BestOnNetwork 1).
Proof.
  split; [reflexivity|]. split; [reflexivity|].
  destruct (load_starting_model_priority both_selectors_config []
              trained_state) as (Hres & _ & _ & Hbest & _).
  etransitivity; [exact Hres|].
  exact (f_equal Done (Hbest eq_refl)).
Defined.

(** ** The publish gate *)

(** [publish_gate] in normal form. *)
Lemma publish_gate_cases (config : config) (run_dir : string) (s : state) :
  publish_gate config run_dir s =
    let best := best_avg_loss s in
    let threshold := avg_loss_upload_threshold config in
    if offline config then
      {| res := Done SKIPPED_OFFLINE; st := s;
         tr := [EvLog FinishedTraining; EvLog OfflineNotUploading] |}
    else if PyFloat.ltb best threshold then
      match disk s !! run_dir with
      | Some c =>
          {| res := Done PUBLISHED; st := s;
             tr := [EvLog FinishedTraining; EvLog (Uploading best threshold);
                    EvLoadLocalModel run_dir; EvPush c] |}
      | None =>
          {| res := Raised LoadError; st := s;
             tr := [EvLog FinishedTraining; EvLog (Uploading best threshold);
                    EvLoadLocalModel run_dir] |}
      end
    else
      {| res := Done SKIPPED_THRESHOLD; st := s;
         tr := [EvLog FinishedTraining;
                EvLog (BelowThresholdNotUploading best)] |}.
Proof.
  unfold publish_gate, load_local_model.
  destruct (offline config); cbn [negb]; run_monad; [reflexivity|].
  destruct (PyFloat.ltb _ _); run_monad; [|reflexivity].
  destruct (disk s !! run_dir); run_monad; reflexivity.
Qed.

(** ** What one epoch does *)

Section EpochClaims.

Variable config : config.
Variable use_wandb : bool.
Variable run_dir : string.
Variable model : model_source.

Let k := accumulation_steps config.

(** The extra events of [run_epoch] around its inner loop carry no optimizer
    step and exactly one epoch start. *)
Lemma run_epoch_trace feed s :
  let rb := for_batches config use_wandb 0 (batches feed) (epoch_entry s) in
  let r := run_epoch config use_wandb run_dir model feed s in
  ∃ extra,
    tr r = epoch_prologue ++ tr rb ++ extra ∧
    count_if is_apply extra = 0%nat ∧
    count_if is_epoch_start extra = 0%nat ∧
    (saves extra = [] ∨
     res r = Done tt ∧
     saves extra = [(run_dir, {| origin := model; steps := params (st r) |})]).
Proof.
  intros rb r. subst r.
  pose proof (run_epoch_cases config use_wandb run_dir model feed s) as H.
  epoch_cases H; rewrite H; cbn [res st tr];
    try (exists []; rewrite app_nil_r; repeat split; auto; fail).
  - eexists. split; [reflexivity|]. repeat split. right. split; reflexivity.
  - eexists. split; [reflexivity|]. repeat split. left. reflexivity.
Qed.

(** The weights, the buffers and the counters after an epoch of [m]
    micro-batches, however it ends. *)
Lemma run_epoch_accumulates feed s :
  0 < k →
  let m := Z.of_nat (length (batches feed)) in
  let e := epoch_step s in
  let r := run_epoch config use_wandb run_dir model feed s in
  Z.of_nat (count_if is_apply (tr r)) = m / k ∧
  n_acc_steps (st r) = n_acc_steps s + m / k ∧
  params (st r) = params s ++ windows e k (m / k) ∧
  grads (st r) = range_ids e (k * (m / k)) (m mod k).
Proof.
  intros Hk m e r.
  destruct (for_batches_run config use_wandb (batches feed) 0 (epoch_entry s))
    as (_ & _ & _ & _ & Hna & Hp & Hg & Hc); [assumption|lia|reflexivity|].
  fold k in Hna, Hp, Hg, Hc.
  rewrite Z.add_0_l, Z.div_0_l, Z.sub_0_r in Hna, Hp, Hc by lia.
  rewrite Z.add_0_l in Hg.
  change (epoch_step (epoch_entry s)) with e in Hp, Hg.
  change (params (epoch_entry s)) with (params s) in Hp.
  change (n_acc_steps (epoch_entry s)) with (n_acc_steps s) in Hna.
  fold m in Hna, Hp, Hg, Hc. fold (windows e k (m / k)) in Hp.
  destruct (run_epoch_trace feed s) as (extra & Ht & Hx & _).
  fold r in Ht. subst r.
  pose proof (run_epoch_cases config use_wandb run_dir model feed s) as H.
  rewrite Ht, !count_if_app, Hx, Nat.add_0_r. simpl count_if.
  split; [exact Hc|].
  epoch_cases H; rewrite H; cbn [res st tr]; auto.
Qed.

(** C5. In an epoch with [accumulation_steps = k] and [m] micro-batches the
    optimizer is applied exactly [floor (m / k)] times: micro-batch [i]
    (from 0) applies it exactly when [i + 1] is a multiple of [k], each
    application consumes the window of [k] micro-batches ending there, and the
    micro-batches after the last multiple of [k] stay in the gradient buffers
    without an application in that epoch. *)
Theorem optimizer_applies_every_k (feed : epoch_feed) (s : state) :
  0 < k →
  let m := Z.of_nat (length (batches feed)) in
  let e := epoch_step s in
  let r := run_epoch config use_wandb run_dir model feed s in
  Z.of_nat (count_if is_apply (tr r)) = m / k ∧
  n_acc_steps (st r) = n_acc_steps s + m / k ∧
  params (st r) = params s ++ windows e k (m / k) ∧
  grads (st r) = range_ids e (k * (m / k)) (m mod k) ∧
  (∀ i loss s',
     count_if is_apply (tr (micro_batch config use_wandb i loss s')) =
     if (i + 1) mod k =? 0 then 1%nat else 0%nat).
Proof.
  intros Hk m e r.
  destruct (run_epoch_accumulates feed s Hk) as (H1 & H2 & H3 & H4).
  repeat split; try assumption.
  intros i loss s'.
  destruct (micro_batch_run config use_wandb i loss s' ltac:(fold k; lia))
    as (_ & _ & _ & _ & H).
  fold k in H. destruct ((i + 1) mod k =? 0); apply H.
Qed.

(** C2. An epoch whose loader yields no micro-batch fails on the division
    [epoch_loss / n_batches] with [ZeroDivisionError] (the spec's
    [EmptyEpochError]), right after the prologue: nothing has been written
    to the checkpoint directory for that epoch, and [epoch_step] and
    [best_avg_loss] are as before. *)
Theorem empty_epoch_fails (feed : epoch_feed) (s : state) :
  batches feed = [] → cancelled feed = false →
  let r := run_epoch config use_wandb run_dir model feed s in
  res r = Raised ZeroDivisionError ∧
  tr r = epoch_prologue ∧
  saves (tr r) = [] ∧
  disk (st r) = disk s ∧
  n_batches (st r) = 0 ∧
  epoch_step (st r) = epoch_step s ∧
  best_avg_loss (st r) = best_avg_loss s.
Proof.
  intros Hb Hc r. subst r.
  pose proof (run_epoch_cases config use_wandb run_dir model feed s) as H.
  rewrite Hb, Hc in H. cbv zeta in H. simpl in H.
  rewrite H. repeat split; reflexivity.
Qed.

End EpochClaims.

Lemma optimizer_applies_every_k_witness :
  0 < accumulation_steps online_config ∧
  Z.of_nat (count_if is_apply
              (tr (run_epoch online_config true "run" FromScratch
                     five_batches trained_state))) = 2.
Proof.
  split; [reflexivity|].
  destruct (optimizer_applies_every_k online_config true "run" FromScratch
              five_batches trained_state) as (H & _); [reflexivity|].
  exact H.
Defined.

Lemma empty_epoch_fails_witness :
  batches empty_feed = [] ∧ cancelled empty_feed = false ∧
  res (run_epoch online_config true "run" FromScratch empty_feed
         trained_state) = Raised ZeroDivisionError.
Proof.
  split; [reflexivity|]. split; [reflexivity|].
  destruct (empty_epoch_fails online_config true "run" FromScratch
              empty_feed trained_state eq_refl eq_refl) as (H & _).
  exact H.
Defined.

Lemma three_batches_completes : completes three_batches.
Proof.
  split; [discriminate|]. split; [vm_compute; reflexivity|reflexivity].
Defined.

(** ** The loop over epochs *)

Lemma leb_trans (x y z : float) :
  PyFloat.leb x y = true → PyFloat.leb y z = true → PyFloat.leb x z = true.
Proof.
  unfold PyFloat.leb, SFleb.
  destruct x as [sx|sx| |sx mx ex], y as [sy|sy| |sy my ey],
           z as [sz|sz| |sz mz ez];
    simpl; try discriminate;
    try (destruct sx; try discriminate); try (destruct sy; try discriminate);
    try (destruct sz; try discriminate); try reflexivity; simpl.
  all: fold (Pos.compare mx my); fold (Pos.compare my mz);
    fold (Pos.compare mx mz).
  all: destruct (Z.compare_spec ex ey), (Z.compare_spec ey ez),
    (Z.compare_spec ex ez); try lia; try discriminate; try reflexivity.
  all: destruct (Pos.compare_spec mx my), (Pos.compare_spec my mz),
    (Pos.compare_spec mx mz); simpl; try lia; try discriminate;
    try reflexivity.
Qed.

Lemma windows_elem (e k n : Z) (step : list batch_id) (e' j : Z) :
  0 < k → step ∈ windows e k n → (e', j) ∈ step →
  e' = e ∧ 0 ≤ j < k * n.
Proof.
  intros Hk Hs Hj. unfold windows in Hs.
  apply list_elem_of_fmap in Hs as (q & -> & Hq).
  apply elem_of_seqZ in Hq.
  unfold range_ids in Hj.
  apply list_elem_of_fmap in Hj as (j' & Heq & Hj').
  apply elem_of_seqZ in Hj'. inversion Heq; subst. split; [reflexivity|nia].
Qed.

Section Loop.

Variable config : config.
Variable use_wandb : bool.
Variable run_dir : string.
Variable model : model_source.

Let k := accumulation_steps config.
Let loop := train_loop config use_wandb run_dir model.
Let epoch := run_epoch config use_wandb run_dir model.

Lemma train_loop_unfold fs s :
  loop fs s =
    if continues config s then
      match fs with
      | [] => pending s
      | feed :: rest => bind (epoch feed) (λ _, loop rest) s
      end
    else ret tt s.
Proof.
  subst loop epoch. unfold continues.
  destruct fs; cbn [train_loop]; rewrite bind_get;
    destruct (_ || _); reflexivity.
Qed.

Lemma train_loop_emits fs : emits is_epoch_event (loop fs).
Proof.
  subst loop. induction fs as [|feed rest IH]; cbn [train_loop].
  - apply emits_bind; [apply emits_get|]. intros s.
    destruct (_ || _); auto with monad.
  - apply emits_bind; [apply emits_get|]. intros s.
    destruct (_ || _); [|auto with monad].
    apply emits_bind; [apply run_epoch_emits|]. intros _. exact IH.
Qed.

(** The loop leaves [best_avg_loss] alone or makes it strictly smaller. *)
Lemma train_loop_best fs : ∀ s,
  best_avg_loss (st (loop fs s)) = best_avg_loss s ∨
  PyFloat.ltb (best_avg_loss (st (loop fs s))) (best_avg_loss s) = true.
Proof.
  induction fs as [|feed rest IH]; intros s; rewrite train_loop_unfold.
  - destruct (continues config s); left; reflexivity.
  - destruct (continues config s); [|left; reflexivity].
    pose proof (run_epoch_best config use_wandb run_dir model feed s) as He.
    cbv zeta in He. fold epoch in He.
    rewrite bind_after.
    destruct (res (epoch feed s)); cbn [st after_events]; try exact He.
    destruct (IH (st (epoch feed s))) as [H1|H1], He as [H2|H2].
    + left. congruence.
    + right. rewrite H1. exact H2.
    + right. rewrite <- H2. exact H1.
    + right. eapply ltb_trans; eassumption.
Qed.

(** Every epoch the loop starts logs one "Loading pages" line. *)
Lemma run_epoch_one_start feed s :
  count_if is_epoch_start (tr (epoch feed s)) = 1%nat.
Proof.
  destruct (run_epoch_trace config use_wandb run_dir model feed s)
    as (extra & Ht & _ & Hx & _).
  fold epoch in Ht. rewrite Ht, !count_if_app, Hx.
  rewrite (count_if_none is_epoch_start is_batch_event
             (tr (for_batches config use_wandb 0 (batches feed)
                    (epoch_entry s))));
    [reflexivity| |apply for_batches_emits].
  intros e He. destruct e; try discriminate; try reflexivity.
  destruct m; try discriminate; reflexivity.
Qed.

(** A budget of [N] epochs, with [n] of them left and enough feeds that
    complete: the loop runs exactly [n] more epochs and returns. *)
Lemma train_loop_budget fs : ∀ s (n : nat),
  k ≠ 0 →
  0 ≤ epoch_step s →
  epoch_step s + Z.of_nat n = num_epochs config →
  (n ≤ length fs)%nat →
  Forall completes (take n fs) →
  res (loop fs s) = Done tt ∧
  epoch_step (st (loop fs s)) = num_epochs config ∧
  count_if is_epoch_start (tr (loop fs s)) = n.
Proof.
  assert (Hstop : ∀ s, 0 ≤ epoch_step s → epoch_step s = num_epochs config →
                       continues config s = false).
  { intros s H0 He. unfold continues. rewrite <- He, Z.ltb_irrefl.
    simpl. apply Z.eqb_neq. lia. }
  assert (Hgo : ∀ s n, epoch_step s + Z.of_nat (S n) = num_epochs config →
                       continues config s = true).
  { intros s n He. unfold continues.
    apply orb_true_intro. left. apply Z.ltb_lt. lia. }
  induction fs as [|feed rest IH]; intros s n Hk H0 Hn Hlen Hc;
    rewrite train_loop_unfold.
  - simpl in Hlen. assert (n = 0%nat) as -> by lia.
    rewrite Hstop by lia. repeat split; simpl; lia.
  - destruct n as [|n].
    { rewrite Hstop by lia. repeat split; simpl; lia. }
    rewrite (Hgo s n Hn).
    rewrite firstn_cons in Hc. apply Forall_cons in Hc as [Hf Hc].
    destruct (run_epoch_completes config use_wandb run_dir model feed s
                Hk Hf) as (Hres & Hstep & _).
    fold epoch in Hres, Hstep.
    rewrite (bind_done _ _ _ _ Hres). cbn [res st tr].
    destruct (IH (st (epoch feed s)) n Hk) as (R1 & R2 & R3);
      [lia|lia|simpl in Hlen; lia|exact Hc|].
    rewrite R1, R2, count_if_app, R3, run_epoch_one_start.
    repeat split; reflexivity.
Qed.

(** With the budget [-1] the test of the [while] always holds: the loop
    never returns, and on feeds that complete it is still running after the
    last of them. *)
Lemma train_loop_unbounded fs : ∀ s,
  num_epochs config = -1 →
  res (loop fs s) ≠ Done tt ∧
  (k ≠ 0 → Forall completes fs →
   res (loop fs s) = Pending ∧
   epoch_step (st (loop fs s)) = epoch_step s + Z.of_nat (length fs) ∧
   count_if is_epoch_start (tr (loop fs s)) = length fs).
Proof.
  intros s Hn.
  assert (Hgo : ∀ s, continues config s = true).
  { intros s'. unfold continues. rewrite Hn. apply orb_true_r. }
  revert s. induction fs as [|feed rest IH]; intros s;
    rewrite train_loop_unfold, Hgo.
  - split; [discriminate|]. intros _ _. simpl.
    repeat split; try reflexivity; lia.
  - destruct (IH (st (epoch feed s))) as (IH1 & IH2). split.
    + rewrite bind_after.
      destruct (res (epoch feed s)); cbn [res after_events];
        [exact IH1|discriminate..].
    + intros Hk Hc. apply Forall_cons in Hc as [Hf Hc].
      destruct (run_epoch_completes config use_wandb run_dir model feed s
                  Hk Hf) as (Hres & Hstep & _).
      fold epoch in Hres, Hstep.
      rewrite (bind_done _ _ _ _ Hres). cbn [res st tr].
      destruct (IH2 Hk Hc) as (R1 & R2 & R3).
      rewrite R1, R2, count_if_app, R3, run_epoch_one_start, Hstep.
      simpl length. repeat split; try reflexivity; lia.
Qed.

(** The loop never starts more epochs than a budget [N >= 0] allows, and has
    run exactly [N] when it returns. *)
Lemma train_loop_at_most fs : ∀ s (n : nat),
  0 ≤ epoch_step s →
  epoch_step s + Z.of_nat n = num_epochs config →
  (count_if is_epoch_start (tr (loop fs s)) ≤ n)%nat ∧
  (res (loop fs s) = Done tt →
   count_if is_epoch_start (tr (loop fs s)) = n).
Proof.
  induction fs as [|feed rest IH]; intros s n H0 Hn;
    rewrite train_loop_unfold; unfold continues.
  - destruct (_ || _) eqn:E; simpl; [split; [lia|discriminate]|].
    apply orb_false_elim in E as [E _]. apply Z.ltb_ge in E.
    split; [lia|]. intros _. lia.
  - destruct (_ || _) eqn:E.
    + apply orb_true_elim in E as [E|E];
        [apply Z.ltb_lt in E|apply Z.eqb_eq in E; lia].
      destruct n as [|n]; [lia|].
      pose proof (run_epoch_epoch_step config use_wandb run_dir model feed s)
        as Hstep. cbv zeta in Hstep. fold epoch in Hstep.
      pose proof (run_epoch_one_start feed s) as H1.
      rewrite bind_after.
      destruct (res (epoch feed s)) eqn:Hr; cbn [res tr after_events].
      * destruct (IH (st (epoch feed s)) n) as (IH1 & IH2); [lia|lia|].
        rewrite count_if_app, H1. split; [lia|].
        intros Hd. rewrite (IH2 Hd). reflexivity.
      * rewrite H1. split; [lia|discriminate].
      * rewrite H1. split; [lia|discriminate].
    + apply orb_false_elim in E as [E _]. apply Z.ltb_ge in E.
      simpl. split; [lia|]. intros _. lia.
Qed.

(** C9. With an epoch budget [N >= 0] the loop, entered with
    [epoch_step = 0], starts at most [N] epochs, has run exactly [N] when it
    returns, and does return after exactly [N] when the world supplies [N]
    epochs that run to their end.  With the budget [-1] the loop never
    returns: it goes on as long as epochs are supplied. *)
Theorem epoch_budget_exact (fs : list epoch_feed) (s : state) :
  epoch_step s = 0 →
  let r := loop fs s in
  let started := count_if is_epoch_start (tr r) in
  (∀ N : nat, num_epochs config = Z.of_nat N →
     (started ≤ N)%nat ∧
     (res r = Done tt → started = N) ∧
     (k ≠ 0 → (N ≤ length fs)%nat → Forall completes (take N fs) →
      res r = Done tt ∧ epoch_step (st r) = Z.of_nat N ∧ started = N)) ∧
  (num_epochs config = -1 →
     res r ≠ Done tt ∧
     (k ≠ 0 → Forall completes fs →
      res r = Pending ∧ started = length fs ∧
      epoch_step (st r) = Z.of_nat (length fs))).
Proof.
  intros H0 r started. subst r started. split.
  - intros N HN.
    destruct (train_loop_at_most fs s N) as (H1 & H2); [lia|lia|].
    split; [exact H1|]. split; [exact H2|].
    intros Hk Hlen Hc.
    destruct (train_loop_budget fs s N Hk) as (R1 & R2 & R3);
      [lia|lia|exact Hlen|exact Hc|].
    rewrite R1, R2, R3, HN. repeat split; reflexivity.
  - intros Hn. destruct (train_loop_unbounded fs s Hn) as (H1 & H2).
    split; [exact H1|]. intros Hk Hc.
    destruct (H2 Hk Hc) as (R1 & R2 & R3).
    rewrite R1, R2, R3, H0. repeat split; reflexivity.
Qed.

(** The history of [best_avg_loss] stays below the value the loop started
    from and is sorted, largest first. *)
Lemma best_history_sorted fs : ∀ s,
  PyFloat.is_nan (best_avg_loss s) = false →
  Forall (λ b, PyFloat.leb b (best_avg_loss s) = true)
    (best_history config use_wandb run_dir model fs s) ∧
  StronglySorted (λ a b, PyFloat.leb b a = true)
    (best_history config use_wandb run_dir model fs s).
Proof.
  induction fs as [|feed rest IH]; intros s Hnan; cbn [best_history];
    destruct (_ || _); try solve [split; constructor].
  fold epoch.
  pose proof (run_epoch_best config use_wandb run_dir model feed s) as He.
  cbv zeta in He. fold epoch in He.
  destruct (res (epoch feed s)); try solve [split; constructor].
  set (s1 := st (epoch feed s)) in *.
  assert (Hle : PyFloat.leb (best_avg_loss s1) (best_avg_loss s) = true).
  { destruct He as [->|Hlt]; [apply leb_refl; exact Hnan|].
    apply ltb_leb; exact Hlt. }
  assert (Hnan1 : PyFloat.is_nan (best_avg_loss s1) = false).
  { destruct He as [->|Hlt]; [exact Hnan|].
    eapply ltb_not_nan; exact Hlt. }
  destruct (IH s1 Hnan1) as (IHb & IHs). split.
  - constructor; [exact Hle|].
    eapply Forall_impl; [exact IHb|].
    intros b Hb. simpl in Hb. eapply leb_trans; eassumption.
  - constructor; assumption.
Qed.

(** An epoch that does not run to its end leaves [best_avg_loss] alone. *)
Lemma run_epoch_failed_keeps_best feed s :
  (∀ a, res (epoch feed s) ≠ Done a) →
  best_avg_loss (st (epoch feed s)) = best_avg_loss s.
Proof.
  subst epoch. intros Hr.
  pose proof (run_epoch_cases config use_wandb run_dir model feed s) as H.
  pose proof (for_batches_entry_best config use_wandb feed s) as Hb.
  epoch_cases H; rewrite H in Hr |- *; cbn [res st] in *;
    try exact Hb; exfalso; eapply Hr; reflexivity.
Qed.

(** The value the loop leaves in [best_avg_loss] is the last of the
    history. *)
Lemma best_history_last fs : ∀ s,
  best_avg_loss (st (loop fs s)) =
    default (best_avg_loss s)
      (last (best_history config use_wandb run_dir model fs s)).
Proof.
  induction fs as [|feed rest IH]; intros s;
    rewrite train_loop_unfold; cbn [best_history]; unfold continues;
    destruct (_ || _); try reflexivity.
  fold epoch. rewrite bind_after.
  pose proof (run_epoch_failed_keeps_best feed s) as Hb.
  destruct (res (epoch feed s)) eqn:Hr; cbn [st after_events].
  - rewrite IH, last_cons.
    destruct (last (best_history _ _ _ _ rest _)); reflexivity.
  - apply Hb. discriminate.
  - apply Hb. discriminate.
Qed.

(** C6. [best_avg_loss] starts at [+inf] and never grows: each epoch, and so
    the whole loop, leaves it as it was or replaces it by a strictly smaller
    value; the values it takes at the end of the completed epochs form a
    non-increasing sequence that ends in the value the loop leaves. *)
Theorem best_avg_loss_non_increasing (fs : list epoch_feed) (s : state) :
  let history := best_history config use_wandb run_dir model fs s in
  best_avg_loss (st (init_training_vars s)) = PyFloat.inf ∧
  (∀ feed,
     best_avg_loss (st (epoch feed s)) = best_avg_loss s ∨
     PyFloat.ltb (best_avg_loss (st (epoch feed s))) (best_avg_loss s)
     = true) ∧
  (best_avg_loss (st (loop fs s)) = best_avg_loss s ∨
   PyFloat.ltb (best_avg_loss (st (loop fs s))) (best_avg_loss s) = true) ∧
  best_avg_loss (st (loop fs s)) = default (best_avg_loss s) (last history) ∧
  (PyFloat.is_nan (best_avg_loss s) = false →
   StronglySorted (λ a b, PyFloat.leb b a = true)
     (best_avg_loss s :: history)).
Proof.
  intros history. subst history.
  split; [reflexivity|]. split.
  { intros feed. apply (run_epoch_best config use_wandb run_dir model). }
  split; [apply train_loop_best|]. split; [apply best_history_last|].
  intros Hnan. destruct (best_history_sorted fs s Hnan) as (Hb & Hs).
  constructor; assumption.
Qed.

(** What the buffers held when an epoch starts has no effect on it. *)
Lemma run_epoch_forgets_grads feed g s :
  epoch feed (set_grads g s) = epoch feed s.
Proof.
  subst epoch. unfold run_epoch, zero_grad. run_monad. reflexivity.
Qed.

(** Every micro-batch consumed by an optimizer step of the loop lies in a
    full window of its own epoch. *)
Lemma train_loop_params fs : ∀ s,
  0 < k →
  ∃ new,
    params (st (loop fs s)) = params s ++ new ∧
    ∀ step e j, step ∈ new → (e, j) ∈ step →
      ∃ (n : nat) feed,
        fs !! n = Some feed ∧
        e = epoch_step s + Z.of_nat n ∧
        0 ≤ j < k * (Z.of_nat (length (batches feed)) / k).
Proof.
  induction fs as [|feed rest IH]; intros s Hk; rewrite train_loop_unfold.
  - exists []. rewrite app_nil_r.
    split; [destruct (continues config s); reflexivity|].
    intros step e j Hs. inversion Hs.
  - destruct (continues config s).
    2:{ exists []. rewrite app_nil_r. split; [reflexivity|].
        intros step e j Hs. inversion Hs. }
    destruct (run_epoch_accumulates config use_wandb run_dir model feed s Hk)
      as (_ & _ & Hp & _).
    pose proof (run_epoch_epoch_step config use_wandb run_dir model feed s)
      as Hstep.
    cbv zeta in Hstep. fold epoch k in Hp, Hstep.
    set (m := Z.of_nat (length (batches feed))) in *.
    assert (Hw : ∀ step e j,
               step ∈ windows (epoch_step s) k (m / k) → (e, j) ∈ step →
               ∃ (n : nat) f,
                 (feed :: rest) !! n = Some f ∧
                 e = epoch_step s + Z.of_nat n ∧
                 0 ≤ j < k * (Z.of_nat (length (batches f)) / k)).
    { intros step e j Hs Hj.
      destruct (windows_elem _ _ _ _ _ _ Hk Hs Hj) as (-> & Hb).
      exists 0%nat, feed. unfold m in Hb.
      repeat split; try reflexivity; lia. }
    rewrite bind_after.
    destruct (res (epoch feed s)) eqn:Hr; cbn [st after_events].
    + destruct (IH (st (epoch feed s)) Hk) as (new & Hn & Hnew).
      exists (windows (epoch_step s) k (m / k) ++ new).
      split; [rewrite Hn, Hp, app_assoc; reflexivity|].
      intros step e j Hs Hj.
      apply elem_of_app in Hs as [Hs|Hs]; [exact (Hw step e j Hs Hj)|].
      destruct (Hnew step e j Hs Hj) as (n & f & Hl & He & Hb).
      exists (S n), f. split; [exact Hl|]. split; [|exact Hb].
      rewrite He, Hstep. lia.
    + exists (windows (epoch_step s) k (m / k)). split; [exact Hp|exact Hw].
    + exists (windows (epoch_step s) k (m / k)). split; [exact Hp|exact Hw].
Qed.

(** C10. Every epoch clears the gradient buffers before its first
    micro-batch, so what an earlier epoch left there has no effect on it:
    every micro-batch that an optimizer step of the loop consumes belongs to
    a full window of [k] micro-batches of the epoch the step is in.  The
    micro-batches after an epoch's last full window (index at least
    [k * floor (m / k)]) never reach an optimizer step, in that epoch or in a
    later one. *)
Theorem tail_gradients_discarded (fs : list epoch_feed) (s : state) :
  0 < k →
  (∀ feed g, epoch feed (set_grads g s) = epoch feed s) ∧
  (∀ feed, ∃ rest,
     tr (epoch feed s) =
       EvLog LoadingPages :: EvSamplePages :: EvMakeLoader :: EvZeroGrad
       :: rest) ∧
  ∃ new,
    params (st (loop fs s)) = params s ++ new ∧
    (∀ step e j, step ∈ new → (e, j) ∈ step →
       ∃ (n : nat) feed,
         fs !! n = Some feed ∧
         e = epoch_step s + Z.of_nat n ∧
         0 ≤ j < k * (Z.of_nat (length (batches feed)) / k)) ∧
    (∀ (n : nat) feed j,
       fs !! n = Some feed →
       k * (Z.of_nat (length (batches feed)) / k) ≤ j →
       ∀ step, step ∈ new → (epoch_step s + Z.of_nat n, j) ∉ step).
Proof.
  intros Hk. split; [intros feed g; apply run_epoch_forgets_grads|].
  split.
  { intros feed.
    destruct (run_epoch_trace config use_wandb run_dir model feed s)
      as (extra & Ht & _).
    fold epoch in Ht. rewrite Ht. eexists. reflexivity. }
  destruct (train_loop_params fs s Hk) as (new & Hp & Hnew).
  exists new. split; [exact Hp|]. split; [exact Hnew|].
  intros n feed j Hl Hj step Hs Hin.
  destruct (Hnew step _ _ Hs Hin) as (n' & feed' & Hl' & He & Hb).
  assert (n' = n) as -> by lia.
  rewrite Hl in Hl'. inversion Hl'; subst. lia.
Qed.

End Loop.

Lemma five_batches_completes : completes five_batches.
Proof.
  split; [discriminate|]. split; [vm_compute; reflexivity|reflexivity].
Defined.

Lemma epoch_budget_exact_witness :
  epoch_step bootstrapped_state = 0 ∧
  res (train_loop online_config true "run" FromScratch
         [three_batches; five_batches; three_batches] bootstrapped_state)
  = Done tt ∧
  count_if is_epoch_start
    (tr (train_loop online_config true "run" FromScratch
           [three_batches; five_batches; three_batches] bootstrapped_state))
  = 2%nat.
Proof.
  split; [reflexivity|].
  destruct (epoch_budget_exact online_config true "run" FromScratch
              [three_batches; five_batches; three_batches]
              bootstrapped_state eq_refl) as (H & _).
  destruct (H 2%nat eq_refl) as (_ & _ & H3).
  destruct H3 as (R1 & _ & R3).
  - discriminate.
  - simpl. lia.
  - constructor; [exact three_batches_completes|].
    constructor; [exact five_batches_completes|]. constructor.
  - split; [exact R1 | exact R3].
Defined.

Lemma best_avg_loss_non_increasing_witness :
  PyFloat.is_nan (best_avg_loss bootstrapped_state) = false ∧
  length (best_history online_config true "run" FromScratch
            [three_batches; five_batches] bootstrapped_state) = 2%nat ∧
  StronglySorted (λ a b, PyFloat.leb b a = true)
    (PyFloat.inf
     :: best_history online_config true "run" FromScratch
          [three_batches; five_batches] bootstrapped_state).
Proof.
  split; [reflexivity|]. split; [vm_compute; reflexivity|].
  apply (best_avg_loss_non_increasing online_config true "run" FromScratch
           [three_batches; five_batches] bootstrapped_state).
  reflexivity.
Defined.

Lemma tail_gradients_discarded_witness :
  0 < accumulation_steps online_config ∧
  run_epoch online_config true "run" FromScratch five_batches
    (set_grads [(0, 2)] bootstrapped_state)
  = run_epoch online_config true "run" FromScratch five_batches
      bootstrapped_state.
Proof.
  split; [reflexivity|].
  destruct (tail_gradients_discarded online_config true "run" FromScratch
              [three_batches; five_batches] bootstrapped_state eq_refl)
    as (H & _).
  apply H.
Defined.

(** ** Before the loop *)

Lemma load_starting_model_run (config : config)
  (kwargs : list (string * string)) (s : state) :
  let src := first_match (candidates config kwargs) in
  load_starting_model config kwargs s =
    {| res := Done src; st := s;
       tr := [EvLoadModel src; EvLog (TrainingWith src)] |}.
Proof.
  unfold load_starting_model, candidates.
  destruct (load_best config); [reflexivity|].
  destruct (load_uid config); [reflexivity|].
  destruct (truthy (load_model_dir config)); [reflexivity|].
  destruct (truthy (load_model config)); reflexivity.
Qed.

Lemma bind_load_starting_model {B} (config : config)
  (kwargs : list (string * string)) (k : model_source → M B) (s : state) :
  bind (load_starting_model config kwargs) k s =
    let src := first_match (candidates config kwargs) in
    after_events [EvLoadModel src; EvLog (TrainingWith src)] (k src s).
Proof.
  rewrite bind_after, load_starting_model_run. reflexivity.
Qed.

(** Runs [startup] to each of its ends. *)
Ltac run_startup :=
  unfold startup, connect, check_online, choose_wandb, lookup_constraints,
    init_model, start_wandb, save;
  match goal with
  | |- context [offline ?c] => destruct (offline c) eqn:?
  end;
  repeat first
    [ progress run_monad
    | rewrite bind_load_starting_model
    | progress cbn [negb]
    | match goal with
      | |- context [bind (if ?b then _ else _) _ _] => destruct b eqn:?
      | |- context [bind (match ?x with _ => _ end) _ _] => destruct x eqn:?
      | |- context [(if ?b then _ else _) _] => destruct b eqn:?
      | |- context [(match ?x with Some _ => _ | None => _ end) _] =>
          destruct x eqn:?
      end ].

Section Startup.

Variable config : config.
Variable w : world.

Lemma startup_emits : emits is_startup_event (startup config w).
Proof.
  unfold startup, connect, check_online, choose_wandb, lookup_constraints,
    init_model, start_wandb, save, load_starting_model.
  step_monad.
Qed.

(** The wandb run is started exactly when [startup] returns with
    [wandb_run] set. *)
Lemma startup_wandb_init s :
  let r := startup config w s in
  count_if is_wandb_init (tr r) =
    match res r with
    | Done v => if su_wandb_run v then 1%nat else 0%nat
    | _ => 0%nat
    end.
Proof.
  intros r. subst r. run_startup; unfold after_events; simpl; reflexivity.
Qed.

(** The bootstrap save: when [startup] returns, it has written the starting
    model, once, to the run directory. *)
Lemma startup_bootstrap_save s :
  let r := startup config w s in
  ∀ v, res r = Done v →
    let c := {| origin := su_model v; steps := params s |} in
    su_run_dir v = model_path w (model_dir config) (run_id w) ∧
    saves (tr r) = [(su_run_dir v, c)] ∧
    disk (st r) = <[su_run_dir v := c]> (disk s) ∧
    params (st r) = params s ∧ grads (st r) = grads s.
Proof.
  intros r. subst r. run_startup; unfold after_events; simpl;
    intros v Hv; try discriminate; injection Hv as <-; simpl;
    repeat split; reflexivity.
Qed.

End Startup.

(** ** The checkpoint *)

Section Checkpoint.

Variable config : config.
Variable use_wandb : bool.
Variable run_dir : string.
Variable model : model_source.

Let k := accumulation_steps config.

(** C7. A checkpoint is written at the end of an epoch exactly when the
    epoch's average loss is strictly below [best_avg_loss] as it was before
    the epoch.  An epoch writes at most one checkpoint, only when it runs to
    its end, always the current weights and always at the run directory:
    the entry the bootstrap save created there is replaced and no other path
    of the disk changes.  The bootstrap save itself is the one write of the
    statements before the loop. *)
Theorem checkpoint_iff_improved (feed : epoch_feed) (s : state) :
  let m := Z.of_nat (length (batches feed)) in
  let avg := PyFloat.div (summed_loss (batches feed)) (PyFloat.of_scaled m 0) in
  let r := run_epoch config use_wandb run_dir model feed s in
  let c := {| origin := model; steps := params (st r) |} in
  (saves (tr r) = [] ∧ disk (st r) = disk s ∨
   res r = Done tt ∧ saves (tr r) = [(run_dir, c)] ∧
   disk (st r) = <[run_dir := c]> (disk s)) ∧
  (k ≠ 0 → completes feed →
   res r = Done tt ∧
   (saves (tr r) = [(run_dir, c)] ↔
    PyFloat.ltb avg (best_avg_loss s) = true) ∧
   (saves (tr r) = [] ↔ PyFloat.ltb avg (best_avg_loss s) = false)) ∧
  (is_Some (disk s !! run_dir) →
   dom (disk (st r)) = dom (disk s) ∧
   ∀ path, path ≠ run_dir → disk (st r) !! path = disk s !! path) ∧
  (∀ w s0 v, res (startup config w s0) = Done v →
   let c0 := {| origin := su_model v; steps := params s0 |} in
   saves (tr (startup config w s0)) = [(su_run_dir v, c0)] ∧
   disk (st (startup config w s0)) !! su_run_dir v = Some c0).
Proof.
  intros m avg r c.
  assert (Hcases : saves (tr r) = [] ∧ disk (st r) = disk s ∨
                   res r = Done tt ∧ saves (tr r) = [(run_dir, c)] ∧
                   disk (st r) = <[run_dir := c]> (disk s)).
  { subst c r.
    pose proof (run_epoch_cases config use_wandb run_dir model feed s) as H.
    pose proof (for_batches_entry_disk config use_wandb feed s) as Hd.
    pose proof (saves_batch_events _
                  (for_batches_emits config use_wandb (batches feed) 0
                     (epoch_entry s))) as Hns.
    epoch_cases H; rewrite H; cbn [res st tr];
      rewrite ?saves_app, Hns; simpl; rewrite ?Hd; auto. }
  split; [exact Hcases|]. split; [|split].
  - intros Hk Hcomp.
    destruct (run_epoch_completes config use_wandb run_dir model feed s
                Hk Hcomp) as (Hres & _ & Hif).
    fold m avg r c in Hres, Hif.
    split; [exact Hres|].
    destruct (PyFloat.ltb avg (best_avg_loss s));
      destruct Hif as (_ & _ & Hs); rewrite Hs; split; split;
      intros; congruence.
  - intros [c0 Hc0].
    destruct Hcases as [(_ & Hd)|(_ & _ & Hd)]; rewrite Hd.
    + split; reflexivity.
    + split.
      * rewrite dom_insert_L. apply elem_of_dom_2 in Hc0.
        apply subseteq_union_1_L, singleton_subseteq_l. exact Hc0.
      * intros path Hne. rewrite lookup_insert_ne; [reflexivity|congruence].
  - intros w s0 v Hv.
    destruct (startup_bootstrap_save config w s0 v Hv) as (_ & Hs & Hd & _).
    split; [exact Hs|]. rewrite Hd. apply lookup_insert_eq.
Qed.

End Checkpoint.

Lemma checkpoint_iff_improved_witness :
  accumulation_steps online_config ≠ 0 ∧ completes three_batches ∧
  saves (tr (run_epoch online_config true "run" FromScratch three_batches
               bootstrapped_state))
  = [("run", {| origin := FromScratch; steps := [[(0, 0); (0, 1)]] |})].
Proof.
  split; [discriminate|]. split; [exact three_batches_completes|].
  destruct (checkpoint_iff_improved online_config true "run" FromScratch
              three_batches bootstrapped_state) as (_ & H & _).
  destruct (H ltac:(discriminate) three_batches_completes) as (_ & Hiff & _).
  etransitivity; [apply Hiff; vm_compute; reflexivity|].
  vm_compute. reflexivity.
Defined.

(** ** The [try] block and [main] *)

Lemma epoch_event_not_gate e :
  is_epoch_event e = true → is_gate_event e = false.
Proof. destruct e; try discriminate; try reflexivity.
       destruct m; try discriminate; reflexivity. Qed.

Lemma epoch_event_not_finish e :
  is_epoch_event e = true → is_wandb_finish e = false.
Proof. destruct e; try discriminate; reflexivity. Qed.

Lemma epoch_event_not_init e :
  is_epoch_event e = true → is_wandb_init e = false.
Proof. destruct e; try discriminate; reflexivity. Qed.

Lemma startup_event_not_gate e :
  is_startup_event e = true → is_gate_event e = false.
Proof. destruct e; try discriminate; try reflexivity.
       destruct m; try discriminate; reflexivity. Qed.

Lemma startup_event_not_finish e :
  is_startup_event e = true → is_wandb_finish e = false.
Proof. destruct e; try discriminate; reflexivity. Qed.

Section Main.

Variable config : config.
Variable w : world.

(** The [try] block in terms of the run of its loop: the gate runs only when
    the loop returns, the [finally] block whenever the block is left. *)
Lemma train_and_publish_cases v s :
  let lr := train_loop config (su_use_wandb v) (su_run_dir v) (su_model v)
              (feeds w) s in
  let g := publish_gate config (su_run_dir v) (st lr) in
  train_and_publish config w v s =
    match res lr with
    | Done _ =>
        {| res := res g; st := st g;
           tr := tr lr ++ tr g ++ finally_events v |}
    | Raised e =>
        {| res := Raised e; st := st lr; tr := tr lr ++ finally_events v |}
    | Pending => {| res := Pending; st := st lr; tr := tr lr |}
    end.
Proof.
  intros lr g. unfold train_and_publish, try_finally, finally_events.
  rewrite bind_after. fold lr.
  destruct (res lr) eqn:Hlr; cbn [res st tr after_events].
  - fold g. subst g. rewrite publish_gate_cases. cbv zeta.
    destruct (offline config);
      [|destruct (PyFloat.ltb _ _);
        [destruct (disk (st lr) !! su_run_dir v)|]];
      destruct (su_wandb_run v); cbn [res st tr emit ret];
      rewrite <- ?app_assoc; reflexivity.
  - destruct (su_wandb_run v); reflexivity.
  - reflexivity.
Qed.

(** [main] in terms of the runs of its three parts. *)
Lemma main_cases s :
  let sr := startup config w s in
  main config w s =
    match res sr with
    | Done v =>
        after_events (tr sr)
          (train_and_publish config w v
             (set_best_avg_loss PyFloat.inf
                (set_n_acc_steps 0
                   (set_global_step 0 (set_epoch_step 0 (st sr))))))
    | Raised e => {| res := Raised e; st := st sr; tr := tr sr |}
    | Pending => {| res := Pending; st := st sr; tr := tr sr |}
    end.
Proof.
  intros sr. unfold main. rewrite bind_after. fold sr.
  destruct (res sr); reflexivity.
Qed.

(** The ways out of [main]: an exception of the loop skips the gate, the
    [finally] block closes the telemetry session it finds open, and a run
    that returns has been through the gate. *)
Lemma run_main_exits :
  let r := run_main config w in
  (res r = Raised KeyboardInterrupt →
   count_if is_gate_event (tr r) = 0%nat) ∧
  (res r ≠ Pending →
   count_if is_wandb_finish (tr r) = count_if is_wandb_init (tr r) ∧
   (count_if is_wandb_finish (tr r) ≤ 1)%nat) ∧
  (∀ o, res r = Done o →
   (2 ≤ count_if is_gate_event (tr r))%nat ∧
   o = gate_decision config (best_avg_loss (st r))).
Proof.
  intros r. subst r. unfold run_main. rewrite main_cases.
  set (s := initial_state w). set (sr := startup config w s).
  pose proof (startup_emits config w s) as Hse. fold sr in Hse.
  pose proof (startup_wandb_init config w s) as Hsi.
  cbv zeta in Hsi. fold sr in Hsi.
  pose proof (count_if_none is_gate_event _ _ startup_event_not_gate Hse)
    as Hsg.
  pose proof (count_if_none is_wandb_finish _ _ startup_event_not_finish Hse)
    as Hsf.
  destruct (res sr) as [v| |] eqn:Hsr.
  2:{ cbn [res tr]. rewrite Hsg, Hsf, Hsi.
      repeat split; intros; try discriminate; try reflexivity; lia. }
  2:{ cbn [res tr]. repeat split; intros; try discriminate; congruence. }
  rewrite train_and_publish_cases. cbv zeta.
  set (s1 := set_best_avg_loss _ _).
  set (lr := train_loop config (su_use_wandb v) (su_run_dir v) (su_model v)
               (feeds w) s1).
  pose proof (train_loop_emits config (su_use_wandb v) (su_run_dir v)
                (su_model v) (feeds w) s1) as Hle.
  fold lr in Hle.
  pose proof (count_if_none is_gate_event _ _ epoch_event_not_gate Hle)
    as Hlg.
  pose proof (count_if_none is_wandb_finish _ _ epoch_event_not_finish Hle)
    as Hlf.
  pose proof (count_if_none is_wandb_init _ _ epoch_event_not_init Hle)
    as Hli.
  assert (Hfg : count_if is_gate_event (finally_events v) = 0%nat).
  { unfold finally_events. destruct (su_wandb_run v); reflexivity. }
  assert (Hff : count_if is_wandb_finish (finally_events v)
                = if su_wandb_run v then 1%nat else 0%nat).
  { unfold finally_events. destruct (su_wandb_run v); reflexivity. }
  assert (Hfi : count_if is_wandb_init (finally_events v) = 0%nat).
  { unfold finally_events. destruct (su_wandb_run v); reflexivity. }
  destruct (res lr) eqn:Hlr; unfold after_events; cbn [res st tr].
  - rewrite publish_gate_cases. cbv zeta. unfold gate_decision.
    destruct (offline config);
      [|destruct (PyFloat.ltb _ _) eqn:Hlt;
        [destruct (disk (st lr) !! su_run_dir v)|]];
      cbn [res st tr]; rewrite !count_if_app, Hsg, Hsf, Hsi, Hlg, Hlf, Hli,
        Hfg, Hff, Hfi; simpl count_if;
      repeat split; intros; try discriminate;
      try (injection H as <-); rewrite ?Hlt; try reflexivity;
      destruct (su_wandb_run v); simpl; lia.
  - rewrite !count_if_app, Hsg, Hsf, Hsi, Hlg, Hlf, Hli, Hfg, Hff, Hfi.
    repeat split; intros; try discriminate; try reflexivity;
      destruct (su_wandb_run v); simpl; lia.
  - repeat split; intros; try discriminate; congruence.
Qed.

(** C4 (amended). A run for a competition the constraints table has no
    entry for fails with the "No competition found" error once it has passed
    the checks of an online run (a registered miner with an access token) or
    is offline.  It fails before any tokenizer or model is loaded, before the
    bootstrap save, the telemetry start and the first epoch, and leaves the
    state as it was.  The chain connection and the metagraph sync have
    happened by then: the lookup is the last step and comes after them. *)
Theorem unknown_competition_aborts (s : state) :
  MODEL_CONSTRAINTS_BY_COMPETITION_ID w !! competition_id config = None →
  offline config = true ∨
  (registered w = true ∧ access_token_exists w = true) →
  let r := main config w s in
  res r = Raised NoCompetitionFound ∧
  st r = s ∧
  count_if is_model_loading (tr r) = 0%nat ∧
  saves (tr r) = [] ∧
  count_if is_wandb_init (tr r) = 0%nat ∧
  count_if is_epoch_start (tr r) = 0%nat ∧
  take 5 (tr r) = [EvConfigureLogging; EvWallet; EvSubtensor; EvMetagraph;
                   EvChainStore] ∧
  last (tr r) = Some (EvLookupConstraints (competition_id config)) ∧
  count_if is_network_io (tr r) = 2%nat.
Proof.
  intros Hnone Hok r. subst r. unfold main.
  run_startup;
    try (exfalso; destruct Hok as [?|[? ?]]; congruence);
    unfold after_events; simpl; repeat split; reflexivity.
Qed.

End Main.


Lemma unknown_competition_aborts_witness :
  MODEL_CONSTRAINTS_BY_COMPETITION_ID (friendly_world [])
    !! competition_id unknown_competition_config = None ∧
  offline unknown_competition_config = true ∧
  res (run_main unknown_competition_config (friendly_world []))
  = Raised NoCompetitionFound.
Proof.
  assert (H : MODEL_CONSTRAINTS_BY_COMPETITION_ID (friendly_world [])
                !! competition_id unknown_competition_config = None)
    by (vm_compute; reflexivity).
  split; [exact H|]. split; [reflexivity|].
  destruct (unknown_competition_aborts unknown_competition_config
              (friendly_world []) (initial_state (friendly_world [])) H
              (or_introl eq_refl)) as (Hres & _).
  exact Hres.
Defined.

(** The runs the claim fails on.  Offline, with no entry for competition 7:
    the error is raised after the chain connection and the metagraph sync,
    two calls that reach the network.  Online, by a miner that is not
    registered: the run fails on the registration check, before the table is
    consulted. *)
Lemma unknown_competition_after_network_io :
  let r := run_main unknown_competition_config (friendly_world []) in
  let r' := run_main unknown_competition_online unregistered_world in
  MODEL_CONSTRAINTS_BY_COMPETITION_ID (friendly_world []) !! 7 = None ∧
  res r = Raised NoCompetitionFound ∧
  tr r = [EvConfigureLogging; EvWallet; EvSubtensor; EvMetagraph;
          EvChainStore;
          EvMakedirs "local-models/2024-01-01_00-00-00";
          EvLookupConstraints 7] ∧
  count_if is_network_io (tr r) = 2%nat ∧
  MODEL_CONSTRAINTS_BY_COMPETITION_ID unregistered_world !! 7 = None ∧
  res r' = Raised NotRegistered ∧
  count_if is_network_io (tr r') = 2%nat.
Proof. vm_compute. repeat split; reflexivity. Qed.

(** ** The publish decision *)

(** C1. The publish decision has three outcomes.  Offline it is
    [SKIPPED_OFFLINE] whatever [best_avg_loss] is; online with
    [best_avg_loss >= avg_loss_upload_threshold] it is [SKIPPED_THRESHOLD];
    and it is [PUBLISHED] only online with [best_avg_loss] strictly below the
    threshold, in which case the checkpoint of the run directory is reloaded
    and then pushed.  Nothing is reloaded or pushed in the two other
    cases.  A run of [main] that returns has taken this decision on the
    [best_avg_loss] its loop left. *)
Theorem publish_gate_trichotomy (config : config) (run_dir : string)
  (s : state) :
  let r := publish_gate config run_dir s in
  let best := best_avg_loss s in
  let threshold := avg_loss_upload_threshold config in
  ((offline config = true → res r = Done SKIPPED_OFFLINE) ∧
  (offline config = false → PyFloat.leb threshold best = true →
   res r = Done SKIPPED_THRESHOLD) ∧
  (res r = Done PUBLISHED →
   offline config = false ∧ PyFloat.ltb best threshold = true) ∧
  (res r = Done PUBLISHED →
   ∃ c, disk s !! run_dir = Some c ∧
        tr r = [EvLog FinishedTraining; EvLog (Uploading best threshold);
                EvLoadLocalModel run_dir; EvPush c]) ∧
  (offline config = false → PyFloat.ltb best threshold = true →
   ∀ c, disk s !! run_dir = Some c → res r = Done PUBLISHED) ∧
  (∀ o, res r = Done o → o = gate_decision config best) ∧
  (res r = Done SKIPPED_OFFLINE ∨ res r = Done SKIPPED_THRESHOLD →
   count_if is_gate_event (tr r) = 2%nat ∧
   count_if is_model_loading (tr r) = 0%nat ∧
   count_if is_network_io (tr r) = 0%nat) ∧
  st r = s) ∧
  (∀ w o, res (run_main config w) = Done o →
   o = gate_decision config (best_avg_loss (st (run_main config w)))).
Proof.
  intros r best threshold. subst r best threshold.
  split; [|intros w o Ho; apply (run_main_exits config w); exact Ho].
  rewrite publish_gate_cases. unfold gate_decision.
  destruct (offline config);
    [|destruct (PyFloat.ltb (best_avg_loss s)
                  (avg_loss_upload_threshold config)) eqn:Hlt;
      [destruct (disk s !! run_dir) as [c|] eqn:Hd|]];
    simpl; repeat split; intros;
    repeat match goal with
      | H : _ ∨ _ |- _ => destruct H
      | H : Done _ = Done _ |- _ =>
          first [discriminate H | injection H as H; subst]
      | H : Raised _ = Done _ |- _ => discriminate H
      | H : PyFloat.leb _ _ = true |- _ => apply leb_not_ltb in H
      end;
    try congruence; try reflexivity;
    try (eexists; split; reflexivity).
Qed.

Lemma publish_gate_trichotomy_witness :
  offline online_config = false ∧
  PyFloat.ltb (best_avg_loss trained_state)
    (avg_loss_upload_threshold online_config) = true ∧
  res (publish_gate online_config "run" trained_state) = Done PUBLISHED.
Proof.
  split; [reflexivity|]. split; [reflexivity|].
  destruct (publish_gate_trichotomy online_config "run" trained_state)
    as ((_ & _ & _ & _ & Hpub & _) & _).
  apply (Hpub eq_refl eq_refl
           {| origin := FromScratch; steps := [[(0, 0); (0, 1)]] |}).
  reflexivity.
Defined.

(** * Further properties of [main] *)

(** ** Arithmetic on losses *)

Lemma ltb_zero (x : float) : PyFloat.ltb x PyFloat.zero = is_negative x.
Proof. destruct x as [s|s| |s m e]; try reflexivity; destruct s; reflexivity. Qed.

Lemma ltb_inf (x : float) : PyFloat.ltb PyFloat.inf x = false.
Proof. destruct x as [s|s| |s m e]; try reflexivity; destruct s; reflexivity. Qed.

Lemma ltb_nan (x : float) : PyFloat.ltb S754_nan x = false.
Proof. reflexivity. Qed.

Lemma add_nan_l (y : float) : PyFloat.add S754_nan y = S754_nan.
Proof. reflexivity. Qed.

Lemma add_nan_r (x : float) : PyFloat.add x S754_nan = S754_nan.
Proof. destruct x; reflexivity. Qed.

Lemma div_nan_l (y : float) : PyFloat.div S754_nan y = S754_nan.
Proof. reflexivity. Qed.

Lemma is_nan_eq (x : float) : PyFloat.is_nan x = true → x = S754_nan.
Proof. destruct x; try discriminate; reflexivity. Qed.

(** Once NaN has entered a running sum it stays. *)
Lemma fold_add_nan (l : list float) : fold_left PyFloat.add l S754_nan = S754_nan.
Proof. induction l as [|y l IH]; simpl; [reflexivity|]. exact IH. Qed.

Lemma fold_add_has_nan (l : list float) : ∀ x,
  Exists (λ y, PyFloat.is_nan y = true) l →
  fold_left PyFloat.add l x = S754_nan.
Proof.
  induction l as [|y l IH]; intros x H; [inversion H|].
  simpl. apply Exists_cons in H as [H|H].
  - apply is_nan_eq in H. subst y. rewrite add_nan_r. apply fold_add_nan.
  - apply IH. exact H.
Qed.

(** Rounding keeps the sign it is given. *)
Lemma binary_round_aux_sign (sx : bool) (m e : Z) (l : location) :
  sign_bit (binary_round_aux PyFloat.prec PyFloat.emax sx m e l)
  = match binary_round_aux PyFloat.prec PyFloat.emax sx m e l with
    | S754_nan => false
    | _ => sx
    end.
Proof.
  unfold binary_round_aux.
  destruct (shr_fexp _ _ _ _ _) as [mrs' e'].
  destruct (shr_fexp _ _ _ _ _) as [mrs'' e''].
  destruct (shr_m mrs''); try reflexivity.
  destruct (_ <=? _); reflexivity.
Qed.

Lemma binary_round_aux_unsigned (m e : Z) (l : location) :
  sign_bit (binary_round_aux PyFloat.prec PyFloat.emax false m e l) = false.
Proof.
  rewrite binary_round_aux_sign.
  destruct (binary_round_aux _ _ _ _ _ _); reflexivity.
Qed.

Lemma sign_bit_not_negative (x : float) :
  sign_bit x = false → is_negative x = false.
Proof. destruct x as [s|s| |s m e]; simpl; intros H; subst; reflexivity. Qed.

Lemma binary_normalize_unsigned (m e : Z) :
  0 ≤ m →
  sign_bit (binary_normalize PyFloat.prec PyFloat.emax m e false) = false.
Proof.
  intros Hm. unfold binary_normalize.
  destruct m as [|p|p]; [reflexivity| |lia].
  unfold binary_round. destruct (shl_align _ _ _) as [mz ez].
  apply binary_round_aux_unsigned.
Qed.

(** [float(n)] of a count is unsigned. *)
Lemma of_scaled_unsigned (n : Z) :
  0 ≤ n → sign_bit (PyFloat.of_scaled n 0) = false.
Proof. apply binary_normalize_unsigned. Qed.

(** A sum of two losses that are not below zero is not below zero. *)
Lemma add_not_negative (x y : float) :
  is_negative x = false → is_negative y = false →
  is_negative (PyFloat.add x y) = false.
Proof.
  intros Hx Hy.
  destruct x as [sx|sx| |sx mx ex], y as [sy|sy| |sy my ey];
    try reflexivity; simpl in Hx, Hy;
    try (destruct sx; try discriminate); try (destruct sy; try discriminate);
    try reflexivity.
  unfold PyFloat.add, SFadd. cbn [cond_Zopp].
  apply sign_bit_not_negative, binary_normalize_unsigned. lia.
Qed.

(** A quotient of a loss that is not below zero by an unsigned divisor is
    not below zero. *)
Lemma div_not_negative (x d : float) :
  is_negative x = false → sign_bit d = false →
  is_negative (PyFloat.div x d) = false.
Proof.
  intros Hx Hd.
  destruct x as [sx|sx| |sx mx ex], d as [sd|sd| |sd md ed];
    try reflexivity; simpl in Hx, Hd; subst;
    try (destruct sx; try discriminate); try reflexivity.
  unfold PyFloat.div, SFdiv.
  destruct (SFdiv_core_binary _ _ _ _ _ _) as [[mz ez] lz].
  apply sign_bit_not_negative, binary_round_aux_unsigned.
Qed.

Lemma fold_add_not_negative (l : list float) : ∀ x,
  is_negative x = false →
  Forall (λ y, is_negative y = false) l →
  is_negative (fold_left PyFloat.add l x) = false.
Proof.
  induction l as [|y l IH]; intros x Hx Hl; [exact Hx|].
  apply Forall_cons in Hl as [Hy Hl]. simpl.
  apply IH; [apply add_not_negative; assumption | exact Hl].
Qed.

(** ** One micro-batch, in normal form *)

Section MicroBatch.

Variable config : config.
Variable use_wandb : bool.

Let k := accumulation_steps config.

Lemma micro_batch_cases i loss s :
  micro_batch config use_wandb i loss s =
    let b := (epoch_step s, i) in
    let s1 := set_grads (grads s ++ [b]) s in
    let finish s' :=
      set_epoch_loss (PyFloat.add (epoch_loss s) loss)
        (set_global_step (global_step s + 1)
           (set_n_batches (n_batches s + 1) s')) in
    if k =? 0 then
      {| res := Raised ZeroDivisionError; st := s1;
         tr := [EvForward b; EvBackward b] |}
    else if (i + 1) mod k =? 0 then
      let n := n_acc_steps s + 1 in
      {| res := Done tt;
         st := finish (set_grads []
                         (set_params (params s ++ [grads s ++ [b]])
                            (set_n_acc_steps n s1)));
         tr := [EvForward b; EvBackward b; EvOptimizerStep (grads s ++ [b]);
                EvZeroGrad; EvLog (StepLoss n loss)]
               ++ (if use_wandb then [EvWandbLog loss (n_batches s) n]
                   else [])
               ++ [EvEmptyCache] |}
    else
      {| res := Done tt; st := finish s1;
         tr := [EvForward b; EvBackward b; EvEmptyCache] |}.
Proof.
  subst k.
  unfold micro_batch, backward, py_mod, optimizer_step, zero_grad.
  destruct (accumulation_steps config =? 0); run_monad; [reflexivity|].
  destruct ((i + 1) mod accumulation_steps config =? 0); run_monad;
    [|reflexivity].
  destruct use_wandb; run_monad; reflexivity.
Qed.

End MicroBatch.

(** ** The counters *)

Lemma step_numbers_app (t u : list event) :
  step_numbers (t ++ u) = step_numbers t ++ step_numbers u.
Proof.
  induction t as [|e t IH]; simpl; [reflexivity|].
  destruct e; simpl; try exact IH. destruct m; simpl; rewrite ?IH; reflexivity.
Qed.

Lemma wandb_steps_app (t u : list event) :
  wandb_steps (t ++ u) = wandb_steps t ++ wandb_steps u.
Proof.
  induction t as [|e t IH]; simpl; [reflexivity|].
  destruct e; simpl; rewrite ?IH; reflexivity.
Qed.

(** A trace without counter events shows nothing to the counters. *)
Lemma quiet_trace (t : list event) :
  forallb (λ e, negb (is_counter_event e)) t = true →
  step_numbers t = [] ∧ wandb_steps t = [] ∧
  count_if is_apply t = 0%nat ∧ count_if is_batch_done t = 0%nat.
Proof.
  induction t as [|e t IH]; simpl; [repeat split; reflexivity|].
  intros [He Ht]%andb_prop. destruct (IH Ht) as (H1 & H2 & H3 & H4).
  destruct e; try discriminate; simpl; auto.
  destruct m; try discriminate; simpl; auto.
Qed.

Lemma counted_quiet {A} uw (s : state) (r : run A) :
  forallb (λ e, negb (is_counter_event e)) (tr r) = true →
  n_acc_steps (st r) = n_acc_steps s →
  global_step (st r) = global_step s →
  params (st r) = params s →
  counted uw s r.
Proof.
  intros Hq Hn Hg Hp. destruct (quiet_trace _ Hq) as (H1 & H2 & H3 & H4).
  unfold counted. rewrite Hn, Hg, Hp, H1, H2, H3, H4, Z.sub_diag.
  repeat split; try reflexivity; try lia. destruct uw; reflexivity.
Qed.

(** [counted] runs compose. *)
Lemma counted_after {A} uw (s : state) (t : list event) (s1 : state)
  (r : run A) :
  counted uw s {| res := Done tt; st := s1; tr := t |} →
  counted uw s1 r →
  counted uw s (after_events t r).
Proof.
  unfold counted, after_events. cbn [res st tr].
  intros (A0 & A1 & A2 & A3 & A4 & A5) (B0 & B1 & B2 & B3 & B4 & B5).
  rewrite step_numbers_app, wandb_steps_app, !count_if_app, A1, B1, A5, B5.
  rewrite A1, B1.
  replace (n_acc_steps (st r) - n_acc_steps s)
    with ((n_acc_steps s1 - n_acc_steps s) + (n_acc_steps (st r) - n_acc_steps s1))
    by lia.
  rewrite seqZ_app by lia.
  replace (n_acc_steps s + 1 + (n_acc_steps s1 - n_acc_steps s))
    with (n_acc_steps s1 + 1) by lia.
  repeat split; try reflexivity; try lia.
  destruct uw; reflexivity.
Qed.

Lemma counts_bind {A B} uw (m : M A) (k : A → M B) :
  counts uw m → (∀ a, counts uw (k a)) → counts uw (bind m k).
Proof.
  intros Hm Hk s. rewrite bind_after. specialize (Hm s).
  destruct (res (m s)) eqn:Hr; [|exact Hm..].
  apply (counted_after uw s (tr (m s)) (st (m s))); [exact Hm|apply Hk].
Qed.

Lemma counts_quiet {A} uw (m : M A) :
  emits (λ e, negb (is_counter_event e)) m →
  keeps n_acc_steps m → keeps global_step m → keeps params m →
  counts uw m.
Proof. intros He Hn Hg Hp s. apply counted_quiet; auto. Qed.

Section Counters.

Variable config : config.
Variable use_wandb : bool.
Variable run_dir : string.
Variable model : model_source.

Lemma micro_batch_counts i loss :
  counts use_wandb (micro_batch config use_wandb i loss).
Proof.
  intros s. rewrite micro_batch_cases. cbv zeta. unfold counted.
  destruct (_ =? 0); cbn [res st tr].
  { simpl. rewrite Z.sub_diag. repeat split; try reflexivity; try lia.
    destruct use_wandb; reflexivity. }
  destruct (_ =? 0); cbn [res st tr].
  - replace (n_acc_steps _ - n_acc_steps s) with 1
      by (simpl; lia).
    destruct use_wandb; simpl; rewrite ?length_app; simpl;
      repeat split; try reflexivity; lia.
  - simpl. rewrite Z.sub_diag. repeat split; try reflexivity; try lia.
    destruct use_wandb; reflexivity.
Qed.

Lemma for_batches_counts_steps losses : ∀ i,
  counts use_wandb (for_batches config use_wandb i losses).
Proof.
  induction losses as [|loss rest IH]; intros i; cbn [for_batches].
  - apply counts_quiet; intros s; reflexivity.
  - apply counts_bind; [apply micro_batch_counts|intros _; apply IH].
Qed.

End Counters.

Lemma counted_ext {A B} uw (s : state) (r : run A) (r' : run B) :
  st r' = st r → tr r' = tr r → counted uw s r → counted uw s r'.
Proof. unfold counted. intros -> ->. auto. Qed.

Lemma counts_try_finally {A} uw (body : M A) (cleanup : M unit) :
  counts uw body → counts uw cleanup → counts uw (try_finally body cleanup).
Proof.
  intros Hb Hc s. unfold try_finally. specialize (Hb s).
  assert (H : counted uw s (after_events (tr (body s)) (cleanup (st (body s))))).
  { apply (counted_after uw s (tr (body s)) (st (body s))); [|apply Hc].
    eapply counted_ext; [| |exact Hb]; reflexivity. }
  destruct (res (body s)); [| |exact Hb];
    (eapply counted_ext; [| |exact H]; reflexivity).
Qed.

(** Walks through a composite whose parts are [counted] because they do not
    touch the counters, or because they are the loop over the loader. *)
Ltac step_counts lemma :=
  repeat first
    [ apply counts_bind; [|intros ?]
    | apply lemma
    | match goal with
      | |- counts _ (if ?b then _ else _) => destruct b
      | |- counts _ (match ?x with _ => _ end) => destruct x
      end
    | apply counts_quiet; step_monad ].

Section CountersOfMain.

Variable config : config.
Variable use_wandb : bool.
Variable run_dir : string.
Variable model : model_source.

Lemma run_epoch_counts feed :
  counts use_wandb (run_epoch config use_wandb run_dir model feed).
Proof.
  unfold run_epoch, zero_grad, float_truediv_int, save.
  step_counts for_batches_counts_steps.
Qed.

Lemma train_loop_counts fs :
  counts use_wandb (train_loop config use_wandb run_dir model fs).
Proof.
  induction fs as [|feed rest IH]; cbn [train_loop].
  - step_counts for_batches_counts_steps.
  - apply counts_bind; [apply counts_quiet; step_monad|]. intros s.
    destruct (_ || _); [|apply counts_quiet; step_monad].
    apply counts_bind; [apply run_epoch_counts|intros _; exact IH].
Qed.

Lemma publish_gate_counts : counts use_wandb (publish_gate config run_dir).
Proof.
  unfold publish_gate, load_local_model.
  step_counts for_batches_counts_steps.
Qed.

End CountersOfMain.

(** X1. From the initialisation of the counters to the end of the [try]
    block, in a run that no exception has cut short (the block has
    returned, or the loop is at its test with every epoch so far run to its
    end): [n_acc_steps] is the number of optimizer steps taken, which are
    the steps applied to the weights and the "Step" lines, numbered 1, 2,
    ... without a gap across epochs; [global_step] is the number of
    micro-batches that ran to their end; and the wandb calls, when
    telemetry is on, carry exactly these step numbers. *)
Theorem counters_match_trace (config : config) (w : world) (v : startup_vars)
  (s : state) :
  let r := bind init_training_vars (λ _, train_and_publish config w v) s in
  res r = Pending ∨ (∃ o, res r = Done o) →
  n_acc_steps (st r) = Z.of_nat (count_if is_apply (tr r)) ∧
  Z.of_nat (length (params (st r)))
  = Z.of_nat (length (params s)) + n_acc_steps (st r) ∧
  step_numbers (tr r) = seqZ 1 (n_acc_steps (st r)) ∧
  global_step (st r) = Z.of_nat (count_if is_batch_done (tr r)) ∧
  wandb_steps (tr r)
  = if su_use_wandb v then step_numbers (tr r) else [].
Proof.
  intros r _. subst r. unfold init_training_vars. run_monad.
  set (s1 := set_best_avg_loss _ _).
  assert (H : counts (su_use_wandb v) (train_and_publish config w v)).
  { unfold train_and_publish. apply counts_try_finally.
    - apply counts_bind; [apply train_loop_counts|].
      intros _. apply publish_gate_counts.
    - destruct (su_wandb_run v); apply counts_quiet; step_monad. }
  specialize (H s1). unfold counted in H. cbv zeta in H.
  change (n_acc_steps s1) with 0 in H. change (global_step s1) with 0 in H.
  change (params s1) with (params s) in H.
  rewrite Z.sub_0_r, Z.add_0_l in H.
  destruct H as (_ & H1 & H2 & H3 & H4 & H5).
  repeat split; try assumption. symmetry. exact H2.
Qed.

Lemma counters_match_trace_witness :
  let r := bind init_training_vars
             (λ _, train_and_publish online_config publishing_world
                     online_vars) bootstrapped_state in
  res r = Done PUBLISHED ∧
  n_acc_steps (st r) = Z.of_nat (count_if is_apply (tr r)) ∧
  Z.of_nat (length (params (st r)))
  = Z.of_nat (length (params bootstrapped_state)) + n_acc_steps (st r) ∧
  step_numbers (tr r) = seqZ 1 (n_acc_steps (st r)) ∧
  global_step (st r) = Z.of_nat (count_if is_batch_done (tr r)) ∧
  wandb_steps (tr r)
  = if su_use_wandb online_vars then step_numbers (tr r) else [].
Proof.
  intros r.
  assert (H : res r = Done PUBLISHED) by (vm_compute; reflexivity).
  subst r. split; [exact H|].
  exact (counters_match_trace online_config publishing_world online_vars
           bootstrapped_state (or_intror (ex_intro _ PUBLISHED H))).
Defined.

(** ** Telemetry and training *)

Lemma strip_wandb_logs_app (t u : list event) :
  strip_wandb_logs (t ++ u) = strip_wandb_logs t ++ strip_wandb_logs u.
Proof.
  induction t as [|e t IH]; simpl; [reflexivity|].
  destruct e; simpl; rewrite ?IH; reflexivity.
Qed.

Lemma strip_wandb_logs_none (t : list event) :
  forallb (λ e, negb (is_wandb_log e)) t = true → strip_wandb_logs t = t.
Proof.
  induction t as [|e t IH]; simpl; [reflexivity|].
  intros [He Ht]%andb_prop. destruct e; try discriminate; simpl;
    rewrite (IH Ht); reflexivity.
Qed.

Lemma strip_wandb_logs_clean (t : list event) :
  count_if is_wandb_log (strip_wandb_logs t) = 0%nat.
Proof.
  induction t as [|e t IH]; simpl; [reflexivity|].
  destruct e; simpl; exact IH.
Qed.

Lemma same_but_wandb_bind {A B} (m1 m2 : M A) (k1 k2 : A → M B) :
  same_but_wandb m1 m2 → (∀ a, same_but_wandb (k1 a) (k2 a)) →
  same_but_wandb (bind m1 k1) (bind m2 k2).
Proof.
  intros Hm Hk s. rewrite !bind_after.
  destruct (Hm s) as (Hr & Hs & Ht). rewrite <- Hr, <- Hs.
  destruct (res (m1 s)); cbn [res st tr after_events];
    [|repeat split; assumption..].
  destruct (Hk a (st (m1 s))) as (Kr & Ks & Kt).
  rewrite strip_wandb_logs_app, Ht, Kt. repeat split; assumption.
Qed.

Lemma same_but_wandb_refl {A} (m : M A) :
  emits (λ e, negb (is_wandb_log e)) m → same_but_wandb m m.
Proof.
  intros He s. repeat split. apply strip_wandb_logs_none, He.
Qed.

Ltac step_same lemma :=
  repeat first
    [ apply same_but_wandb_bind; [|intros ?]
    | apply lemma
    | match goal with
      | |- same_but_wandb (if ?b then _ else _) _ => destruct b
      | |- same_but_wandb (match ?x with _ => _ end) _ => destruct x
      end
    | apply same_but_wandb_refl; step_monad ].

Section Telemetry.

Variable config : config.
Variable run_dir : string.
Variable model : model_source.

Lemma micro_batch_same i loss :
  same_but_wandb (micro_batch config true i loss)
    (micro_batch config false i loss).
Proof.
  intros s. rewrite !micro_batch_cases. cbv zeta.
  destruct (_ =? 0); [repeat split; reflexivity|].
  destruct (_ =? 0); repeat split; reflexivity.
Qed.

Lemma for_batches_same losses : ∀ i,
  same_but_wandb (for_batches config true i losses)
    (for_batches config false i losses).
Proof.
  induction losses as [|loss rest IH]; intros i; cbn [for_batches].
  - apply same_but_wandb_refl. intros s. reflexivity.
  - apply same_but_wandb_bind; [apply micro_batch_same|intros _; apply IH].
Qed.

Lemma run_epoch_same feed :
  same_but_wandb (run_epoch config true run_dir model feed)
    (run_epoch config false run_dir model feed).
Proof.
  unfold run_epoch, zero_grad, float_truediv_int, save.
  step_same for_batches_same.
Qed.

(** X2. Telemetry does not touch training.  With and without it the loop
    ends the same way and leaves the same state (weights, gradient buffers,
    counters, best average loss and checkpoint directory), and it does the
    same things in the same order: the two traces differ by the
    [wandb_run.log] calls only, one per optimizer step, none without
    telemetry. *)
Theorem telemetry_does_not_affect_training (fs : list epoch_feed)
  (s : state) :
  let with_wandb := train_loop config true run_dir model fs s in
  let without := train_loop config false run_dir model fs s in
  res with_wandb = res without ∧
  st with_wandb = st without ∧
  strip_wandb_logs (tr with_wandb) = tr without ∧
  count_if is_wandb_log (tr without) = 0%nat ∧
  count_if is_wandb_log (tr with_wandb) = count_if is_apply (tr with_wandb).
Proof.
  intros r1 r0. subst r1 r0.
  assert (H : ∀ fs, same_but_wandb (train_loop config true run_dir model fs)
                      (train_loop config false run_dir model fs)).
  { clear. induction fs as [|feed rest IH]; cbn [train_loop].
    - step_same for_batches_same.
    - apply same_but_wandb_bind; [apply same_but_wandb_refl; step_monad|].
      intros s. destruct (_ || _); [|apply same_but_wandb_refl; step_monad].
      apply same_but_wandb_bind; [apply run_epoch_same|intros _; exact IH]. }
  destruct (H fs s) as (Hr & Hs & Ht).
  split; [exact Hr|]. split; [exact Hs|]. split; [exact Ht|].
  split; [rewrite <- Ht; apply strip_wandb_logs_clean|].
  destruct (train_loop_counts config true run_dir model fs s)
    as (_ & H1 & H2 & _ & _ & H5).
  apply Nat2Z.inj. rewrite H2.
  assert (Hl : ∀ t, count_if is_wandb_log t = length (wandb_steps t)).
  { clear. induction t as [|e t IH]; simpl; [reflexivity|].
    destruct e; simpl; rewrite ?IH; reflexivity. }
  rewrite Hl, H5, H1, length_seqZ. lia.
Qed.

End Telemetry.

(** ** The checkpoint directory *)

Lemma write_all_app l1 l2 d :
  write_all (l1 ++ l2) d = write_all l2 (write_all l1 d).
Proof. unfold write_all. apply fold_left_app. Qed.

(** Writes at one path leave the other paths alone and end in the last. *)
Lemma write_all_at (path : string) (l : list (string * checkpoint)) : ∀ d,
  Forall (λ pc, pc.1 = path) l →
  (∀ other, other ≠ path → write_all l d !! other = d !! other) ∧
  write_all l d !! path
  = match last l with Some pc => Some pc.2 | None => d !! path end.
Proof.
  induction l as [|[p c] l IH]; intros d Hl; [split; reflexivity|].
  apply Forall_cons in Hl as [Hp Hl]. simpl in Hp. subst p.
  destruct (IH (<[path := c]> d) Hl) as (IH1 & IH2).
  change (write_all ((path, c) :: l) d) with (write_all l (<[path := c]> d)).
  split.
  - intros other Hne. rewrite IH1 by exact Hne.
    apply lookup_insert_ne. congruence.
  - rewrite IH2, last_cons. destruct (last l); [reflexivity|].
    apply lookup_insert_eq.
Qed.

Lemma pushes_app (t u : list event) : pushes (t ++ u) = pushes t ++ pushes u.
Proof.
  induction t as [|e t IH]; simpl; [reflexivity|].
  destruct e; simpl; rewrite ?IH; reflexivity.
Qed.

Lemma replays_bind {A B} (m : M A) (k : A → M B) :
  replays m → (∀ a, replays (k a)) → replays (bind m k).
Proof.
  intros Hm Hk s. rewrite bind_after. specialize (Hm s).
  destruct (res (m s)); [|exact Hm..].
  cbn [st tr after_events]. rewrite saves_app, write_all_app, <- Hm. apply Hk.
Qed.

(** A trace of events other than checkpoint writes. *)
Lemma saves_no_save (p : event → bool) (t : list event) :
  (∀ path c, p (EvSave path c) = false) →
  forallb p t = true → saves t = [].
Proof.
  intros Hp. induction t as [|e t IH]; simpl; [reflexivity|].
  intros [He Ht]%andb_prop. destruct e; auto. rewrite Hp in He. discriminate.
Qed.

Lemma replays_quiet {A} (p : event → bool) (m : M A) :
  (∀ path c, p (EvSave path c) = false) →
  emits p m → keeps disk m → replays m.
Proof.
  intros Hp He Hk s. rewrite (saves_no_save p _ Hp (He s)). apply Hk.
Qed.

Lemma saves_at_bind {A B} path src (m : M A) (k : A → M B) :
  saves_at path src m → (∀ a, saves_at path src (k a)) →
  saves_at path src (bind m k).
Proof.
  intros Hm Hk s. rewrite bind_after. specialize (Hm s).
  destruct (res (m s)); [|exact Hm..].
  cbn [tr after_events]. rewrite saves_app. apply Forall_app. split;
    [exact Hm|apply Hk].
Qed.

Lemma saves_at_quiet {A} path src (p : event → bool) (m : M A) :
  (∀ path c, p (EvSave path c) = false) →
  emits p m → saves_at path src m.
Proof.
  intros Hp He s. rewrite (saves_no_save p _ Hp (He s)). constructor.
Qed.

Lemma save_replays src path : replays (save src path).
Proof. intros s. reflexivity. Qed.

Lemma save_saves_at src path : saves_at path src (save src path).
Proof. intros s. repeat constructor. Qed.

Lemma trails_bind {A B} path (m : M A) (k : A → M B) :
  trails path m → (∀ a, trails path (k a)) → trails path (bind m k).
Proof.
  intros Hm Hk s. rewrite bind_after. destruct (Hm s) as (Hp & Hc).
  destruct (res (m s)); [|split; assumption..].
  cbn [st after_events]. destruct (Hk a (st (m s))) as (Kp & Kc).
  split; [etransitivity; eassumption|auto].
Qed.

Lemma trails_idle {A} path (m : M A) :
  keeps disk m → keeps params m → trails path m.
Proof.
  intros Hd Hp s. split; [rewrite Hp; reflexivity|].
  intros H c Hc. rewrite Hd in Hc. rewrite Hp. exact (H c Hc).
Qed.

Lemma save_trails src path : trails path (save src path).
Proof.
  intros s. split; [reflexivity|]. intros _ c.
  unfold save. run_monad. simpl. rewrite lookup_insert_eq.
  intros H. injection H as <-. reflexivity.
Qed.

Lemma optimizer_step_trails path : trails path optimizer_step.
Proof.
  intros s. unfold optimizer_step. run_monad. simpl. split.
  - apply prefix_app_r. reflexivity.
  - intros H c Hc. etransitivity; [apply (H c Hc)|].
    apply prefix_app_r. reflexivity.
Qed.

(** Walks through a composite whose only writes to the disk are calls of
    [save] and whose only changes of the weights are in the loop over the
    loader. *)
Ltac step_disk lemma :=
  repeat match goal with
    | |- _ (save _ _) =>
        first [apply save_replays | apply save_saves_at | apply save_trails]
    | |- _ (for_batches _ _ _ _) => apply lemma
    | |- _ (bind _ _) =>
        first [apply replays_bind | apply saves_at_bind | apply trails_bind];
        [|intros ?]
    | |- _ (if ?b then _ else _) => destruct b
    | |- _ (match ?x with _ => _ end) => destruct x
    | |- replays _ =>
        apply (replays_quiet is_not_save); [intros; reflexivity|step_monad..]
    | |- saves_at _ _ _ =>
        apply (saves_at_quiet _ _ is_not_save);
        [intros; reflexivity|step_monad]
    | |- trails _ _ => apply trails_idle; step_monad
    end.

Section Disk.

Variable config : config.
Variable use_wandb : bool.
Variable run_dir : string.
Variable model : model_source.

Lemma for_batches_replays losses i :
  replays (for_batches config use_wandb i losses).
Proof.
  apply (replays_quiet is_batch_event); [reflexivity|apply for_batches_emits|].
  apply for_batches_keeps, micro_batch_keeps_disk.
Qed.

Lemma for_batches_saves_at losses i :
  saves_at run_dir model (for_batches config use_wandb i losses).
Proof.
  apply (saves_at_quiet _ _ is_batch_event);
    [reflexivity|apply for_batches_emits].
Qed.

Lemma micro_batch_trails i loss :
  trails run_dir (micro_batch config use_wandb i loss).
Proof.
  intros s. rewrite micro_batch_cases. cbv zeta. unfold checkpoint_behind.
  destruct (_ =? 0); [|destruct (_ =? 0)]; cbn [res st tr]; simpl;
    (split; [try reflexivity; apply prefix_app_r; reflexivity|]);
    intros H c Hc; try exact (H c Hc).
  etransitivity; [apply (H c Hc)|]. apply prefix_app_r. reflexivity.
Qed.

Lemma for_batches_trails losses : ∀ i,
  trails run_dir (for_batches config use_wandb i losses).
Proof.
  induction losses as [|loss rest IH]; intros i; cbn [for_batches].
  - apply trails_idle; intros s; reflexivity.
  - apply trails_bind; [apply micro_batch_trails|intros _; apply IH].
Qed.

Lemma run_epoch_replays feed :
  replays (run_epoch config use_wandb run_dir model feed).
Proof.
  unfold run_epoch, zero_grad, float_truediv_int.
  step_disk for_batches_replays.
Qed.

Lemma run_epoch_saves_at feed :
  saves_at run_dir model (run_epoch config use_wandb run_dir model feed).
Proof.
  unfold run_epoch, zero_grad, float_truediv_int.
  step_disk for_batches_saves_at.
Qed.

Lemma run_epoch_trails feed :
  trails run_dir (run_epoch config use_wandb run_dir model feed).
Proof.
  unfold run_epoch, zero_grad, float_truediv_int.
  step_disk for_batches_trails.
Qed.

Lemma train_loop_replays fs :
  replays (train_loop config use_wandb run_dir model fs).
Proof.
  induction fs as [|feed rest IH]; cbn [train_loop].
  - step_disk for_batches_replays.
  - apply replays_bind; [step_disk for_batches_replays|]. intros s.
    destruct (_ || _); [|step_disk for_batches_replays].
    apply replays_bind; [apply run_epoch_replays|intros _; exact IH].
Qed.

Lemma train_loop_saves_at fs :
  saves_at run_dir model (train_loop config use_wandb run_dir model fs).
Proof.
  induction fs as [|feed rest IH]; cbn [train_loop].
  - step_disk for_batches_saves_at.
  - apply saves_at_bind; [step_disk for_batches_saves_at|]. intros s.
    destruct (_ || _); [|step_disk for_batches_saves_at].
    apply saves_at_bind; [apply run_epoch_saves_at|intros _; exact IH].
Qed.

Lemma train_loop_trails fs :
  trails run_dir (train_loop config use_wandb run_dir model fs).
Proof.
  induction fs as [|feed rest IH]; cbn [train_loop].
  - step_disk for_batches_trails.
  - apply trails_bind; [step_disk for_batches_trails|]. intros s.
    destruct (_ || _); [|step_disk for_batches_trails].
    apply trails_bind; [apply run_epoch_trails|intros _; exact IH].
Qed.

End Disk.

Lemma pushes_none (p : event → bool) (t : list event) :
  (∀ c, p (EvPush c) = false) → forallb p t = true → pushes t = [].
Proof.
  intros Hp. induction t as [|e t IH]; simpl; [reflexivity|].
  intros [He Ht]%andb_prop. destruct e; auto. rewrite Hp in He. discriminate.
Qed.

Section DiskOfMain.

Variable config : config.
Variable w : world.

Let dir := model_path w (model_dir config) (run_id w).

(** [startup] writes at most once, at the run directory, and leaves the
    weights alone, whether it returns or not. *)
Lemma startup_disk s :
  let r := startup config w s in
  disk (st r) = write_all (saves (tr r)) (disk s) ∧
  Forall (λ pc, pc.1 = dir) (saves (tr r)) ∧
  pushes (tr r) = [] ∧
  params (st r) = params s.
Proof.
  intros r. subst r. run_startup; unfold after_events; simpl;
    repeat split; repeat constructor.
Qed.

(** What [startup] leaves in its local variables. *)
Lemma startup_returns s v :
  res (startup config w s) = Done v →
  ∃ mc,
    MODEL_CONSTRAINTS_BY_COMPETITION_ID w !! competition_id config = Some mc ∧
    su_model v = first_match (candidates config (kwargs mc)) ∧
    su_run_dir v = dir ∧
    su_use_wandb v
    = negb (offline config) && bool_decide (is_Some (wandb_project config))
      && bool_decide (is_Some (wandb_entity config)) ∧
    su_wandb_run v = su_use_wandb v ∧
    (offline config = false →
     registered w = true ∧ access_token_exists w = true) ∧
    (su_use_wandb v = true → is_Some (truthy (WANDB_API_KEY w))).
Proof.
  run_startup; unfold after_events; simpl; intros H; try discriminate;
    injection H as <-; eexists; (split; [reflexivity|]); simpl;
    repeat split; try reflexivity; try discriminate; eauto.
Qed.

(** The [try] block leaves the state of its loop, has written what its loop
    has written, and has pushed one checkpoint, the one it found in the run
    directory, exactly when it returns [PUBLISHED]. *)
Lemma train_and_publish_summary v s :
  let lr := train_loop config (su_use_wandb v) (su_run_dir v) (su_model v)
              (feeds w) s in
  let r := train_and_publish config w v s in
  st r = st lr ∧
  saves (tr r) = saves (tr lr) ∧
  match res r with
  | Done PUBLISHED =>
      ∃ c, disk (st lr) !! su_run_dir v = Some c ∧ pushes (tr r) = [c]
  | _ => pushes (tr r) = []
  end.
Proof.
  intros lr r. subst r. rewrite train_and_publish_cases. fold lr.
  pose proof (train_loop_emits config (su_use_wandb v) (su_run_dir v)
                (su_model v) (feeds w) s) as He. fold lr in He.
  assert (Hp : pushes (tr lr) = []).
  { apply (pushes_none is_epoch_event); [reflexivity|exact He]. }
  assert (Hf : saves (finally_events v) = [] ∧ pushes (finally_events v) = []).
  { unfold finally_events. destruct (su_wandb_run v); split; reflexivity. }
  destruct Hf as (Hfs & Hfp).
  destruct (res lr); cbn [res st tr].
  - rewrite publish_gate_cases. cbv zeta.
    destruct (offline config);
      [|destruct (PyFloat.ltb _ _);
        [destruct (disk (st lr) !! su_run_dir v) as [c|]|]];
      cbn [res st tr]; rewrite !saves_app, !pushes_app, Hp, Hfs, Hfp;
      simpl; rewrite ?app_nil_r; repeat split; try reflexivity.
    exists c. split; reflexivity.
  - rewrite saves_app, pushes_app, Hp, Hfs, Hfp, app_nil_r.
    repeat split; reflexivity.
  - repeat split; try reflexivity. exact Hp.
Qed.

(** The disk [main] leaves is the disk it found with its checkpoint writes
    applied, all of them at the run directory. *)
Lemma main_disk s :
  let r := main config w s in
  disk (st r) = write_all (saves (tr r)) (disk s) ∧
  Forall (λ pc, pc.1 = dir) (saves (tr r)).
Proof.
  intros r. subst r. rewrite main_cases.
  destruct (startup_disk s) as (Hd & Hs & _ & _).
  pose proof (startup_returns s) as Hv.
  destruct (res (startup config w s)) as [v| |]; cbn [res st tr];
    [|split; assumption..].
  destruct (Hv v eq_refl) as (_ & _ & _ & Hdir & _).
  set (s1 := set_best_avg_loss _ _).
  destruct (train_and_publish_summary v s1) as (Hst & Hsv & _).
  unfold after_events; cbn [res st tr].
  rewrite Hst, saves_app, Hsv, write_all_app, <- Hd.
  split.
  - apply (train_loop_replays config (su_use_wandb v) (su_run_dir v)
             (su_model v) (feeds w) s1).
  - apply Forall_app. split; [exact Hs|].
    pose proof (train_loop_saves_at config (su_use_wandb v) (su_run_dir v)
                  (su_model v) (feeds w) s1) as Hl.
    apply (Forall_impl _ _ _ Hl). intros pc [H _].
    rewrite <- Hdir. exact H.
Qed.

End DiskOfMain.

(** X3. A run of [main] writes checkpoints at one path only, the run
    directory [model_path (model_dir, run_id)]: whatever the outcome, every
    other path of the disk is as the run found it, and the run directory
    holds the last checkpoint written, or what it held before if the run
    stopped before the bootstrap save. *)
Theorem only_run_directory_written (config : config) (w : world) :
  let r := run_main config w in
  let dir := model_path w (model_dir config) (run_id w) in
  Forall (λ pc, pc.1 = dir) (saves (tr r)) ∧
  (∀ other, other ≠ dir → disk (st r) !! other = disk0 w !! other) ∧
  disk (st r) !! dir
  = match last (saves (tr r)) with
    | Some pc => Some pc.2
    | None => disk0 w !! dir
    end.
Proof.
  intros r dir. subst r. unfold run_main.
  destruct (main_disk config w (initial_state w)) as (Hd & Hs).
  split; [exact Hs|]. rewrite Hd.
  exact (write_all_at dir _ (disk0 w) Hs).
Qed.

(** X4. What a run that returns [PUBLISHED] has pushed: one checkpoint, the
    one the run directory holds at the end, which is the last checkpoint the
    run wrote.  It is a checkpoint of the model [load_starting_model] chose,
    and its weights are the weights in memory or an earlier stage of them:
    the optimizer steps applied after the last improving epoch are not in
    it. *)
Theorem published_is_last_saved (config : config) (w : world) :
  let r := run_main config w in
  let dir := model_path w (model_dir config) (run_id w) in
  res r = Done PUBLISHED →
  ∃ c mc,
    pushes (tr r) = [c] ∧
    last (saves (tr r)) = Some (dir, c) ∧
    disk (st r) !! dir = Some c ∧
    steps c `prefix_of` params (st r) ∧
    MODEL_CONSTRAINTS_BY_COMPETITION_ID w !! competition_id config = Some mc ∧
    origin c = first_match (candidates config (kwargs mc)).
Proof.
  intros r dir. subst r. unfold run_main. rewrite main_cases.
  set (s := initial_state w).
  destruct (startup_disk config w s) as (_ & _ & Hp & _).
  pose proof (startup_returns config w s) as Hv.
  pose proof (startup_bootstrap_save config w s) as Hb. cbv zeta in Hb.
  destruct (res (startup config w s)) as [v| |]; cbn [res];
    try discriminate.
  destruct (Hv v eq_refl) as (mc & Hmc & Hmodel & Hdir & _).
  destruct (Hb v eq_refl) as (_ & Hsv0 & Hdisk0 & Hpar0 & _).
  fold dir in Hdir. rewrite <- Hdir.
  set (s1 := set_best_avg_loss _ _).
  destruct (train_and_publish_summary config w v s1) as (Hst & Hsv & Hpush).
  pose proof (train_loop_replays config (su_use_wandb v) (su_run_dir v)
                (su_model v) (feeds w) s1) as Hrep.
  pose proof (train_loop_saves_at config (su_use_wandb v) (su_run_dir v)
                (su_model v) (feeds w) s1) as Hat.
  destruct (train_loop_trails config (su_use_wandb v) (su_run_dir v)
              (su_model v) (feeds w) s1) as (_ & Hbehind).
  unfold after_events; cbn [res st tr]. intros Hres.
  rewrite Hres in Hpush. destruct Hpush as (c & Hc & Hpc).
  set (lr := train_loop _ _ _ _ _ _) in *.
  assert (Hd1 : disk s1 = <[su_run_dir v :=
                  {| origin := su_model v; steps := params s |}]> (disk s))
    by exact Hdisk0.
  assert (Hp1 : params s1 = params s) by exact Hpar0.
  assert (Hlast : match last (saves (tr lr)) with
                  | Some pc => pc = (su_run_dir v, c) ∧ origin c = su_model v
                  | None => c = {| origin := su_model v; steps := params s |}
                  end).
  { assert (Hat1 : Forall (λ pc, pc.1 = su_run_dir v) (saves (tr lr))).
    { apply (Forall_impl _ _ _ Hat). intros pc [H _]. exact H. }
    destruct (write_all_at (su_run_dir v) _ (disk s1) Hat1) as (_ & Hl).
    rewrite <- Hrep, Hc in Hl.
    destruct (last (saves (tr lr))) as [[p c']|] eqn:Hlst.
    - apply last_Some_elem_of in Hlst.
      rewrite Forall_forall in Hat. destruct (Hat _ Hlst) as (H1 & H2).
      simpl in H1, H2, Hl. injection Hl as ->. subst p. split; [reflexivity|exact H2].
    - rewrite Hd1, lookup_insert_eq in Hl. injection Hl as ->. reflexivity. }
  exists c, mc. rewrite pushes_app, Hp, Hpc, Hst, saves_app, Hsv, Hsv0, last_app.
  split; [reflexivity|].
  split; [|split; [exact Hc|split; [|split; [exact Hmc|]]]].
  - destruct (last (saves (tr lr))) as [pc|].
    + destruct Hlast as (-> & _). reflexivity.
    + rewrite Hlast. reflexivity.
  - apply Hbehind; [|exact Hc]. intros c' Hc'.
    rewrite Hd1, lookup_insert_eq in Hc'. injection Hc' as <-.
    rewrite Hp1. reflexivity.
  - rewrite <- Hmodel. destruct (last (saves (tr lr))) as [pc|].
    + destruct Hlast as (_ & H). exact H.
    + rewrite Hlast. reflexivity.
Qed.

Lemma published_is_last_saved_witness :
  res (run_main online_config publishing_world) = Done PUBLISHED ∧
  ∃ c mc,
    pushes (tr (run_main online_config publishing_world)) = [c] ∧
    last (saves (tr (run_main online_config publishing_world)))
    = Some ("local-models/2024-01-01_00-00-00", c) ∧
    disk (st (run_main online_config publishing_world))
      !! "local-models/2024-01-01_00-00-00" = Some c ∧
    steps c `prefix_of` params (st (run_main online_config publishing_world)) ∧
    MODEL_CONSTRAINTS_BY_COMPETITION_ID publishing_world !! 1 = Some mc ∧
    origin c = first_match (candidates online_config (kwargs mc)).
Proof.
  split; [vm_compute; reflexivity|].
  apply (published_is_last_saved online_config publishing_world).
  vm_compute. reflexivity.
Defined.

(** ** [main] after its start-up *)

Section MainFacts.

Variable config : config.
Variable w : world.

Lemma publish_gate_state run_dir s : st (publish_gate config run_dir s) = s.
Proof.
  rewrite publish_gate_cases. cbv zeta.
  destruct (offline config); [reflexivity|].
  destruct (PyFloat.ltb _ _); [|reflexivity].
  destruct (disk s !! run_dir); reflexivity.
Qed.

Lemma publish_gate_decision run_dir s o :
  res (publish_gate config run_dir s) = Done o →
  o = gate_decision config (best_avg_loss s).
Proof.
  rewrite publish_gate_cases. cbv zeta. unfold gate_decision.
  destruct (offline config); [intros [= <-]; reflexivity|].
  destruct (PyFloat.ltb _ _); [|intros [= <-]; reflexivity].
  destruct (disk s !! run_dir); [intros [= <-]; reflexivity|discriminate].
Qed.

(** [main] when its start-up returns [v]: the loop starts from
    [training_entry], and the gate runs when the loop returns. *)
Lemma main_after_startup s v :
  let sr := startup config w s in
  let lr := train_loop config (su_use_wandb v) (su_run_dir v) (su_model v)
              (feeds w) (training_entry (st sr)) in
  let g := publish_gate config (su_run_dir v) (st lr) in
  res sr = Done v →
  st (main config w s) = st lr ∧
  res (main config w s)
  = match res lr with
    | Done _ => res g
    | Raised e => Raised e
    | Pending => Pending
    end ∧
  tr (main config w s)
  = tr sr ++ tr lr ++
    match res lr with
    | Done _ => tr g ++ finally_events v
    | Raised _ => finally_events v
    | Pending => []
    end.
Proof.
  intros sr lr g Hv. rewrite main_cases. fold sr. rewrite Hv.
  rewrite train_and_publish_cases. cbv zeta.
  change (set_best_avg_loss _ _) with (training_entry (st sr)).
  fold lr. fold g. unfold after_events.
  destruct (res lr); cbn [res st tr]; rewrite ?app_nil_r;
    repeat split; try reflexivity.
  apply publish_gate_state.
Qed.

(** A run of [main] that returns has been through its start-up and its
    loop, and returns what the gate decides on the best average loss. *)
Lemma main_done s o :
  res (main config w s) = Done o →
  ∃ v,
    let sr := startup config w s in
    let lr := train_loop config (su_use_wandb v) (su_run_dir v) (su_model v)
                (feeds w) (training_entry (st sr)) in
    res sr = Done v ∧ res lr = Done tt ∧
    st (main config w s) = st lr ∧
    o = gate_decision config (best_avg_loss (st lr)).
Proof.
  intros Ho.
  destruct (res (startup config w s)) as [v| |] eqn:Hv;
    [|rewrite main_cases, Hv in Ho; discriminate..].
  exists v. cbv zeta.
  destruct (main_after_startup s v Hv) as (Hst & Hres & _).
  rewrite Hres in Ho.
  destruct (res (train_loop _ _ _ _ _ _)) as [[]| |]; try discriminate.
  split; [exact Hv|]. split; [reflexivity|]. split; [exact Hst|].
  eapply publish_gate_decision. exact Ho.
Qed.

(** [main] pushes once when it returns [PUBLISHED] and never otherwise. *)
Lemma main_pushes s :
  let r := main config w s in
  match res r with
  | Done PUBLISHED => ∃ c, pushes (tr r) = [c]
  | _ => pushes (tr r) = []
  end.
Proof.
  intros r. subst r. rewrite main_cases.
  destruct (startup_disk config w s) as (_ & _ & Hp & _).
  destruct (res (startup config w s)) as [v| |]; cbn [res tr]; try exact Hp.
  set (s1 := set_best_avg_loss _ _).
  destruct (train_and_publish_summary config w v s1) as (_ & _ & H).
  unfold after_events; cbn [res tr]. rewrite pushes_app, Hp. cbn [app].
  destruct (res (train_and_publish config w v s1)) as [[]| |]; try exact H.
  destruct H as (c & _ & H). exists c. exact H.
Qed.

End MainFacts.

(** ** The sign of the best average loss *)

Section Signs.

Variable config : config.
Variable use_wandb : bool.
Variable run_dir : string.
Variable model : model_source.

Lemma micro_batch_sign i loss s :
  is_negative loss = false →
  is_negative (epoch_loss s) = false ∧ 0 ≤ n_batches s →
  is_negative (epoch_loss (st (micro_batch config use_wandb i loss s))) = false ∧
  0 ≤ n_batches (st (micro_batch config use_wandb i loss s)).
Proof.
  intros Hl [He Hn]. rewrite micro_batch_cases. cbv zeta.
  destruct (_ =? 0); [|destruct (_ =? 0)]; cbn [st];
    cbn [epoch_loss n_batches set_epoch_loss set_global_step set_n_batches
         set_grads set_params set_n_acc_steps];
    (split; [try exact He; apply add_not_negative; assumption | lia]).
Qed.

Lemma for_batches_sign losses : ∀ i s,
  Forall (λ loss, is_negative loss = false) losses →
  is_negative (epoch_loss s) = false ∧ 0 ≤ n_batches s →
  is_negative (epoch_loss (st (for_batches config use_wandb i losses s)))
  = false ∧
  0 ≤ n_batches (st (for_batches config use_wandb i losses s)).
Proof.
  induction losses as [|loss rest IH]; intros i s Hl Hs; [exact Hs|].
  apply Forall_cons in Hl as [Hl Hrest].
  pose proof (micro_batch_sign i loss s Hl Hs) as Hm.
  cbn [for_batches]. rewrite bind_after.
  destruct (res (micro_batch config use_wandb i loss s));
    cbn [st after_events]; try exact Hm.
  apply IH; assumption.
Qed.

(** An epoch on losses that are not below zero leaves a best average loss
    that is not below zero. *)
Lemma run_epoch_sign feed s :
  Forall (λ loss, is_negative loss = false) (batches feed) →
  is_negative (best_avg_loss s) = false →
  is_negative
    (best_avg_loss (st (run_epoch config use_wandb run_dir model feed s)))
  = false.
Proof.
  intros Hl Hb.
  pose proof (run_epoch_cases config use_wandb run_dir model feed s) as H.
  pose proof (for_batches_entry_best config use_wandb feed s) as Hbest.
  destruct (for_batches_sign (batches feed) 0 (epoch_entry s) Hl)
    as (He & Hn); [split; [reflexivity|simpl; lia]|].
  epoch_cases H; rewrite H; cbn [st];
    cbn [best_avg_loss set_best_avg_loss set_epoch_step set_disk];
    rewrite ?Hbest; try exact Hb.
  apply div_not_negative; [exact He|].
  match goal with
  | E : PyFloat.of_int _ = Some _ |- _ =>
      unfold PyFloat.of_int in E; destruct (_ <=? _) in E; [discriminate|];
      injection E as <-
  end.
  apply of_scaled_unsigned. exact Hn.
Qed.

Lemma train_loop_sign fs : ∀ s,
  Forall (λ feed, Forall (λ loss, is_negative loss = false) (batches feed))
    fs →
  is_negative (best_avg_loss s) = false →
  is_negative
    (best_avg_loss (st (train_loop config use_wandb run_dir model fs s)))
  = false.
Proof.
  induction fs as [|feed rest IH]; intros s Hfs Hb; rewrite train_loop_unfold.
  - destruct (continues config s); exact Hb.
  - destruct (continues config s); [|exact Hb].
    apply Forall_cons in Hfs as [Hf Hrest].
    pose proof (run_epoch_sign feed s Hf Hb) as He.
    rewrite bind_after.
    destruct (res (run_epoch config use_wandb run_dir model feed s));
      cbn [st after_events]; try exact He.
    apply IH; assumption.
Qed.

(** An epoch that writes no checkpoint leaves the best average loss as it
    was, and so does a loop. *)
Lemma run_epoch_quiet_best feed s :
  saves (tr (run_epoch config use_wandb run_dir model feed s)) = [] →
  best_avg_loss (st (run_epoch config use_wandb run_dir model feed s))
  = best_avg_loss s.
Proof.
  pose proof (run_epoch_cases config use_wandb run_dir model feed s) as H.
  pose proof (for_batches_entry_best config use_wandb feed s) as Hbest.
  epoch_cases H; rewrite H; cbn [st tr];
    cbn [best_avg_loss set_best_avg_loss set_epoch_step set_disk];
    intros Hq; try exact Hbest.
  rewrite !saves_app in Hq. apply (f_equal length) in Hq.
  rewrite !length_app in Hq. simpl in Hq. lia.
Qed.

Lemma train_loop_quiet_best fs : ∀ s,
  saves (tr (train_loop config use_wandb run_dir model fs s)) = [] →
  best_avg_loss (st (train_loop config use_wandb run_dir model fs s))
  = best_avg_loss s.
Proof.
  induction fs as [|feed rest IH]; intros s; rewrite train_loop_unfold.
  - destruct (continues config s); reflexivity.
  - destruct (continues config s); [|reflexivity].
    pose proof (run_epoch_quiet_best feed s) as He.
    rewrite bind_after.
    destruct (res (run_epoch config use_wandb run_dir model feed s));
      cbn [st tr after_events]; try exact He.
    rewrite saves_app. intros [H1 H2]%app_eq_nil.
    rewrite (IH _ H2). exact (He H1).
Qed.

End Signs.

(** X5. A run returns [PUBLISHED] only after an epoch that improved on the
    initial [math.inf]: besides the bootstrap save there is at least one
    checkpoint written by an epoch, the run is online, and the best average
    loss is below the threshold and below infinity.  The checkpoint of the
    starting model alone is never pushed. *)
Theorem published_after_improvement (config : config) (w : world) :
  let r := run_main config w in
  res r = Done PUBLISHED →
  offline config = false ∧
  PyFloat.ltb (best_avg_loss (st r)) (avg_loss_upload_threshold config)
  = true ∧
  PyFloat.ltb (best_avg_loss (st r)) PyFloat.inf = true ∧
  (2 ≤ length (saves (tr r)))%nat.
Proof.
  intros r Hr. subst r. unfold run_main in *.
  set (s := initial_state w) in *.
  destruct (main_done config w s _ Hr) as (v & Hv & Hlr & Hst & Ho).
  destruct (main_after_startup config w s v Hv) as (_ & _ & Htr).
  destruct (startup_bootstrap_save config w s v Hv) as (_ & Hsv & _).
  rewrite Hst, Htr, Hlr. clear Hst Htr Hr.
  set (lr := train_loop _ _ _ _ _ _) in *.
  unfold gate_decision in Ho.
  destruct (offline config); [discriminate|].
  destruct (PyFloat.ltb (best_avg_loss (st lr)) _) eqn:Hlt; [|discriminate].
  split; [reflexivity|]. split; [reflexivity|].
  pose proof (train_loop_best config (su_use_wandb v) (su_run_dir v)
                (su_model v) (feeds w)
                (training_entry (st (startup config w s)))) as Hbest.
  pose proof (train_loop_quiet_best config (su_use_wandb v) (su_run_dir v)
                (su_model v) (feeds w)
                (training_entry (st (startup config w s)))) as Hquiet.
  fold lr in Hbest, Hquiet.
  change (best_avg_loss (training_entry _)) with PyFloat.inf in Hbest, Hquiet.
  split.
  - destruct Hbest as [Hb|Hb]; [|exact Hb].
    rewrite Hb, ltb_inf in Hlt. discriminate.
  - rewrite !saves_app, Hsv, !length_app. simpl.
    destruct (saves (tr lr)) as [|pc l]; [|simpl; lia].
    rewrite (Hquiet eq_refl), ltb_inf in Hlt. discriminate.
Qed.

Lemma published_after_improvement_witness :
  res (run_main online_config publishing_world) = Done PUBLISHED ∧
  offline online_config = false ∧
  PyFloat.ltb (best_avg_loss (st (run_main online_config publishing_world)))
    (avg_loss_upload_threshold online_config) = true ∧
  PyFloat.ltb (best_avg_loss (st (run_main online_config publishing_world)))
    PyFloat.inf = true ∧
  (2 ≤ length (saves (tr (run_main online_config publishing_world))))%nat.
Proof.
  split; [vm_compute; reflexivity|].
  apply (published_after_improvement online_config publishing_world).
  vm_compute. reflexivity.
Defined.

(** X6. With the default upload threshold [0] ("never uploading") a run on
    losses that are not below zero never returns [PUBLISHED] and pushes
    nothing, whatever the epoch budget, the accumulation steps and the
    telemetry settings: every average of such losses is not below zero, so
    [best_avg_loss < 0] is false at the gate. *)
Theorem zero_threshold_never_publishes (config : config) (w : world) :
  avg_loss_upload_threshold config = PyFloat.zero →
  losses_not_negative w →
  let r := run_main config w in
  res r ≠ Done PUBLISHED ∧ pushes (tr r) = [].
Proof.
  intros Hthr Hw r. subst r. unfold run_main.
  set (s := initial_state w).
  assert (Hne : res (main config w s) ≠ Done PUBLISHED).
  { intros Hr.
    destruct (main_done config w s _ Hr) as (v & _ & _ & _ & Ho).
    unfold gate_decision in Ho. rewrite Hthr, ltb_zero in Ho.
    rewrite train_loop_sign in Ho; [|exact Hw|reflexivity].
    destruct (offline config); discriminate. }
  split; [exact Hne|].
  pose proof (main_pushes config w s) as Hp. cbv zeta in Hp.
  destruct (res (main config w s)) as [[]| |]; try exact Hp.
  contradiction Hne. reflexivity.
Qed.

Lemma zero_threshold_never_publishes_witness :
  avg_loss_upload_threshold (with_num_epochs 2 (default_config "local-models" 1))
  = PyFloat.zero ∧
  losses_not_negative publishing_world ∧
  res (run_main (with_num_epochs 2 (default_config "local-models" 1))
         publishing_world) = Done SKIPPED_THRESHOLD ∧
  pushes (tr (run_main (with_num_epochs 2 (default_config "local-models" 1))
                publishing_world)) = [].
Proof.
  split; [reflexivity|].
  assert (H : losses_not_negative publishing_world)
    by (repeat constructor).
  split; [exact H|].
  split; [vm_compute; reflexivity|].
  apply (zero_threshold_never_publishes
           (with_num_epochs 2 (default_config "local-models" 1))
           publishing_world eq_refl H).
Defined.

(** X7. With [num_epochs = -1], the default of the parser, a run never
    returns: it ends by an exception or goes on as long as epochs are
    supplied.  The statements after the loop are never reached, so such a
    run logs no "Finished training" line and pushes nothing, whatever the
    losses and the upload threshold. *)
Theorem unbounded_run_never_returns (config : config) (w : world) :
  num_epochs config = -1 →
  let r := run_main config w in
  (res r = Pending ∨ ∃ e, res r = Raised e) ∧
  count_if is_gate_event (tr r) = 0%nat ∧
  pushes (tr r) = [].
Proof.
  intros Hn r. subst r. unfold run_main. set (s := initial_state w).
  assert (Hloop : ∀ v,
            res (train_loop config (su_use_wandb v) (su_run_dir v)
                   (su_model v) (feeds w)
                   (training_entry (st (startup config w s)))) ≠ Done tt).
  { intros v. apply train_loop_unbounded. exact Hn. }
  assert (Hnd : ∀ o, res (main config w s) ≠ Done o).
  { intros o Ho. destruct (main_done config w s o Ho) as (v & _ & Hlr & _).
    exact (Hloop v Hlr). }
  split; [|split].
  - destruct (res (main config w s)) as [o| |] eqn:Hr.
    + exfalso. exact (Hnd o eq_refl).
    + right. eexists. reflexivity.
    + left. reflexivity.
  - pose proof (startup_emits config w s) as Hse.
    pose proof (count_if_none is_gate_event _ _ startup_event_not_gate Hse)
      as Hsg.
    destruct (res (startup config w s)) as [v| |] eqn:Hv;
      [|rewrite main_cases, Hv; exact Hsg..].
    destruct (main_after_startup config w s v Hv) as (_ & _ & Htr).
    rewrite Htr. specialize (Hloop v).
    pose proof (train_loop_emits config (su_use_wandb v) (su_run_dir v)
                  (su_model v) (feeds w)
                  (training_entry (st (startup config w s)))) as Hle.
    pose proof (count_if_none is_gate_event _ _ epoch_event_not_gate Hle)
      as Hlg.
    rewrite !count_if_app, Hsg, Hlg.
    destruct (res (train_loop _ _ _ _ _ _)) as [[]| |].
    + exfalso. apply Hloop. reflexivity.
    + unfold finally_events. destruct (su_wandb_run v); reflexivity.
    + reflexivity.
  - pose proof (main_pushes config w s) as Hp. cbv zeta in Hp.
    destruct (res (main config w s)) as [[]| |] eqn:Hr; try exact Hp.
    exfalso. exact (Hnd PUBLISHED eq_refl).
Qed.

Lemma unbounded_run_never_returns_witness :
  num_epochs (default_config "local-models" 1) = -1 ∧
  res (run_main (default_config "local-models" 1) publishing_world)
  = Pending ∧
  (res (run_main (default_config "local-models" 1) publishing_world)
   = Pending ∨
   ∃ e, res (run_main (default_config "local-models" 1) publishing_world)
        = Raised e) ∧
  count_if is_gate_event
    (tr (run_main (default_config "local-models" 1) publishing_world))
  = 0%nat ∧
  pushes (tr (run_main (default_config "local-models" 1) publishing_world))
  = [].
Proof.
  split; [reflexivity|]. split; [vm_compute; reflexivity|].
  apply (unbounded_run_never_returns (default_config "local-models" 1)
           publishing_world eq_refl).
Defined.

(** ** Epochs that go wrong *)

Section EdgeEpochs.

Variable config : config.
Variable use_wandb : bool.
Variable run_dir : string.
Variable model : model_source.

(** X8. An epoch in which one micro-batch reports a NaN loss runs to its
    end like any other, but its average is NaN and [avg_loss <
    best_avg_loss] is false: no checkpoint is written, and the best average
    loss and the disk stay as they were.  The checkpoint of the last good
    epoch survives. *)
Theorem nan_loss_keeps_checkpoint (feed : epoch_feed) (s : state) :
  accumulation_steps config ≠ 0 →
  completes feed →
  Exists (λ loss, PyFloat.is_nan loss = true) (batches feed) →
  let r := run_epoch config use_wandb run_dir model feed s in
  res r = Done tt ∧
  epoch_step (st r) = epoch_step s + 1 ∧
  best_avg_loss (st r) = best_avg_loss s ∧
  disk (st r) = disk s ∧
  saves (tr r) = [].
Proof.
  intros Hk Hc Hnan r. subst r.
  pose proof (run_epoch_completes config use_wandb run_dir model feed s
                Hk Hc) as H.
  cbv zeta in H. destruct H as (Hres & Hstep & Hif).
  unfold summed_loss in Hif.
  rewrite (fold_add_has_nan _ _ Hnan), div_nan_l, ltb_nan in Hif.
  destruct Hif as (Hb & Hd & Hs). repeat split; assumption.
Qed.

(** X9. With [accumulation_steps = 0] an epoch does not get past its first
    micro-batch: after the forward and the backward pass [(i + 1) % 0]
    raises [ZeroDivisionError], before any optimizer step, any count and
    any save. *)
Theorem zero_accumulation_steps_fails (feed : epoch_feed) (s : state)
  (loss : float) (rest : list float) :
  accumulation_steps config = 0 →
  batches feed = loss :: rest →
  let r := run_epoch config use_wandb run_dir model feed s in
  res r = Raised ZeroDivisionError ∧
  tr r = epoch_prologue
         ++ [EvForward (epoch_step s, 0); EvBackward (epoch_step s, 0)] ∧
  grads (st r) = [(epoch_step s, 0)] ∧
  params (st r) = params s ∧
  disk (st r) = disk s ∧
  best_avg_loss (st r) = best_avg_loss s ∧
  epoch_step (st r) = epoch_step s ∧
  global_step (st r) = global_step s ∧
  n_acc_steps (st r) = n_acc_steps s.
Proof.
  intros Hk Hb r. subst r.
  pose proof (run_epoch_cases config use_wandb run_dir model feed s) as H.
  cbv zeta in H.
  assert (Hrb : for_batches config use_wandb 0 (batches feed) (epoch_entry s)
                = {| res := Raised ZeroDivisionError;
                     st := set_grads [(epoch_step s, 0)] (epoch_entry s);
                     tr := [EvForward (epoch_step s, 0);
                            EvBackward (epoch_step s, 0)] |}).
  { rewrite Hb. cbn [for_batches].
    rewrite bind_after, micro_batch_cases. cbv zeta. rewrite Hk.
    reflexivity. }
  rewrite Hrb in H. cbn [res st tr] in H. rewrite H.
  repeat split; reflexivity.
Qed.

End EdgeEpochs.

Lemma nan_loss_keeps_checkpoint_witness :
  accumulation_steps online_config ≠ 0 ∧
  completes poisoned_feed ∧
  Exists (λ loss, PyFloat.is_nan loss = true) (batches poisoned_feed) ∧
  res (run_epoch online_config true "run" FromScratch poisoned_feed
         trained_state) = Done tt ∧
  epoch_step (st (run_epoch online_config true "run" FromScratch
                    poisoned_feed trained_state)) = 3 ∧
  best_avg_loss (st (run_epoch online_config true "run" FromScratch
                       poisoned_feed trained_state)) = loss_1_5 ∧
  disk (st (run_epoch online_config true "run" FromScratch poisoned_feed
              trained_state)) = disk trained_state ∧
  saves (tr (run_epoch online_config true "run" FromScratch poisoned_feed
               trained_state)) = [].
Proof.
  assert (Hk : accumulation_steps online_config ≠ 0) by discriminate.
  assert (Hc : completes poisoned_feed).
  { split; [discriminate|]. split; reflexivity. }
  assert (Hn : Exists (λ loss, PyFloat.is_nan loss = true)
                 (batches poisoned_feed)).
  { apply Exists_cons_tl, Exists_cons_hd. reflexivity. }
  split; [exact Hk|]. split; [exact Hc|]. split; [exact Hn|].
  apply (nan_loss_keeps_checkpoint online_config true "run" FromScratch
           poisoned_feed trained_state Hk Hc Hn).
Defined.

Lemma zero_accumulation_steps_fails_witness :
  accumulation_steps zero_steps_config = 0 ∧
  batches three_batches = loss_1_5 :: [loss_2_5; loss_1_5] ∧
  res (run_epoch zero_steps_config true "run" FromScratch three_batches
         bootstrapped_state) = Raised ZeroDivisionError.
Proof.
  split; [reflexivity|]. split; [reflexivity|].
  apply (zero_accumulation_steps_fails zero_steps_config true "run"
           FromScratch three_batches bootstrapped_state loss_1_5
           [loss_2_5; loss_1_5] eq_refl eq_refl).
Defined.

(** ** The checks of the start-up *)

Section StartupErrors.

Variable config : config.
Variable w : world.

(** X10. In an online run the registration check and the access-token
    check come first: a miner that fails one of them gets that error,
    whatever else is wrong with the configuration, after the chain objects
    are built and before the run directory is created, the constraints are
    looked up or any model is loaded.  The state is left as it was. *)
Theorem online_checks_come_first (s : state) :
  offline config = false →
  registered w && access_token_exists w = false →
  let r := main config w s in
  res r = Raised (if registered w then MissingAccessToken
                  else NotRegistered) ∧
  st r = s ∧
  tr r = [EvConfigureLogging; EvWallet; EvSubtensor; EvMetagraph;
          EvChainStore; EvAssertRegistered]
         ++ (if registered w then [EvAssertAccessToken] else []).
Proof.
  intros Hoff Hc r. subst r. unfold main.
  run_startup; try discriminate;
    unfold after_events; simpl; repeat split; reflexivity.
Qed.

(** X11. An online run with a wandb project and entity but without a
    usable [WANDB_API_KEY] (unset or empty) fails with the "you must set
    WANDB_API_KEY" error only after the starting model has been loaded and
    saved: the run directory holds the bootstrap checkpoint, no telemetry
    session was started or closed, and no epoch was run. *)
Theorem missing_wandb_key_after_bootstrap (s : state) (mc : ModelConstraints) :
  offline config = false →
  registered w && access_token_exists w = true →
  is_Some (wandb_project config) ∧ is_Some (wandb_entity config) →
  MODEL_CONSTRAINTS_BY_COMPETITION_ID w !! competition_id config = Some mc →
  truthy (WANDB_API_KEY w) = None →
  let r := main config w s in
  let dir := model_path w (model_dir config) (run_id w) in
  let c := {| origin := first_match (candidates config (kwargs mc));
              steps := params s |} in
  res r = Raised MissingWandbKey ∧
  saves (tr r) = [(dir, c)] ∧
  disk (st r) = <[dir := c]> (disk s) ∧
  last (tr r) = Some EvOptimizerInit ∧
  count_if is_wandb_init (tr r) = 0%nat ∧
  count_if is_wandb_finish (tr r) = 0%nat ∧
  count_if is_epoch_start (tr r) = 0%nat.
Proof.
  intros Hoff Hc [[p Hp] [e He]] Hmc Hkey r dir c. subst r dir c. unfold main.
  run_startup; try discriminate. injection Hmc as ->.
  unfold after_events; simpl; repeat split; reflexivity.
Qed.

Lemma startup_offline_quiet s :
  offline config = true →
  count_if is_online_only (tr (startup config w s)) = 0%nat.
Proof.
  intros Hoff. run_startup; try discriminate;
    unfold after_events; simpl; reflexivity.
Qed.

(** Offline, the start-up does not look at the credentials. *)
Lemma startup_offline reg tok key s :
  offline config = true →
  startup config (with_credentials reg tok key w) s = startup config w s.
Proof.
  intros Hoff.
  unfold startup, check_online, choose_wandb, start_wandb, with_credentials.
  cbn [MODEL_CONSTRAINTS_BY_COMPETITION_ID model_path run_id
       lookup_constraints].
  rewrite Hoff. cbn [negb]. reflexivity.
Qed.

End StartupErrors.

Lemma online_checks_come_first_witness :
  offline online_config = false ∧
  registered tokenless_world && access_token_exists tokenless_world = false ∧
  res (run_main online_config tokenless_world) = Raised MissingAccessToken.
Proof.
  split; [reflexivity|]. split; [reflexivity|].
  destruct (online_checks_come_first online_config tokenless_world
              (initial_state tokenless_world) eq_refl eq_refl) as (H & _).
  exact H.
Defined.

Lemma missing_wandb_key_after_bootstrap_witness :
  offline online_config = false ∧
  registered keyless_world && access_token_exists keyless_world = true ∧
  (is_Some (wandb_project online_config) ∧
   is_Some (wandb_entity online_config)) ∧
  MODEL_CONSTRAINTS_BY_COMPETITION_ID keyless_world
    !! competition_id online_config = Some {| kwargs := [] |} ∧
  truthy (WANDB_API_KEY keyless_world) = None ∧
  res (run_main online_config keyless_world) = Raised MissingWandbKey ∧
  saves (tr (run_main online_config keyless_world))
  = [("local-models/2024-01-01_00-00-00",
      {| origin := FromScratch; steps := [] |})].
Proof.
  assert (Hw : is_Some (wandb_project online_config) ∧
               is_Some (wandb_entity online_config))
    by (split; eexists; reflexivity).
  assert (Hmc : MODEL_CONSTRAINTS_BY_COMPETITION_ID keyless_world
                  !! competition_id online_config = Some {| kwargs := [] |})
    by (vm_compute; reflexivity).
  split; [reflexivity|]. split; [reflexivity|]. split; [exact Hw|].
  split; [exact Hmc|]. split; [reflexivity|].
  destruct (missing_wandb_key_after_bootstrap online_config keyless_world
              (initial_state keyless_world) {| kwargs := [] |}
              eq_refl eq_refl Hw Hmc eq_refl) as (H1 & H2 & _).
  split; [exact H1|exact H2].
Defined.

(** ** Offline runs *)

Lemma count_if_agree (p p' q : event → bool) (t : list event) :
  (∀ e, q e = true → p e = p' e) →
  forallb q t = true → count_if p t = count_if p' t.
Proof.
  intros Hpq. induction t as [|e t IH]; simpl; [reflexivity|].
  intros [He Ht]%andb_prop. rewrite (Hpq e He), (IH Ht). reflexivity.
Qed.

Lemma count_wandb_log_steps (t : list event) :
  count_if is_wandb_log t = length (wandb_steps t).
Proof.
  induction t as [|e t IH]; simpl; [reflexivity|].
  destruct e; simpl; rewrite ?IH; reflexivity.
Qed.

(** Without telemetry the loop makes none of the calls of an online run. *)
Lemma train_loop_offline_quiet (config : config) (run_dir : string)
  (model : model_source) (fs : list epoch_feed) (s : state) :
  count_if is_online_only (tr (train_loop config false run_dir model fs s))
  = 0%nat.
Proof.
  rewrite (count_if_agree is_online_only is_wandb_log is_epoch_event).
  - rewrite count_wandb_log_steps.
    destruct (train_loop_counts config false run_dir model fs s)
      as (_ & _ & _ & _ & _ & H).
    rewrite H. reflexivity.
  - intros e. destruct e; try discriminate; reflexivity.
  - apply train_loop_emits.
Qed.

(** X12. An offline run does not depend on the credentials: whether the
    hotkey is registered, whether the Hugging Face token exists and what
    [WANDB_API_KEY] holds make no difference to its outcome, its state or
    its trace.  It makes none of the calls of an online run: no registration
    or token check, no telemetry call, no reload and no push. *)
Theorem offline_ignores_credentials (config : config) (w : world)
  (reg tok : bool) (key : option string) :
  offline config = true →
  let r := run_main config w in
  run_main config (with_credentials reg tok key w) = r ∧
  count_if is_online_only (tr r) = 0%nat.
Proof.
  intros Hoff r. subst r. unfold run_main. split.
  - change (initial_state (with_credentials reg tok key w))
      with (initial_state w).
    unfold main. rewrite !bind_after.
    rewrite (startup_offline config w reg tok key _ Hoff). reflexivity.
  - set (s := initial_state w).
    pose proof (startup_offline_quiet config w s Hoff) as Hsq.
    destruct (res (startup config w s)) as [v| |] eqn:Hv;
      [|rewrite main_cases, Hv; exact Hsq..].
    destruct (main_after_startup config w s v Hv) as (_ & _ & Htr).
    destruct (startup_returns config w s v Hv)
      as (_ & _ & _ & _ & Huse & Hrun & _).
    rewrite Hoff in Huse. cbn [negb andb] in Huse. rewrite Huse in Hrun.
    rewrite Htr, Huse, !count_if_app, Hsq, train_loop_offline_quiet.
    unfold finally_events. rewrite Hrun. clear Htr Hv Hsq.
    destruct (res (train_loop _ _ _ _ _ _)); [|reflexivity..].
    rewrite publish_gate_cases. cbv zeta. rewrite Hoff. reflexivity.
Qed.

Lemma offline_ignores_credentials_witness :
  offline offline_config = true ∧
  run_main offline_config
    (with_credentials false false None publishing_world)
  = run_main offline_config publishing_world ∧
  count_if is_online_only
    (tr (run_main offline_config publishing_world)) = 0%nat.
Proof.
  split; [reflexivity|].
  apply (offline_ignores_credentials offline_config
           publishing_world false false None eq_refl).
Defined.

(** ** What is reported to wandb *)

Lemma wandb_reports_app (t u : list event) :
  wandb_reports (t ++ u) = wandb_reports t ++ wandb_reports u.
Proof.
  induction t as [|e t IH]; simpl; [reflexivity|].
  destruct e; simpl; rewrite ?IH; reflexivity.
Qed.

Lemma wandb_reports_steps (t : list event) :
  length (wandb_reports t) = length (wandb_steps t).
Proof.
  induction t as [|e t IH]; simpl; [reflexivity|].
  destruct e; simpl; rewrite ?IH; reflexivity.
Qed.

Section Reports.

Variable config : config.
Variable run_dir : string.
Variable model : model_source.

Let k := accumulation_steps config.

(** The reports of the loop over the loader, entered at index [i] with
    [n_batches = i]. *)
Lemma for_batches_reports losses : ∀ i s,
  0 ≤ i → n_batches s = i →
  Forall (λ x, losses !! Z.to_nat (x.2 - i) = Some x.1 ∧ i ≤ x.2 ∧
               (x.2 + 1) mod k = 0)
    (wandb_reports (tr (for_batches config true i losses s))).
Proof.
  induction losses as [|loss rest IH]; intros i s Hi Hn; [constructor|].
  cbn [for_batches]. rewrite bind_after, micro_batch_cases. cbv zeta.
  fold k. destruct (k =? 0); cbn [res st tr]; [constructor|].
  assert (Hrest : ∀ s', n_batches s' = i + 1 →
            Forall (λ x, (loss :: rest) !! Z.to_nat (x.2 - i) = Some x.1 ∧
                         i ≤ x.2 ∧ (x.2 + 1) mod k = 0)
              (wandb_reports (tr (for_batches config true (i + 1) rest s')))).
  { intros s' Hs'. apply (Forall_impl _ _ _ (IH (i + 1) s' ltac:(lia) Hs')).
    intros x (H1 & H2 & H3). split; [|split; [lia|exact H3]].
    replace (Z.to_nat (x.2 - i)) with (S (Z.to_nat (x.2 - (i + 1)))) by lia.
    exact H1. }
  destruct ((i + 1) mod k =? 0) eqn:E; unfold after_events; cbn [res st tr].
  - apply Z.eqb_eq in E. rewrite wandb_reports_app. apply Forall_app. split.
    + simpl. constructor; [|constructor]. simpl. rewrite Hn, Z.sub_diag.
      repeat split; [lia|exact E].
    + apply Hrest. simpl. lia.
  - rewrite wandb_reports_app. apply Forall_app. split; [constructor|].
    apply Hrest. simpl. lia.
Qed.

(** X13. What an epoch reports to wandb: one call per optimizer step, each
    with the loss of a single micro-batch, the one that closed the
    accumulation window, not a mean over the window; and with [n_batches]
    as it is before that micro-batch is counted, that is its index [i],
    with [(i + 1) % accumulation_steps == 0]. *)
Theorem wandb_reports_last_micro_batch (feed : epoch_feed) (s : state) :
  let r := run_epoch config true run_dir model feed s in
  length (wandb_reports (tr r)) = count_if is_apply (tr r) ∧
  Forall (λ x, batches feed !! Z.to_nat x.2 = Some x.1 ∧ 0 ≤ x.2 ∧
               (x.2 + 1) mod accumulation_steps config = 0)
    (wandb_reports (tr r)).
Proof.
  intros r. subst r. split.
  - destruct (run_epoch_counts config true run_dir model feed s)
      as (_ & H1 & H2 & _ & _ & H5).
    rewrite wandb_reports_steps, H5, H1, length_seqZ. lia.
  - pose proof (run_epoch_cases config true run_dir model feed s) as H.
    pose proof (for_batches_reports (batches feed) 0 (epoch_entry s)
                  ltac:(lia) eq_refl) as Hr.
    fold k.
    assert (Hr' : Forall (λ x, batches feed !! Z.to_nat x.2 = Some x.1 ∧
                               0 ≤ x.2 ∧ (x.2 + 1) mod k = 0)
                    (wandb_reports
                       (tr (for_batches config true 0 (batches feed)
                              (epoch_entry s))))).
    { apply (Forall_impl _ _ _ Hr). intros x (H1 & H2 & H3).
      rewrite Z.sub_0_r in H1. repeat split; assumption. }
    epoch_cases H; rewrite H; cbn [tr]; rewrite !wandb_reports_app;
      simpl; rewrite ?app_nil_r; exact Hr'.
Qed.

End Reports.


(** ** Cancellation *)

Section Cancellation.

Variable config : config.
Variable use_wandb : bool.
Variable run_dir : string.
Variable model : model_source.



End Cancellation.

Section CancellationOfMain.

Variable config : config.
Variable w : world.


End CancellationOfMain.


